(** * Withdrawal lifecycle engine: a shallow embedding of [bot/models.py],
    [bot/storage.py], [bot/manager.py] and [bot/wallet.py], and of their
    callers in [bot/server.py], [bot/discord_bot.py], [bot/config.py] and
    [bot/main.py].

    Python exceptions are values of type [exn]; a method that may raise is a
    function in the state-and-exception monad [M]: the state it leaves
    behind is kept when it raises, as in Python.  The SQLite table is a list
    of rows in rowid order.  Every store method runs under the store's lock,
    so each is one atomic state transformer. *)

From Stdlib Require Import ZArith String Ascii List Lia Bool.
From Stdlib Require Import Floats.SpecFloat.
From stdpp Require Import base option list sorting strings pretty.

Local Open Scope string_scope.
Local Open Scope list_scope.
Local Open Scope Z_scope.

(** ** Exceptions *)

Inductive exn_class :=
| WithdrawalNotFoundError   (* storage.py, a LookupError *)
| WithdrawalStateError      (* storage.py, a RuntimeError *)
| WalletError               (* wallet.py, a RuntimeError *)
| ValueError
| TypeError
| AttributeError
| OverflowError             (* sqlite3: Python int too large for INTEGER *)
| OperationalError          (* sqlite3: no rowid left *)
| InvalidOperation          (* decimal *)
| JSONDecodeError
| ClientError               (* aiohttp *)
| OtherException (name : string).

(** An instance of [Exception]: its class, [str(exc)] and [__cause__]. *)
#[warnings="-register-all"]
Inductive exn :=
| Exception (cls : exn_class) (msg : string) (cause : option exn).

Definition exn_cls (e : exn) : exn_class := let 'Exception c _ _ := e in c.
Definition str (e : exn) : string := let 'Exception _ m _ := e in m.
Definition __cause__ (e : exn) : option exn := let 'Exception _ _ c := e in c.

(** ** The state-and-exception monad *)

Inductive result (A : Type) :=
| Return (a : A)
| Raise (e : exn).
Arguments Return {A} a.
Arguments Raise {A} e.

Definition M (S A : Type) : Type := S → result A * S.

#[global] Instance M_ret {S} : MRet (M S) := λ A a s, (Return a, s).
#[global] Instance M_bind {S} : MBind (M S) := λ A B f m s,
  match m s with
  | (Return a, s') => f a s'
  | (Raise e, s') => (Raise e, s')
  end.

Definition raise {S A} (e : exn) : M S A := λ s, (Raise e, s).

(** [try: m except Exception as exc: ...]: the outcome of [m] as a value. *)
Definition attempt {S A} (m : M S A) : M S (result A) := λ s,
  let '(r, s') := m s in (Return r, s').

(** A computation that only reads or fails, lifted into the monad. *)
Definition lift {S A} (r : result A) : M S A := λ s, (r, s).

Definition gets {S A} (f : S → A) : M S A := λ s, (Return (f s), s).
Definition modify {S} (f : S → S) : M S unit := λ s, (Return tt, f s).

(** ** models.py *)

Inductive WithdrawalStatus := PENDING | PROCESSING | APPROVED | REJECTED | FAILED.

#[global] Instance WithdrawalStatus_eq_dec : EqDecision WithdrawalStatus.
Proof. solve_decision. Defined.

(** [status.value] *)
Definition value (s : WithdrawalStatus) : string :=
  match s with
  | PENDING => "pending"
  | PROCESSING => "processing"
  | APPROVED => "approved"
  | REJECTED => "rejected"
  | FAILED => "failed"
  end.

(** [WithdrawalStatus(text)]; anything else is a [ValueError]. *)
Definition WithdrawalStatus_of (text : string) : result WithdrawalStatus :=
  if String.eqb text "pending" then Return PENDING
  else if String.eqb text "processing" then Return PROCESSING
  else if String.eqb text "approved" then Return APPROVED
  else if String.eqb text "rejected" then Return REJECTED
  else if String.eqb text "failed" then Return FAILED
  else Raise (Exception ValueError
                (text +:+ " is not a valid WithdrawalStatus") None).

(** The terminal states of the lifecycle. *)
Definition terminal (s : WithdrawalStatus) : bool :=
  match s with
  | APPROVED | REJECTED | FAILED => true
  | PENDING | PROCESSING => false
  end.

(** ** The Python runtime the store relies on

    [datetime], [Decimal] and the metadata dictionary are values of the
    standard library; the store only moves them through their text forms
    ([isoformat]/[fromisoformat], [str]/[Decimal(...)], [json.dumps]/
    [json.loads]).  The laws are those of the library: each text form reads
    back as the value it was written from, ISO-8601 texts of naive
    datetimes (what [datetime.utcnow()] returns) compare bytewise, as
    SQLite's BINARY collation does, the way the datetimes do, and
    [json.dumps] never yields the empty text.  [str.strip()], which the
    wallet clients and the configuration call, is the library's as well:
    nothing is assumed of it. *)

Class PyRuntime := {
  datetime : Type;
  datetime_leb : datetime → datetime → bool;
  isoformat : datetime → string;
  fromisoformat : string → option datetime;
  fromisoformat_isoformat : ∀ d, fromisoformat (isoformat d) = Some d;
  isoformat_leb : ∀ a b,
    String.leb (isoformat a) (isoformat b) = datetime_leb a b;

  Decimal : Type;
  Decimal_str : Decimal → string;
  Decimal_of_str : string → option Decimal;
  Decimal_of_str_str : ∀ d, Decimal_of_str (Decimal_str d) = Some d;

  (** [Dict[str, Any]] restricted to what [json.dumps] accepts *)
  Metadata : Type;
  empty_dict : Metadata;
  dict_truthy : Metadata → bool;
  dict_falsy_empty : ∀ m, dict_truthy m = false → m = empty_dict;
  json_dumps : Metadata → string;
  json_loads : string → option Metadata;
  json_loads_dumps : ∀ m, json_loads (json_dumps m) = Some m;
  json_dumps_nonempty : ∀ m, json_dumps m ≠ "";

  (** [text.strip()] *)
  strip : string → string;
}.

Section Storage.
Context `{RT : PyRuntime}.

(** The dataclass [WithdrawalRequest]. *)
Record WithdrawalRequest := {
  id : option Z;
  player_name : string;
  wallet_address : string;
  amount : Decimal;
  currency : string;
  status : WithdrawalStatus;
  created_at : datetime;
  updated_at : datetime;
  player_uuid : option string;
  metadata : Metadata;
  discord_message_id : option Z;
  approved_by : option string;
  approved_by_id : option Z;
  transaction_id : option string;
  failure_reason : option string;
}.

(** ** storage.py *)

(** One row of the table [withdrawals], column by column. *)
Record Row := {
  c_id : Z;                           (* INTEGER PRIMARY KEY AUTOINCREMENT *)
  c_player_name : string;             (* TEXT NOT NULL *)
  c_player_uuid : option string;      (* TEXT *)
  c_wallet_address : string;          (* TEXT NOT NULL *)
  c_amount : string;                  (* TEXT NOT NULL *)
  c_currency : string;                (* TEXT NOT NULL *)
  c_status : string;                  (* TEXT NOT NULL *)
  c_created_at : string;              (* TEXT NOT NULL *)
  c_updated_at : string;              (* TEXT NOT NULL *)
  c_metadata : option string;         (* TEXT *)
  c_discord_message_id : option Z;    (* INTEGER *)
  c_approved_by : option string;      (* TEXT *)
  c_approved_by_id : option Z;        (* INTEGER *)
  c_transaction_id : option string;   (* TEXT *)
  c_failure_reason : option string;   (* TEXT *)
}.

(** The connection: the table in rowid order and the AUTOINCREMENT counter
    SQLite keeps in [sqlite_sequence]. *)
Record Database := {
  withdrawals : list Row;
  sqlite_sequence : Z;
}.

(** The store and the wall clock it reads: [utcnow_at n] is what the
    [n]-th call of [datetime.utcnow()] returns. *)
Record WithdrawalStore := {
  _conn : Database;
  utcnow_at : nat → datetime;
  utcnow_calls : nat;
}.

Definition with_conn (db : Database) (self : WithdrawalStore) : WithdrawalStore :=
  {| _conn := db; utcnow_at := utcnow_at self; utcnow_calls := utcnow_calls self |}.

(** [datetime.utcnow()] *)
Definition utcnow : M WithdrawalStore datetime :=
  now ← gets (λ self, utcnow_at self (utcnow_calls self));
  modify (λ self, {| _conn := _conn self; utcnow_at := utcnow_at self;
                     utcnow_calls := S (utcnow_calls self) |});;
  mret now.

(** SQLite integers are signed 64-bit; the [sqlite3] module refuses to bind
    a Python [int] outside that range. *)
Definition max_int64 : Z := 9223372036854775807.
Definition min_int64 : Z := -9223372036854775808.

Definition fits_int64 (n : Z) : bool := (min_int64 <=? n) && (n <=? max_int64).

Definition bind_int {S} (n : Z) : M S unit :=
  if fits_int64 n then mret tt
  else raise (Exception OverflowError
                "Python int too large to convert to SQLite INTEGER" None).

(** [SELECT * FROM withdrawals WHERE id = ?] and [fetchone()] *)
Definition _get_row (request_id : Z) : M WithdrawalStore (option Row) :=
  bind_int request_id;;
  table ← gets (λ self, withdrawals (_conn self));
  mret (List.find (λ r, c_id r =? request_id) table).

(** The columns [create_request] supplies; the others are NULL. *)
Record Payload := {
  p_player_name : string;
  p_player_uuid : option string;
  p_wallet_address : string;
  p_amount : string;
  p_currency : string;
  p_status : string;
  p_created_at : string;
  p_updated_at : string;
  p_metadata : string;
}.

Definition max_rowid (rows : list Row) : Z :=
  foldr (λ r acc, Z.max (c_id r) acc) 0 rows.

(** [INSERT INTO withdrawals (...) VALUES (...)], then the new row is read
    back by [cursor.lastrowid].  AUTOINCREMENT takes one more than the
    largest rowid the table ever held and refuses once that is the largest
    64-bit integer. *)
Definition _insert_row (payload : Payload) : M WithdrawalStore (option Row) :=
  db ← gets _conn;
  let largest := Z.max (sqlite_sequence db) (max_rowid (withdrawals db)) in
  if max_int64 <=? largest then
    raise (Exception OperationalError "database or disk is full" None)
  else
    let lastrowid := largest + 1 in
    let row := {|
      c_id := lastrowid;
      c_player_name := p_player_name payload;
      c_player_uuid := p_player_uuid payload;
      c_wallet_address := p_wallet_address payload;
      c_amount := p_amount payload;
      c_currency := p_currency payload;
      c_status := p_status payload;
      c_created_at := p_created_at payload;
      c_updated_at := p_updated_at payload;
      c_metadata := Some (p_metadata payload);
      c_discord_message_id := None;
      c_approved_by := None;
      c_approved_by_id := None;
      c_transaction_id := None;
      c_failure_reason := None |} in
    modify (with_conn {| withdrawals := withdrawals db ++ [row];
                         sqlite_sequence := lastrowid |});;
    _get_row lastrowid.

(** [ORDER BY created_at DESC]: the column is TEXT, compared bytewise.  SQL
    leaves the order of rows with equal keys open; the sort used in
    [_select_rows] fixes one. *)
Definition created_desc (a b : Row) : Prop :=
  String.leb (c_created_at b) (c_created_at a).

#[global] Instance created_desc_dec a b : Decision (created_desc a b).
Proof. unfold created_desc. apply _. Defined.

(** [LIMIT ?]: a negative limit is no limit. *)
Definition sql_limit {A} (limit : Z) (rows : list A) : list A :=
  if limit <? 0 then rows else take (Z.to_nat limit) rows.

Definition _select_rows (status : option WithdrawalStatus) (limit : Z)
  : M WithdrawalStore (list Row) :=
  bind_int limit;;
  table ← gets (λ self, withdrawals (_conn self));
  let matching :=
    match status with
    | None => table
    | Some st => List.filter (λ r, String.eqb (c_status r) (value st)) table
    end in
  mret (sql_limit limit (merge_sort created_desc matching)).

(** One entry of the [fields] dictionary of [_update_row]. *)
Inductive Field :=
| status_ (v : string)
| discord_message_id_ (v : Z)
| approved_by_ (v : string)
| approved_by_id_ (v : Z)
| transaction_id_ (v : string)
| failure_reason_ (v : option string).

Definition bind_field {S} (f : Field) : M S unit :=
  match f with
  | discord_message_id_ v | approved_by_id_ v => bind_int v
  | _ => mret tt
  end.

Fixpoint bind_fields {S} (fields : list Field) : M S unit :=
  match fields with
  | [] => mret tt
  | f :: fields => bind_field f;; bind_fields fields
  end.

Definition assign (f : Field) (r : Row) : Row :=
  let upd status dm ab abi tx fr := {|
    c_id := c_id r; c_player_name := c_player_name r;
    c_player_uuid := c_player_uuid r; c_wallet_address := c_wallet_address r;
    c_amount := c_amount r; c_currency := c_currency r;
    c_status := status;
    c_created_at := c_created_at r; c_updated_at := c_updated_at r;
    c_metadata := c_metadata r;
    c_discord_message_id := dm; c_approved_by := ab; c_approved_by_id := abi;
    c_transaction_id := tx; c_failure_reason := fr |} in
  let status := c_status r in
  let dm := c_discord_message_id r in
  let ab := c_approved_by r in
  let abi := c_approved_by_id r in
  let tx := c_transaction_id r in
  let fr := c_failure_reason r in
  match f with
  | status_ v => upd v dm ab abi tx fr
  | discord_message_id_ v => upd status (Some v) ab abi tx fr
  | approved_by_ v => upd status dm (Some v) abi tx fr
  | approved_by_id_ v => upd status dm ab (Some v) tx fr
  | transaction_id_ v => upd status dm ab abi (Some v) fr
  | failure_reason_ v => upd status dm ab abi tx v
  end.

Definition set_updated_at (text : string) (r : Row) : Row := {|
  c_id := c_id r; c_player_name := c_player_name r;
  c_player_uuid := c_player_uuid r; c_wallet_address := c_wallet_address r;
  c_amount := c_amount r; c_currency := c_currency r; c_status := c_status r;
  c_created_at := c_created_at r; c_updated_at := text;
  c_metadata := c_metadata r;
  c_discord_message_id := c_discord_message_id r;
  c_approved_by := c_approved_by r; c_approved_by_id := c_approved_by_id r;
  c_transaction_id := c_transaction_id r;
  c_failure_reason := c_failure_reason r |}.

(** [UPDATE withdrawals SET <fields>, updated_at = ? WHERE id = ?] on one row *)
Definition update_row (fields : list Field) (now : string) (r : Row) : Row :=
  set_updated_at now (foldl (λ r f, assign f r) r fields).

Definition sql_update (fields : list Field) (now : string) (request_id : Z)
    (rows : list Row) : list Row :=
  (λ r, if c_id r =? request_id then update_row fields now r else r) <$> rows.

(** [cursor.rowcount] of that statement *)
Definition rowcount (request_id : Z) (rows : list Row) : nat :=
  length (List.filter (λ r, c_id r =? request_id) rows).

Definition _update_row (request_id : Z) (fields : list Field)
  : M WithdrawalStore (option Row) :=
  match fields with
  | [] => raise (Exception ValueError "No fields provided for update" None)
  | _ =>
    now ← utcnow;
    bind_fields fields;;
    bind_int request_id;;
    db ← gets _conn;
    if Nat.eqb (rowcount request_id (withdrawals db)) 0 then
      raise (Exception WithdrawalNotFoundError
               ("Unknown request: " +:+ pretty request_id) None)
    else
      modify (with_conn {| withdrawals :=
                             sql_update fields (isoformat now) request_id (withdrawals db);
                           sqlite_sequence := sqlite_sequence db |});;
      _get_row request_id
  end.

(** [_row_to_request]: the columns are read in the order the source names
    them, so the first text that does not parse decides the exception. *)
Definition _row_to_request (row : option Row) : result WithdrawalRequest :=
  match row with
  | None => Raise (Exception TypeError "'NoneType' object is not subscriptable" None)
  | Some row =>
    let metadata :=
      match c_metadata row with
      | None => Some empty_dict
      | Some text => if String.eqb text "" then Some empty_dict else json_loads text
      end in
    match metadata with
    | None => Raise (Exception JSONDecodeError "Expecting value" None)
    | Some metadata =>
    match Decimal_of_str (c_amount row) with
    | None => Raise (Exception InvalidOperation "[<class 'decimal.ConversionSyntax'>]" None)
    | Some amount =>
    match WithdrawalStatus_of (c_status row) with
    | Raise e => Raise e
    | Return status =>
    match fromisoformat (c_created_at row) with
    | None => Raise (Exception ValueError
                       ("Invalid isoformat string: " +:+ c_created_at row) None)
    | Some created_at =>
    match fromisoformat (c_updated_at row) with
    | None => Raise (Exception ValueError
                       ("Invalid isoformat string: " +:+ c_updated_at row) None)
    | Some updated_at =>
      Return {|
        id := Some (c_id row);
        player_name := c_player_name row;
        player_uuid := c_player_uuid row;
        wallet_address := c_wallet_address row;
        amount := amount;
        currency := c_currency row;
        status := status;
        created_at := created_at;
        updated_at := updated_at;
        metadata := metadata;
        discord_message_id := c_discord_message_id row;
        approved_by := c_approved_by row;
        approved_by_id := c_approved_by_id row;
        transaction_id := c_transaction_id row;
        failure_reason := c_failure_reason row |}
    end end end end end
  end.

(** [metadata or {}] *)
Definition or_empty (metadata : option Metadata) : Metadata :=
  match metadata with
  | None => empty_dict
  | Some m => if dict_truthy m then m else empty_dict
  end.

End Storage.

(** The public methods of [WithdrawalStore]; each body runs under
    [async with self._lock]. *)
Module Store.
Section Methods.
Context `{RT : PyRuntime}.

Definition create_request (player_name wallet_address : string) (amount : Decimal)
    (currency : string) (player_uuid : option string) (metadata : option Metadata)
  : M WithdrawalStore WithdrawalRequest :=
  created ← utcnow;
  updated ← utcnow;
  let payload := {|
    p_player_name := player_name;
    p_player_uuid := player_uuid;
    p_wallet_address := wallet_address;
    p_amount := Decimal_str amount;
    p_currency := currency;
    p_status := value PENDING;
    p_created_at := isoformat created;
    p_updated_at := isoformat updated;
    p_metadata := json_dumps (or_empty metadata) |} in
  row ← _insert_row payload;
  lift (_row_to_request row).

Definition set_discord_message (request_id message_id : Z)
  : M WithdrawalStore WithdrawalRequest :=
  row ← _update_row request_id [discord_message_id_ message_id];
  lift (_row_to_request row).

Definition unknown_request {A} (request_id : Z) : M WithdrawalStore A :=
  raise (Exception WithdrawalNotFoundError
           ("Unknown request: " +:+ pretty request_id) None).

Definition get_request (request_id : Z) : M WithdrawalStore WithdrawalRequest :=
  row ← _get_row request_id;
  match row with
  | None => unknown_request request_id
  | Some _ => lift (_row_to_request row)
  end.

Fixpoint rows_to_requests (rows : list Row) : result (list WithdrawalRequest) :=
  match rows with
  | [] => Return []
  | row :: rows =>
    match _row_to_request (Some row) with
    | Raise e => Raise e
    | Return r =>
      match rows_to_requests rows with
      | Raise e => Raise e
      | Return rs => Return (r :: rs)
      end
    end
  end.

Definition list_requests (status : option WithdrawalStatus) (limit : Z)
  : M WithdrawalStore (list WithdrawalRequest) :=
  rows ← _select_rows status limit;
  lift (rows_to_requests rows).

Definition mark_processing (request_id : Z) : M WithdrawalStore WithdrawalRequest :=
  request ← _get_row request_id;
  match request with
  | None => unknown_request request_id
  | Some _ =>
    model ← lift (_row_to_request request);
    if negb (bool_decide (status model = PENDING)) then
      raise (Exception WithdrawalStateError
               ("Cannot move request " +:+ pretty request_id +:+
                " to processing from " +:+ value (status model)) None)
    else
      updated ← _update_row request_id [status_ (value PROCESSING)];
      lift (_row_to_request updated)
  end.

Definition mark_approved (request_id : Z) (admin_name : string) (admin_id : Z)
    (transaction_id : string) : M WithdrawalStore WithdrawalRequest :=
  request ← _get_row request_id;
  match request with
  | None => unknown_request request_id
  | Some _ =>
    model ← lift (_row_to_request request);
    if negb (bool_decide (status model ∈ [PENDING; PROCESSING])) then
      raise (Exception WithdrawalStateError
               ("Cannot approve request " +:+ pretty request_id +:+
                " from " +:+ value (status model)) None)
    else
      updated ← _update_row request_id
        [status_ (value APPROVED);
         approved_by_ admin_name;
         approved_by_id_ admin_id;
         transaction_id_ transaction_id;
         failure_reason_ None];
      lift (_row_to_request updated)
  end.

Definition mark_rejected (request_id : Z) (admin_name : string) (admin_id : Z)
    (reason : option string) : M WithdrawalStore WithdrawalRequest :=
  request ← _get_row request_id;
  match request with
  | None => unknown_request request_id
  | Some _ =>
    model ← lift (_row_to_request request);
    if negb (bool_decide (status model ∈ [PENDING; PROCESSING])) then
      raise (Exception WithdrawalStateError
               ("Cannot reject request " +:+ pretty request_id +:+
                " from " +:+ value (status model)) None)
    else
      updated ← _update_row request_id
        [status_ (value REJECTED);
         approved_by_ admin_name;
         approved_by_id_ admin_id;
         failure_reason_ reason];
      lift (_row_to_request updated)
  end.

Definition mark_failed (request_id : Z) (reason : string)
  : M WithdrawalStore WithdrawalRequest :=
  request ← _get_row request_id;
  match request with
  | None => unknown_request request_id
  | Some _ =>
    updated ← _update_row request_id
      [status_ (value FAILED); failure_reason_ (Some reason)];
    lift (_row_to_request updated)
  end.

End Methods.
End Store.

(** ** wallet.py *)

(** A decoded JSON document, as [response.json()] returns it; a [dict] is
    its items with distinct keys. *)
#[warnings="-register-all"]
Inductive json :=
| JNull
| JBool (b : bool)
| JInt (n : Z)
| JFloat (f : spec_float)
| JStr (s : string)
| JList (items : list json)
| JDict (items : list (string * json)).

(** Python truthiness, as [or] and [not] test it. *)
Definition truthy (v : json) : bool :=
  match v with
  | JNull => false
  | JBool b => b
  | JInt n => negb (n =? 0)
  | JFloat (S754_zero _) => false
  | JFloat _ => true
  | JStr s => negb (String.eqb s "")
  | JList items => negb (bool_decide (items = []))
  | JDict items => negb (bool_decide (items = []))
  end.

(** [a or b] *)
Definition or_ (a b : json) : json := if truthy a then a else b.

Fixpoint dict_get (items : list (string * json)) (key : string) : json :=
  match items with
  | [] => JNull
  | (k, v) :: items => if String.eqb k key then v else dict_get items key
  end.

(** [type(data).__name__] *)
Definition type_name (data : json) : string :=
  match data with
  | JNull => "NoneType"
  | JBool _ => "bool"
  | JInt _ => "int"
  | JFloat _ => "float"
  | JStr _ => "str"
  | JList _ => "list"
  | JDict _ => "dict"
  end.

(** [data.get(key)]: only a [dict] has the method. *)
Definition get (data : json) (key : string) : result json :=
  match data with
  | JDict items => Return (dict_get items key)
  | _ => Raise (Exception AttributeError
                  ("'" +:+ type_name data +:+ "' object has no attribute 'get'") None)
  end.

(** What the client reads off an [aiohttp] response: [response.status],
    [await response.text()] and [await response.json(content_type=None)]. *)
Record ClientResponse := {
  r_status : Z;
  r_text : string;
  r_json : result json;
}.

(** One [session.post]: it raises, or a response arrives. *)
Inductive Exchange :=
| PostRaised (exc : exn)
| Responded (response : ClientResponse).

Section Wallets.
Context `{RT : PyRuntime}.

(** [str(transaction_id)]; [repr_of] is Python's rendering of floats,
    lists and dictionaries. *)
Definition str_of (repr_of : json → string) (v : json) : string :=
  match v with
  | JStr s => s
  | JInt n => pretty n
  | JBool true => "True"
  | JBool false => "False"
  | JNull => "None"
  | _ => repr_of v
  end.

(** The abstract base class [WalletClient]: [send_payment self n request]
    is the outcome of the call made after [n] earlier ones. *)
Class WalletClient (W : Type) :=
  send_payment : W → nat → WithdrawalRequest → result string.

(** [DummyWalletClient]; [uuid4 n] is the identifier drawn in the [n]-th call. *)
Record DummyWalletClient := { uuid4 : nat → string }.

#[global] Instance Dummy_send_payment : WalletClient DummyWalletClient :=
  λ self n request, Return ("dummy-" +:+ uuid4 self n).

(** The JSON payload [HTTPWalletClient] posts. *)
Record HTTPPayload := {
  h_request_id : option Z;
  h_player_name : string;
  h_wallet_address : string;
  h_amount : string;
  h_currency : string;
  h_metadata : Metadata;
}.

(** [HTTPWalletClient]; [post n payload] is what the configured endpoint
    answers to the [n]-th request. *)
Record HTTPWalletClient := {
  post : nat → HTTPPayload → Exchange;
  repr : json → string;
}.

Definition transaction_id_of (repr_of : json → string) (data : json) : result string :=
  match get data "transaction_id" with
  | Raise e => Raise e
  | Return a =>
    match (if truthy a then Return a else
             match get data "txid" with
             | Raise e => Raise e
             | Return b =>
               if truthy b then Return b else get data "id"
             end) with
    | Raise e => Raise e
    | Return transaction_id =>
      if negb (truthy transaction_id) then
        Raise (Exception WalletError
                 "Wallet response missing transaction identifier" None)
      else Return (str_of repr_of transaction_id)
    end
  end.

(** The [try] block of [HTTPWalletClient.send_payment] once [session.post]
    has been answered by [exchange]. *)
Definition HTTP_read (exchange : Exchange) : result json :=
  match exchange with
  | PostRaised exc => Raise exc
  | Responded response =>
    if 400 <=? r_status response then
      Raise (Exception WalletError
               ("Wallet request failed with status " +:+ pretty (r_status response)
                +:+ ": " +:+ strip (r_text response)) None)
    else r_json response
  end.

(** The rest of the method: [except aiohttp.ClientError], then the
    identifier is taken from the decoded body. *)
Definition HTTP_receive (repr_of : json → string) (exchange : Exchange) : result string :=
  match HTTP_read exchange with
  | Raise exc =>
    match exn_cls exc with
    | ClientError =>
      Raise (Exception WalletError "Failed to contact wallet endpoint" (Some exc))
    | _ => Raise exc
    end
  | Return data => transaction_id_of repr_of data
  end.

#[global] Instance HTTP_send_payment : WalletClient HTTPWalletClient :=
  λ self n request,
    let payload := {|
      h_request_id := id request;
      h_player_name := player_name request;
      h_wallet_address := wallet_address request;
      h_amount := Decimal_str (amount request);
      h_currency := currency request;
      h_metadata := metadata request |} in
    HTTP_receive (repr self) (post self n payload).

End Wallets.

(** ** wallet.py: the Piteas client *)

Section PiteasWallet.
Context `{RT : PyRuntime}.

(** The JSON payload [PiteasWalletClient] posts; a key the method does not
    set is [None]. *)
Record PiteasPayload := {
  pt_address : string;
  pt_amount : string;
  pt_asset : string;
  pt_network : string;
  pt_externalId : option Z;
  pt_playerName : string;
  pt_metadata : option Metadata;
  pt_memo : option json;
  pt_priority : option string;
}.

(** [PiteasWalletClient] once constructed; [piteas_post n payload] is what
    the endpoint answers to the [n]-th request, and [metadata_get] is
    [dict.get] on the metadata dictionary ([None] for a missing key). *)
Record PiteasWalletClient := {
  _asset_symbol : string;
  _network : string;
  _priority : option string;
  metadata_get : Metadata → string → json;
  piteas_post : nat → PiteasPayload → Exchange;
  piteas_repr : json → string;
}.

Definition Piteas_payload (self : PiteasWalletClient) (request : WithdrawalRequest)
  : PiteasPayload :=
  let memo := metadata_get self (metadata request) "memo" in {|
  pt_address := wallet_address request;
  pt_amount := Decimal_str (amount request);
  pt_asset := _asset_symbol self;
  pt_network := _network self;
  pt_externalId := id request;
  pt_playerName := player_name request;
  pt_metadata :=
    if dict_truthy (metadata request) then Some (metadata request) else None;
  pt_memo :=
    if dict_truthy (metadata request) then
      if truthy memo then Some memo else None
    else None;
  pt_priority :=
    match _priority self with
    | Some p => if String.eqb p "" then None else Some p
    | None => None
    end |}.

Definition Piteas_transaction_id_of (repr_of : json → string) (data : json)
  : result string :=
  match get data "transactionHash" with
  | Raise e => Raise e
  | Return h =>
    match (if truthy h then Return h else
             match get data "transaction_id" with
             | Raise e => Raise e
             | Return a =>
               if truthy a then Return a else
                 match get data "txid" with
                 | Raise e => Raise e
                 | Return b =>
                   if truthy b then Return b else get data "id"
                 end
             end) with
    | Raise e => Raise e
    | Return transaction_id =>
      if negb (truthy transaction_id) then
        Raise (Exception WalletError
                 "Piteas response missing transaction identifier" None)
      else Return (str_of repr_of transaction_id)
    end
  end.

Definition Piteas_read (exchange : Exchange) : result json :=
  match exchange with
  | PostRaised exc => Raise exc
  | Responded response =>
    if 400 <=? r_status response then
      Raise (Exception WalletError
               ("Piteas wallet request failed with status "
                +:+ pretty (r_status response)
                +:+ ": " +:+ strip (r_text response)) None)
    else r_json response
  end.

Definition Piteas_receive (repr_of : json → string) (exchange : Exchange)
  : result string :=
  match Piteas_read exchange with
  | Raise exc =>
    match exn_cls exc with
    | ClientError =>
      Raise (Exception WalletError "Failed to contact Piteas wallet endpoint"
               (Some exc))
    | _ => Raise exc
    end
  | Return data => Piteas_transaction_id_of repr_of data
  end.

#[global] Instance Piteas_send_payment : WalletClient PiteasWalletClient :=
  λ self n request,
    Piteas_receive (piteas_repr self) (piteas_post self n (Piteas_payload self request)).

(** The fields the Piteas client looks for, in priority order. *)
Definition piteas_id_fields : list string :=
  ["transactionHash"; "transaction_id"; "txid"; "id"].

(** The payload [HTTPWalletClient.send_payment] posts for [request]. *)
Definition HTTP_payload (request : WithdrawalRequest) : HTTPPayload := {|
  h_request_id := id request;
  h_player_name := player_name request;
  h_wallet_address := wallet_address request;
  h_amount := Decimal_str (amount request);
  h_currency := currency request;
  h_metadata := metadata request |}.

End PiteasWallet.

(** ** manager.py *)

Section ManagerState.
Context `{RT : PyRuntime}.

(** A listener is called with the request; it may use the store (the bot's
    listener attaches the message it posted) and it may raise. *)
Definition NewRequestListener : Type := WithdrawalRequest → M WithdrawalStore unit.

Record WithdrawalManager {W : Type} := {
  wallet : W;
  _listeners : list NewRequestListener;
}.
Arguments WithdrawalManager W : clear implicits.

(** What a run of the manager touches: the store, and a record of every
    call it makes to the wallet, of every call it makes to a listener (its
    position in the snapshot and the argument), and of every
    [logger.exception]. *)
Record World := {
  store : WithdrawalStore;
  payments : list WithdrawalRequest;
  deliveries : list (nat * WithdrawalRequest);
  logged : list string;
}.

Definition on_store {A} (m : M WithdrawalStore A) : M World A := λ w,
  let '(r, s) := m (store w) in
  (r, {| store := s; payments := payments w; deliveries := deliveries w;
         logged := logged w |}).

Definition logger_exception (message : string) : M World unit :=
  modify (λ w, {| store := store w; payments := payments w;
                  deliveries := deliveries w; logged := logged w ++ [message] |}).

(** [await self.wallet.send_payment(request)] *)
Definition wallet_send_payment {W} `{!WalletClient W} (self : WithdrawalManager W)
    (request : WithdrawalRequest) : M World string :=
  n ← gets (λ w, length (payments w));
  modify (λ w, {| store := store w; payments := payments w ++ [request];
                  deliveries := deliveries w; logged := logged w |});;
  lift (send_payment (wallet self) n request).

(** [listener(request)], awaited when it is a coroutine *)
Definition call_listener (i : nat) (listener : NewRequestListener)
    (request : WithdrawalRequest) : M World unit :=
  modify (λ w, {| store := store w; payments := payments w;
                  deliveries := deliveries w ++ [(i, request)];
                  logged := logged w |});;
  on_store (listener request).

End ManagerState.
Arguments WithdrawalManager {RT} W.

Module Manager.
Section Methods.
Context `{RT : PyRuntime} {W : Type} `{!WalletClient W}.

Definition add_listener (listener : NewRequestListener) (self : WithdrawalManager W)
  : WithdrawalManager W :=
  {| wallet := wallet self; _listeners := _listeners self ++ [listener] |}.

(** The loop of [_notify_new_request] over the snapshot, from position [i]. *)
Fixpoint notify_each (i : nat) (listeners : list NewRequestListener)
    (request : WithdrawalRequest) : M World unit :=
  match listeners with
  | [] => mret tt
  | listener :: listeners =>
    outcome ← attempt (call_listener i listener request);
    match outcome with
    | Return _ => mret tt
    | Raise _ => logger_exception "Failed to deliver withdrawal notification"
    end;;
    notify_each (S i) listeners request
  end.

Definition _notify_new_request (self : WithdrawalManager W)
    (request : WithdrawalRequest) : M World unit :=
  notify_each 0 (_listeners self) request.

Definition create_request (self : WithdrawalManager W)
    (player_name wallet_address : string) (amount : Decimal) (currency : string)
    (player_uuid : option string) (metadata : option Metadata)
  : M World WithdrawalRequest :=
  request ← on_store (Store.create_request player_name wallet_address amount
                        currency player_uuid metadata);
  _notify_new_request self request;;
  mret request.

Definition attach_message (self : WithdrawalManager W) (request_id message_id : Z)
  : M World WithdrawalRequest :=
  on_store (Store.set_discord_message request_id message_id).

Definition approve_request (self : WithdrawalManager W) (request_id : Z)
    (admin_name : string) (admin_id : Z) : M World WithdrawalRequest :=
  processing ← on_store (Store.mark_processing request_id);
  outcome ← attempt (wallet_send_payment self processing);
  match outcome with
  | Raise exc =>
    logger_exception ("Wallet transfer failed for request " +:+ pretty request_id);;
    on_store (Store.mark_failed request_id (str exc));;
    raise (Exception WalletError "Wallet transfer failed" (Some exc))
  | Return transaction_id =>
    on_store (Store.mark_approved request_id admin_name admin_id transaction_id)
  end.

Definition reject_request (self : WithdrawalManager W) (request_id : Z)
    (admin_name : string) (admin_id : Z) (reason : option string)
  : M World WithdrawalRequest :=
  on_store (Store.mark_rejected request_id admin_name admin_id reason).

Definition list_pending (self : WithdrawalManager W) (limit : Z)
  : M World (list WithdrawalRequest) :=
  on_store (Store.list_requests (Some PENDING) limit).

Definition get_request (self : WithdrawalManager W) (request_id : Z)
  : M World WithdrawalRequest :=
  on_store (Store.get_request request_id).

End Methods.
End Manager.

(** ** config.py *)

(** [str.lower()], within ASCII. *)
Definition lower_char (c : ascii) : ascii :=
  let n := N_of_ascii c in
  if ((65 <=? n) && (n <=? 90))%N then ascii_of_N (n + 32) else c.

Fixpoint lower (s : string) : string :=
  match s with
  | EmptyString => EmptyString
  | String c s' => String (lower_char c) (lower s')
  end.

(** [values.split(",")] *)
Fixpoint split_comma (s : string) : list string :=
  match s with
  | EmptyString => [EmptyString]
  | String c s' =>
    if Ascii.eqb c "," then EmptyString :: split_comma s'
    else match split_comma s' with
         | part :: parts => String c part :: parts
         | [] => [String c EmptyString]
         end
  end.

(** [not value] for a [str | None] *)
Definition falsy (value : option string) : bool :=
  match value with
  | None => true
  | Some v => String.eqb v ""
  end.

Record Settings := {
  discord_token : string;
  withdrawal_channel_id : Z;
  admin_role_ids : list Z;
  guild_id : option Z;
  api_host : string;
  api_port : Z;
  database_path : string;
  log_level : string;
  wallet_provider : string;
  wallet_endpoint : option string;
  wallet_api_key : option string;
  piteas_api_url : option string;
  piteas_api_key : option string;
  piteas_project_id : option string;
  piteas_wallet_id : option string;
  piteas_asset_symbol : option string;
  piteas_network : option string;
  piteas_priority : option string;
}.

Section Config.
Context `{RT : PyRuntime}.

(** [int(value)] on a string ([None] when it raises [ValueError]), and
    [repr] of a string. *)
Variable int_of : string → option Z.
Variable repr_str : string → string.

Definition _parse_int (value : option string) (default : option Z)
  : result (option Z) :=
  match value with
  | None => Return default
  | Some v =>
    if String.eqb v "" then Return default
    else
      match int_of v with
      | Some n => Return (Some n)
      | None =>
        Raise (Exception ValueError
                 ("Expected integer but received " +:+ repr_str v)
                 (Some (Exception ValueError
                          ("invalid literal for int() with base 10: "
                           +:+ repr_str v) None)))
      end
  end.

(** The loop of [_parse_int_list] over the parts. *)
Fixpoint parse_parts (parts : list string) : result (list Z) :=
  match parts with
  | [] => Return []
  | raw :: parts =>
    let raw := strip raw in
    if String.eqb raw "" then parse_parts parts
    else
      match _parse_int (Some raw) None with
      | Raise exc => Raise exc
      | Return parsed =>
        match parse_parts parts with
        | Raise exc => Raise exc
        | Return result => Return (default 0 parsed :: result)
        end
      end
  end.

Definition _parse_int_list (values : option string) : result (list Z) :=
  if falsy values then Return []
  else parse_parts (split_comma (default "" values)).

(** [Settings.from_env]; [getenv] is [os.getenv]. *)
Definition from_env (getenv : string → option string) : result Settings :=
  let discord_token := getenv "DISCORD_TOKEN" in
  if falsy discord_token then
    Raise (Exception ValueError
             "DISCORD_TOKEN environment variable is required" None)
  else
  match _parse_int (getenv "WITHDRAWAL_CHANNEL_ID") None with
  | Raise exc => Raise exc
  | Return None =>
    Raise (Exception ValueError
             "WITHDRAWAL_CHANNEL_ID environment variable is required" None)
  | Return (Some withdrawal_channel_id) =>
  match _parse_int_list (getenv "ADMIN_ROLE_IDS") with
  | Raise exc => Raise exc
  | Return admin_role_ids =>
  match _parse_int (getenv "HOME_GUILD_ID") None with
  | Raise exc => Raise exc
  | Return guild_id =>
  match _parse_int (getenv "API_PORT") (Some 8080) with
  | Raise exc => Raise exc
  | Return parsed_port =>
  let api_port :=
    match parsed_port with
    | Some port => if port =? 0 then 8080 else port
    | None => 8080
    end in
  let wallet_provider := lower (strip (default "auto" (getenv "WALLET_PROVIDER"))) in
  let piteas_api_key := getenv "PITEAS_API_KEY" in
  let piteas_project_id := getenv "PITEAS_PROJECT_ID" in
  let piteas_wallet_id := getenv "PITEAS_WALLET_ID" in
  let piteas_asset_symbol := getenv "PITEAS_ASSET_SYMBOL" in
  let piteas_network := getenv "PITEAS_NETWORK" in
  if negb (String.eqb wallet_provider "auto" || String.eqb wallet_provider "piteas")
  then Raise (Exception ValueError
                "WALLET_PROVIDER must be either 'auto' or 'piteas'" None)
  else
  let missing :=
    (List.filter (λ item, falsy (snd item))
       [("PITEAS_API_KEY", piteas_api_key);
        ("PITEAS_PROJECT_ID", piteas_project_id);
        ("PITEAS_WALLET_ID", piteas_wallet_id);
        ("PITEAS_ASSET_SYMBOL", piteas_asset_symbol);
        ("PITEAS_NETWORK", piteas_network)]).*1 in
  if String.eqb wallet_provider "piteas" && negb (bool_decide (missing = []))
  then Raise (Exception ValueError
                ("Piteas wallet provider selected but missing required env vars: "
                 +:+ String.concat ", " missing) None)
  else Return {|
    discord_token := default "" discord_token;
    withdrawal_channel_id := withdrawal_channel_id;
    admin_role_ids := admin_role_ids;
    guild_id := guild_id;
    api_host := default "0.0.0.0" (getenv "API_HOST");
    api_port := api_port;
    database_path := default "withdrawals.db" (getenv "DATABASE_PATH");
    log_level := default "INFO" (getenv "LOG_LEVEL");
    wallet_provider := wallet_provider;
    wallet_endpoint := getenv "WALLET_ENDPOINT";
    wallet_api_key := getenv "WALLET_API_KEY";
    piteas_api_url := getenv "PITEAS_API_URL";
    piteas_api_key := piteas_api_key;
    piteas_project_id := piteas_project_id;
    piteas_wallet_id := piteas_wallet_id;
    piteas_asset_symbol := piteas_asset_symbol;
    piteas_network := piteas_network;
    piteas_priority := getenv "PITEAS_PRIORITY" |}
  end end end end.

End Config.

(** ** wallet.py and main.py: which wallet client is built *)

(** The checks of [HTTPWalletClient.__init__]. *)
Definition HTTPWalletClient_init (endpoint : option string) : result unit :=
  if falsy endpoint then
    Raise (Exception ValueError "Wallet endpoint must be provided" None)
  else Return tt.

(** The class of the wallet client [main] builds. *)
Inductive WalletKind := PiteasWallet | HTTPWallet | DummyWallet.

(** What [PiteasWalletClient.__init__] uses of [yarl]: [URL(text)],
    [url.scheme] and [url / segment]; the first and the last may raise. *)
Section WalletSelection.
Variable URL : Type.
Variable URL_of : string → result URL.
Variable scheme : URL → string.
Variable truediv : URL → string → result URL.

(** [base / segment / ... / segment], from the left. *)
Fixpoint URL_join (base : URL) (segments : list string) : result URL :=
  match segments with
  | [] => Return base
  | segment :: segments =>
    match truediv base segment with
    | Raise exc => Raise exc
    | Return url => URL_join url segments
    end
  end.

(** [PiteasWalletClient.__init__], up to the endpoint it stores; the
    assignments that follow cannot raise. *)
Definition PiteasWalletClient_init
    (base_url api_key project_id wallet_id asset_symbol network : option string)
  : result URL :=
  if falsy base_url then
    Raise (Exception ValueError "Piteas base URL must be provided" None)
  else if falsy api_key then
    Raise (Exception ValueError "Piteas API key must be provided" None)
  else if falsy project_id then
    Raise (Exception ValueError "Piteas project ID must be provided" None)
  else if falsy wallet_id then
    Raise (Exception ValueError "Piteas wallet ID must be provided" None)
  else if falsy asset_symbol then
    Raise (Exception ValueError "Piteas asset symbol must be provided" None)
  else if falsy network then
    Raise (Exception ValueError "Piteas network must be provided" None)
  else
    match URL_of (default "" base_url) with
    | Raise exc => Raise exc
    | Return base =>
      if String.eqb (scheme base) "" then
        Raise (Exception ValueError
                 "Piteas base URL must include a scheme (e.g. https://)" None)
      else
        URL_join base ["api"; "projects"; default "" project_id;
                       "wallets"; default "" wallet_id; "withdrawals"]
    end.

(** [settings.piteas_api_url or "https://api.piteas.io"] *)
Definition piteas_base_url (settings : Settings) : string :=
  if falsy (piteas_api_url settings) then "https://api.piteas.io"
  else default "" (piteas_api_url settings).

(** The wallet selection of [main]. *)
Definition main_wallet (settings : Settings) : result WalletKind :=
  if String.eqb (wallet_provider settings) "piteas" then
    match PiteasWalletClient_init
            (Some (piteas_base_url settings))
            (piteas_api_key settings) (piteas_project_id settings)
            (piteas_wallet_id settings) (piteas_asset_symbol settings)
            (piteas_network settings) with
    | Raise exc => Raise exc
    | Return _ => Return PiteasWallet
    end
  else if negb (falsy (wallet_endpoint settings)) then
    match HTTPWalletClient_init (wallet_endpoint settings) with
    | Raise exc => Raise exc
    | Return _ => Return HTTPWallet
    end
  else Return DummyWallet.

End WalletSelection.

(** ** server.py: how a request ends *)

(** How a request to an endpoint ends: the handler returns, it raises
    [HTTPException], FastAPI refuses a parameter before the handler runs
    (status 422), pydantic refuses the response model, or another
    exception leaves the handler. *)
Inductive Outcome (A : Type) :=
| Served (a : A)
| HTTPException (status_code : Z) (detail : string) (cause : exn)
| RequestValidationError
| ValidationError
| Unhandled (e : exn).
Arguments Served {A} a.
Arguments HTTPException {A} status_code detail cause.
Arguments RequestValidationError {A}.
Arguments ValidationError {A}.
Arguments Unhandled {A} e.

(** ** models.py: [to_api_dict] *)

Section Api.
Context `{RT : PyRuntime}.

(** The dictionary [to_api_dict] returns, one field per key. *)
Record ApiDict := {
  api_id : option Z;
  api_player_name : string;
  api_player_uuid : option string;
  api_wallet_address : string;
  api_amount : string;
  api_currency : string;
  api_status : string;
  api_created_at : string;
  api_updated_at : string;
  api_metadata : Metadata;
  api_discord_message_id : option Z;
  api_approved_by : option string;
  api_approved_by_id : option Z;
  api_transaction_id : option string;
  api_failure_reason : option string;
}.

Definition to_api_dict (self : WithdrawalRequest) : ApiDict := {|
  api_id := id self;
  api_player_name := player_name self;
  api_player_uuid := player_uuid self;
  api_wallet_address := wallet_address self;
  api_amount := Decimal_str (amount self);
  api_currency := currency self;
  api_status := value (status self);
  api_created_at := isoformat (created_at self);
  api_updated_at := isoformat (updated_at self);
  api_metadata := metadata self;
  api_discord_message_id := discord_message_id self;
  api_approved_by := approved_by self;
  api_approved_by_id := approved_by_id self;
  api_transaction_id := transaction_id self;
  api_failure_reason := failure_reason self |}.

(** ** server.py *)

(** The pydantic model [WithdrawalResponse]. *)
Record WithdrawalResponse := {
  resp_id : Z;
  resp_status : string;
  resp_player_name : string;
  resp_wallet_address : string;
  resp_amount : string;
  resp_currency : string;
  resp_player_uuid : option string;
  resp_metadata : Metadata;
  resp_transaction_id : option string;
  resp_failure_reason : option string;
}.

(** [WithdrawalResponse.from_request]: the model is built from the keys of
    [to_api_dict] it declares, the other keys are ignored; [id: int]
    refuses [None], which is pydantic's [ValidationError] ([None] here). *)
Definition from_request (request : WithdrawalRequest) : option WithdrawalResponse :=
  let d := to_api_dict request in
  match api_id d with
  | None => None
  | Some n => Some {|
      resp_id := n;
      resp_status := api_status d;
      resp_player_name := api_player_name d;
      resp_wallet_address := api_wallet_address d;
      resp_amount := api_amount d;
      resp_currency := api_currency d;
      resp_player_uuid := api_player_uuid d;
      resp_metadata := api_metadata d;
      resp_transaction_id := api_transaction_id d;
      resp_failure_reason := api_failure_reason d |}
  end.

(** [[WithdrawalResponse.from_request(req) for req in requests]] *)
Fixpoint from_requests (requests : list WithdrawalRequest)
  : option (list WithdrawalResponse) :=
  match requests with
  | [] => Some []
  | request :: requests =>
    match from_request request with
    | None => None
    | Some response =>
      match from_requests requests with
      | None => None
      | Some responses => Some (response :: responses)
      end
    end
  end.

(** The pydantic model [WithdrawalCreate], as the handler receives it. *)
Record WithdrawalCreate := {
  wc_player_name : string;
  wc_wallet_address : string;
  wc_amount : Decimal;
  wc_currency : string;
  wc_player_uuid : option string;
  wc_metadata : option Metadata;
}.

Section Endpoints.
Context {W : Type} `{!WalletClient W}.

Definition respond (request : WithdrawalRequest) : Outcome WithdrawalResponse :=
  match from_request request with
  | Some response => Served response
  | None => ValidationError
  end.

Definition create_withdrawal (mgr : WithdrawalManager W) (payload : WithdrawalCreate)
  : World → Outcome WithdrawalResponse * World := λ w,
  match Manager.create_request mgr (wc_player_name payload)
          (wc_wallet_address payload) (wc_amount payload) (wc_currency payload)
          (wc_player_uuid payload) (wc_metadata payload) w with
  | (Raise exc, w') => (Unhandled exc, w')
  | (Return request, w') => (respond request, w')
  end.

Definition get_withdrawal (mgr : WithdrawalManager W) (request_id : Z)
  : World → Outcome WithdrawalResponse * World := λ w,
  match Manager.get_request mgr request_id w with
  | (Raise exc, w') =>
    match exn_cls exc with
    | WithdrawalNotFoundError => (HTTPException 404 (str exc) exc, w')
    | _ => (Unhandled exc, w')
    end
  | (Return request, w') => (respond request, w')
  end.

(** [limit: int = Query(50, ge=1, le=200)]: [None] is an absent parameter. *)
Definition list_withdrawals (mgr : WithdrawalManager W)
    (status_filter : option string) (limit : option Z)
  : World → Outcome (list WithdrawalResponse) * World := λ w,
  let limit := default 50 limit in
  if negb ((1 <=? limit) && (limit <=? 200)) then (RequestValidationError, w)
  else
    let status_value :=
      match status_filter with
      | None => Return None
      | Some text =>
        match WithdrawalStatus_of (lower text) with
        | Return st => Return (Some st)
        | Raise exc => Raise exc
        end
      end in
    match status_value with
    | Raise exc =>
      match exn_cls exc with
      | ValueError => (HTTPException 400 "Invalid status filter" exc, w)
      | _ => (Unhandled exc, w)
      end
    | Return status_value =>
      match on_store (Store.list_requests status_value limit) w with
      | (Raise exc, w') => (Unhandled exc, w')
      | (Return requests, w') =>
        (match from_requests requests with
         | Some responses => Served responses
         | None => ValidationError
         end, w')
      end
    end.

End Endpoints.

End Api.

(** ** discord_bot.py *)

(** A Discord user, as far as [_is_authorised] looks at it: a
    [discord.Member] with [guild_permissions.administrator] and the
    identifiers of its roles, or a user that is no member. *)
Inductive User :=
| Member (administrator : bool) (roles : list Z)
| NotMember.

Definition _is_authorised (settings : Settings) (user : User) : bool :=
  match user with
  | Member administrator roles =>
    if administrator then true
    else if bool_decide (admin_role_ids settings = []) then true
    else existsb (λ role, bool_decide (role ∈ admin_role_ids settings)) roles
  | NotMember => false
  end.

Section Bot.
Context `{RT : PyRuntime}.

(** A channel, as far as the listener uses it: whether it is a
    [TextChannel] or a [Thread], and [channel.send(embed=..., view=...)]
    for the embed and the view of a request, which returns the identifier
    of the message or raises. *)
Record Channel := {
  text_compatible : bool;
  send : WithdrawalRequest → result Z;
}.

(** [await self.fetch_channel(...)]: a channel, a [discord.HTTPException]
    (or a subclass of it), or another exception. *)
Inductive Fetch :=
| Fetched (channel : Channel)
| FetchHTTPException
| FetchRaised (exc : exn).

Record WithdrawalBot := {
  settings : Settings;
  get_channel : Z → option Channel;
  fetch_channel : Z → Fetch;
}.

(** [self.manager.attach_message(request.id, message.id)]; with the
    identity [None] the update matches no row. *)
Definition attach (request_id : option Z) (message_id : Z) : M WithdrawalStore unit :=
  match request_id with
  | Some request_id => Store.set_discord_message request_id message_id;; mret tt
  | None =>
    utcnow;;
    bind_int message_id;;
    raise (Exception WithdrawalNotFoundError "Unknown request: None" None)
  end.

Definition _handle_new_request (self : WithdrawalBot) (request : WithdrawalRequest)
  : M WithdrawalStore unit :=
  let send_to (channel : Channel) : M WithdrawalStore unit :=
    if negb (text_compatible channel) then mret tt
    else
      message_id ← lift (send channel request);
      attach (id request) message_id in
  match get_channel self (withdrawal_channel_id (settings self)) with
  | Some channel => send_to channel
  | None =>
    match fetch_channel self (withdrawal_channel_id (settings self)) with
    | Fetched channel => send_to channel
    | FetchHTTPException => mret tt
    | FetchRaised exc => raise exc
    end
  end.

End Bot.

(** * Vocabulary of the statements

    Names for the stores, rows and requests the theorems speak of, each
    defined over the embedding above: the row a lookup reads, the store an
    update or an insertion leaves, what it means for a request to be the
    reading of a row, and the stores a sequence of calls can lead to. *)

Section Vocabulary.
Context `{RT : PyRuntime}.

(** ** Rows, clock readings and updates *)

Definition has_id (request_id : Z) (row : Row) : bool := c_id row =? request_id.

(** The row [_get_row] reads. *)
Definition row_of (request_id : Z) (s : WithdrawalStore) : option Row :=
  List.find (has_id request_id) (withdrawals (_conn s)).

(** The store once [utcnow] has been called. *)
Definition ticked (s : WithdrawalStore) : WithdrawalStore :=
  {| _conn := _conn s; utcnow_at := utcnow_at s; utcnow_calls := S (utcnow_calls s) |}.

Definition now (s : WithdrawalStore) : datetime := utcnow_at s (utcnow_calls s).

(** The store once [_update_row] has rewritten the rows of [request_id]. *)
Definition updated (request_id : Z) (fields : list Field) (s : WithdrawalStore)
  : WithdrawalStore :=
  with_conn {| withdrawals := sql_update fields (isoformat (now s)) request_id
                                (withdrawals (_conn s));
               sqlite_sequence := sqlite_sequence (_conn s) |} (ticked s).

Definition fields_fit (fields : list Field) : bool :=
  forallb (λ f, match f with
                | discord_message_id_ v | approved_by_id_ v => fits_int64 v
                | _ => true
                end) fields.

(** ** Reading a row back *)

(** The metadata a row holds, as [_row_to_request] reads it. *)
Definition metadata_of (row : Row) : option Metadata :=
  match c_metadata row with
  | None => Some empty_dict
  | Some text => if String.eqb text "" then Some empty_dict else json_loads text
  end.

(** [decoded row r]: [r] is what [_row_to_request] makes of [row]. *)
Record decoded (row : Row) (r : WithdrawalRequest) : Prop := {
  d_id : id r = Some (c_id row);
  d_player_name : player_name r = c_player_name row;
  d_player_uuid : player_uuid r = c_player_uuid row;
  d_wallet_address : wallet_address r = c_wallet_address row;
  d_amount : Decimal_of_str (c_amount row) = Some (amount r);
  d_currency : currency r = c_currency row;
  d_status : c_status row = value (status r);
  d_created_at : fromisoformat (c_created_at row) = Some (created_at r);
  d_updated_at : fromisoformat (c_updated_at row) = Some (updated_at r);
  d_metadata : metadata_of row = Some (metadata r);
  d_discord_message_id : discord_message_id r = c_discord_message_id row;
  d_approved_by : approved_by r = c_approved_by row;
  d_approved_by_id : approved_by_id r = c_approved_by_id row;
  d_transaction_id : transaction_id r = c_transaction_id row;
  d_failure_reason : failure_reason r = c_failure_reason row;
}.

(** [r], as it reads once an update has rewritten the mutable columns. *)
Definition amend (r : WithdrawalRequest) (status : WithdrawalStatus)
    (updated_at : datetime) (discord_message_id : option Z)
    (approved_by : option string) (approved_by_id : option Z)
    (transaction_id failure_reason : option string) : WithdrawalRequest := {|
  id := id r;
  player_name := player_name r;
  wallet_address := wallet_address r;
  amount := amount r;
  currency := currency r;
  status := status;
  created_at := created_at r;
  updated_at := updated_at;
  player_uuid := player_uuid r;
  metadata := metadata r;
  discord_message_id := discord_message_id;
  approved_by := approved_by;
  approved_by_id := approved_by_id;
  transaction_id := transaction_id;
  failure_reason := failure_reason |}.

(** The columns no update writes. *)
Definition same_frame (row row' : Row) : Prop :=
  c_id row' = c_id row ∧ c_player_name row' = c_player_name row ∧
  c_player_uuid row' = c_player_uuid row ∧
  c_wallet_address row' = c_wallet_address row ∧ c_amount row' = c_amount row ∧
  c_currency row' = c_currency row ∧ c_created_at row' = c_created_at row ∧
  c_metadata row' = c_metadata row.

(** ** The guarded transitions *)

(** The shape [mark_processing], [mark_approved] and [mark_rejected] share:
    read the row, check its status, update. *)
Definition transition (request_id : Z) (accepts : WithdrawalStatus → bool)
    (refusal : WithdrawalStatus → string) (fields : list Field)
  : M WithdrawalStore WithdrawalRequest :=
  request ← _get_row request_id;
  match request with
  | None => Store.unknown_request request_id
  | Some _ =>
    model ← lift (_row_to_request request);
    if negb (accepts (status model)) then
      raise (Exception WithdrawalStateError (refusal (status model)) None)
    else
      updated ← _update_row request_id fields;
      lift (_row_to_request updated)
  end.

(** ** Creation *)

Definition largest_rowid (s : WithdrawalStore) : Z :=
  Z.max (sqlite_sequence (_conn s)) (max_rowid (withdrawals (_conn s))).

(** The row [create_request] inserts. *)
Definition new_row (s : WithdrawalStore) (player_name wallet_address : string)
    (amount : Decimal) (currency : string) (player_uuid : option string)
    (metadata : option Metadata) : Row := {|
  c_id := largest_rowid s + 1;
  c_player_name := player_name;
  c_player_uuid := player_uuid;
  c_wallet_address := wallet_address;
  c_amount := Decimal_str amount;
  c_currency := currency;
  c_status := value PENDING;
  c_created_at := isoformat (now s);
  c_updated_at := isoformat (now (ticked s));
  c_metadata := Some (json_dumps (or_empty metadata));
  c_discord_message_id := None;
  c_approved_by := None;
  c_approved_by_id := None;
  c_transaction_id := None;
  c_failure_reason := None |}.

(** The request it returns. *)
Definition new_request (s : WithdrawalStore) (player_name wallet_address : string)
    (amount : Decimal) (currency : string) (player_uuid : option string)
    (metadata : option Metadata) : WithdrawalRequest := {|
  id := Some (largest_rowid s + 1);
  player_name := player_name;
  wallet_address := wallet_address;
  amount := amount;
  currency := currency;
  status := PENDING;
  created_at := now s;
  updated_at := now (ticked s);
  player_uuid := player_uuid;
  metadata := or_empty metadata;
  discord_message_id := None;
  approved_by := None;
  approved_by_id := None;
  transaction_id := None;
  failure_reason := None |}.

(** The store it leaves. *)
Definition inserted (row : Row) (s : WithdrawalStore) : WithdrawalStore :=
  with_conn {| withdrawals := withdrawals (_conn s) ++ [row];
               sqlite_sequence := c_id row |} (ticked (ticked s)).

(** The row [_insert_row] makes of a payload. *)
Definition row_of_payload (rowid : Z) (payload : Payload) : Row := {|
  c_id := rowid;
  c_player_name := p_player_name payload;
  c_player_uuid := p_player_uuid payload;
  c_wallet_address := p_wallet_address payload;
  c_amount := p_amount payload;
  c_currency := p_currency payload;
  c_status := p_status payload;
  c_created_at := p_created_at payload;
  c_updated_at := p_updated_at payload;
  c_metadata := Some (p_metadata payload);
  c_discord_message_id := None;
  c_approved_by := None;
  c_approved_by_id := None;
  c_transaction_id := None;
  c_failure_reason := None |}.

(** ** The manager's world *)

Definition with_store (s : WithdrawalStore) (w : World) : World :=
  {| store := s; payments := payments w; deliveries := deliveries w;
     logged := logged w |}.

(** ** Sequences of store calls *)

(** A call of one of the store's writing methods, with its arguments. *)
Inductive StoreOp :=
| create_request_ (name address : string) (amt : Decimal) (ccy : string)
    (uuid : option string) (md : option Metadata)
| set_discord_message_ (request_id message_id : Z)
| mark_processing_ (request_id : Z)
| mark_approved_ (request_id : Z) (admin_name : string) (admin_id : Z)
    (transaction_id : string)
| mark_rejected_ (request_id : Z) (admin_name : string) (admin_id : Z)
    (reason : option string)
| mark_failed_ (request_id : Z) (reason : string).

Definition call (op : StoreOp) : M WithdrawalStore WithdrawalRequest :=
  match op with
  | create_request_ name address amt ccy uuid md =>
    Store.create_request name address amt ccy uuid md
  | set_discord_message_ request_id message_id =>
    Store.set_discord_message request_id message_id
  | mark_processing_ request_id => Store.mark_processing request_id
  | mark_approved_ request_id admin_name admin_id transaction_id =>
    Store.mark_approved request_id admin_name admin_id transaction_id
  | mark_rejected_ request_id admin_name admin_id reason =>
    Store.mark_rejected request_id admin_name admin_id reason
  | mark_failed_ request_id reason => Store.mark_failed request_id reason
  end.

(** The store after the call, whether it returned or raised. *)
Definition after (op : StoreOp) (s : WithdrawalStore) : WithdrawalStore :=
  snd (call op s).

(** The store [_ensure_schema] sets up on a new database file. *)
Definition new_store (clock : nat → datetime) : WithdrawalStore :=
  {| _conn := {| withdrawals := []; sqlite_sequence := 0 |};
     utcnow_at := clock; utcnow_calls := 0 |}.

(** The stores any sequence of calls can lead to. *)
Inductive reachable : WithdrawalStore → Prop :=
| reachable_new clock : reachable (new_store clock)
| reachable_after op s : reachable s → reachable (after op s).

(** The updates the methods make, by the status text of the row they find. *)
Inductive permitted : string → list Field → Prop :=
| permit_message text message_id :
    permitted text [discord_message_id_ message_id]
| permit_processing :
    permitted (value PENDING) [status_ (value PROCESSING)]
| permit_approved st admin_name admin_id tx :
    terminal st = false →
    permitted (value st)
      [status_ (value APPROVED); approved_by_ admin_name;
       approved_by_id_ admin_id; transaction_id_ tx; failure_reason_ None]
| permit_rejected st admin_name admin_id reason :
    terminal st = false →
    permitted (value st)
      [status_ (value REJECTED); approved_by_ admin_name;
       approved_by_id_ admin_id; failure_reason_ reason]
| permit_failed text reason :
    permitted text [status_ (value FAILED); failure_reason_ (Some reason)].

(** The update a call asks for: the identity and the [fields] dictionary. *)
Definition update_of (op : StoreOp) : option (Z * list Field) :=
  match op with
  | create_request_ _ _ _ _ _ _ => None
  | set_discord_message_ request_id message_id =>
    Some (request_id, [discord_message_id_ message_id])
  | mark_processing_ request_id =>
    Some (request_id, [status_ (value PROCESSING)])
  | mark_approved_ request_id admin_name admin_id transaction_id =>
    Some (request_id,
          [status_ (value APPROVED); approved_by_ admin_name;
           approved_by_id_ admin_id; transaction_id_ transaction_id;
           failure_reason_ None])
  | mark_rejected_ request_id admin_name admin_id reason =>
    Some (request_id,
          [status_ (value REJECTED); approved_by_ admin_name;
           approved_by_id_ admin_id; failure_reason_ reason])
  | mark_failed_ request_id reason =>
    Some (request_id, [status_ (value FAILED); failure_reason_ (Some reason)])
  end.

(** ** The invariant of the table *)

(** A row the store wrote: it reads back, its creation time is an ISO text,
    it carries a transaction identifier if approved and only if approved or
    failed, and its rowid is a 64-bit integer. *)
Definition row_ok (row : Row) : Prop :=
  (∃ r, decoded row r ∧ c_created_at row = isoformat (created_at r))
  ∧ (c_status row = value APPROVED → is_Some (c_transaction_id row))
  ∧ (is_Some (c_transaction_id row) →
     c_status row = value APPROVED ∨ c_status row = value FAILED)
  ∧ fits_int64 (c_id row) = true.

Definition store_ok (s : WithdrawalStore) : Prop :=
  NoDup (c_id <$> withdrawals (_conn s)) ∧ Forall row_ok (withdrawals (_conn s)).

(** ** Listing *)

(** Newest first: no request is older than one that follows it. *)
Definition newest_first (a b : WithdrawalRequest) : Prop :=
  datetime_leb (created_at b) (created_at a) = true.

(** [r] is what the store holds in [row], written by the store. *)
Definition holds (row : Row) (r : WithdrawalRequest) : Prop :=
  decoded row r ∧ c_created_at row = isoformat (created_at r).

(** The rows the query selects. *)
Definition selected (filter : option WithdrawalStatus) (limit : Z)
    (s : WithdrawalStore) : list Row :=
  let table := withdrawals (_conn s) in
  sql_limit limit
    (merge_sort created_desc
       match filter with
       | None => table
       | Some st => List.filter (λ row, String.eqb (c_status row) (value st)) table
       end).

(** ** The HTTP wallet's response *)

(** [data] is a JSON object with a member named [key]. *)
Definition has_field (data : json) (key : string) : Prop :=
  ∃ items, data = JDict items ∧ key ∈ items.*1.

(** The fields the client looks for, in priority order. *)
Definition id_fields : list string := ["transaction_id"; "txid"; "id"].

End Vocabulary.

(** ** Vocabulary of the further properties *)

Section FurtherVocabulary.
Context `{RT : PyRuntime}.

(** What a store call can make of a request [r] at clock reading [d]: the
    five updates, at the level of requests. *)
Inductive moves (r : WithdrawalRequest) (d : datetime) : WithdrawalRequest → Prop :=
| moves_message message_id :
    moves r d (amend r (status r) d (Some message_id) (approved_by r)
                 (approved_by_id r) (transaction_id r) (failure_reason r))
| moves_processing :
    status r = PENDING →
    moves r d (amend r PROCESSING d (discord_message_id r) (approved_by r)
                 (approved_by_id r) (transaction_id r) (failure_reason r))
| moves_approved admin_name admin_id tx :
    terminal (status r) = false →
    moves r d (amend r APPROVED d (discord_message_id r) (Some admin_name)
                 (Some admin_id) (Some tx) None)
| moves_rejected admin_name admin_id reason :
    terminal (status r) = false →
    moves r d (amend r REJECTED d (discord_message_id r) (Some admin_name)
                 (Some admin_id) (transaction_id r) reason)
| moves_failed reason :
    moves r d (amend r FAILED d (discord_message_id r) (approved_by r)
                 (approved_by_id r) (transaction_id r) (Some reason)).

(** The fields no store call writes. *)
Definition same_request (r r' : WithdrawalRequest) : Prop :=
  id r' = id r ∧ player_name r' = player_name r ∧ player_uuid r' = player_uuid r
  ∧ wallet_address r' = wallet_address r ∧ amount r' = amount r
  ∧ currency r' = currency r ∧ created_at r' = created_at r
  ∧ metadata r' = metadata r.

(** The steps of the lifecycle as the store implements them. *)
Definition status_step (st st' : WithdrawalStatus) : Prop :=
  st' = st
  ∨ (st = PENDING ∧ st' = PROCESSING)
  ∨ (terminal st = false ∧ (st' = APPROVED ∨ st' = REJECTED))
  ∨ st' = FAILED.

(** The store after a sequence of calls. *)
Definition after_all (ops : list StoreOp) (s : WithdrawalStore) : WithdrawalStore :=
  foldl (λ s op, after op s) s ops.

(** A call of [set_discord_message]. *)
Definition message_op (op : StoreOp) : Prop :=
  ∃ request_id message_id, op = set_discord_message_ request_id message_id.

(** A listener that does nothing to the store but calls
    [set_discord_message]. *)
Definition attaches_only (listener : NewRequestListener) : Prop :=
  ∀ request s, is_Some (id request) →
    ∃ ops, Forall message_op ops ∧ snd (listener request s) = after_all ops s.

(** The identities are 1, 2, ..., n in table order, and [sqlite_sequence]
    holds n. *)
Definition consecutive (s : WithdrawalStore) : Prop :=
  c_id <$> withdrawals (_conn s)
    = Z.of_nat <$> seq 1 (length (withdrawals (_conn s)))
  ∧ sqlite_sequence (_conn s) = Z.of_nat (length (withdrawals (_conn s))).

(** The request [mark_processing] makes of a pending request [r]. *)
Definition processing_of (r : WithdrawalRequest) (s : WithdrawalStore)
  : WithdrawalRequest :=
  amend r PROCESSING (now s) (discord_message_id r) (approved_by r)
    (approved_by_id r) (transaction_id r) (failure_reason r).

(** The request [mark_approved] makes of [r] once it is processing. *)
Definition approved_of (r : WithdrawalRequest) (s : WithdrawalStore)
    (admin_name : string) (admin_id : Z) (tx : string) : WithdrawalRequest :=
  amend (processing_of r s) APPROVED (now (ticked s)) (discord_message_id r)
    (Some admin_name) (Some admin_id) (Some tx) None.

(** The request [mark_failed] makes of [r] once it is processing. *)
Definition failed_of (r : WithdrawalRequest) (s : WithdrawalStore)
    (reason : string) : WithdrawalRequest :=
  amend (processing_of r s) FAILED (now (ticked s)) (discord_message_id r)
    (approved_by r) (approved_by_id r) (transaction_id r) (Some reason).

(** The rows the [WHERE] clause of [_select_rows] keeps. *)
Definition matching (filter : option WithdrawalStatus) (s : WithdrawalStore)
  : list Row :=
  match filter with
  | None => withdrawals (_conn s)
  | Some st =>
    List.filter (λ row, String.eqb (c_status row) (value st)) (withdrawals (_conn s))
  end.

(** What the API shows of a request: the fields of [WithdrawalResponse]. *)
Definition same_response (r r' : WithdrawalRequest) : Prop :=
  same_request r r' ∧ status r' = status r
  ∧ transaction_id r' = transaction_id r ∧ failure_reason r' = failure_reason r.

End FurtherVocabulary.

(** ** A runtime to run the model on

    Every library value is represented by the text the library writes for
    it: a datetime by its ISO-8601 text, a [Decimal] by its literal, a
    metadata dictionary by its (non-empty) JSON text.  All texts of the run
    are ASCII. *)

Module TextRuntime.

Record JsonText := { first_char : ascii; more_chars : string }.

Definition text_of (m : JsonText) : string := String (first_char m) (more_chars m).

Definition of_text (s : string) : option JsonText :=
  match s with
  | EmptyString => None
  | String c s' => Some {| first_char := c; more_chars := s' |}
  end.

Definition nonempty_json (m : JsonText) : bool :=
  negb (String.eqb (text_of m) "{}").

(** The texts of the run are ASCII; on ASCII text [str.strip()] removes
    the characters 9 to 13 and 28 to 32 from both ends. *)
Definition ascii_isspace (c : ascii) : bool :=
  let n := N_of_ascii c in
  ((9 <=? n) && (n <=? 13) || (28 <=? n) && (n <=? 32))%N.

Fixpoint ascii_lstrip (s : string) : string :=
  match s with
  | String c s' => if ascii_isspace c then ascii_lstrip s' else s
  | EmptyString => EmptyString
  end.

Fixpoint ascii_rstrip (s : string) : string :=
  match s with
  | String c s' =>
    match ascii_rstrip s' with
    | EmptyString => if ascii_isspace c then EmptyString else String c EmptyString
    | rest => String c rest
    end
  | EmptyString => EmptyString
  end.

Definition ascii_strip (s : string) : string := ascii_rstrip (ascii_lstrip s).

#[export] Instance runtime : PyRuntime := {|
  datetime := string;
  datetime_leb := String.leb;
  isoformat := λ d, d;
  fromisoformat := Some;
  fromisoformat_isoformat := λ d, eq_refl;
  isoformat_leb := λ a b, eq_refl;
  Decimal := string;
  Decimal_str := λ d, d;
  Decimal_of_str := Some;
  Decimal_of_str_str := λ d, eq_refl;
  Metadata := JsonText;
  empty_dict := {| first_char := "{"; more_chars := "}" |};
  dict_truthy := nonempty_json;
  dict_falsy_empty := ltac:(
    intros [c s] H; apply negb_false_iff, String.eqb_eq in H; by inversion H);
  json_dumps := text_of;
  json_loads := of_text;
  json_loads_dumps := ltac:(by intros [c s]);
  json_dumps_nonempty := ltac:(by intros [c s]);
  strip := ascii_strip;
|}.

(** A clock that ticks once a second from midnight, for five readings. *)
Definition clock (n : nat) : string :=
  nth n ["2024-01-01T00:00:00"; "2024-01-01T00:00:01"; "2024-01-01T00:00:02";
         "2024-01-01T00:00:03"; "2024-01-01T00:00:04"]
    "2024-01-01T00:00:05".

End TextRuntime.

(** * The model on a concrete run *)

Module Scenario.
Import TextRuntime.

Definition empty : WithdrawalStore := new_store clock.

(** One request is created; then it is approved, or rejected. *)
Definition create_1 : StoreOp :=
  create_request_ "Steve" "addr1" "1.5" "BTC" None None.
Definition pending_1 : WithdrawalStore := after create_1 empty.
Definition processing_1 : WithdrawalStore := after (mark_processing_ 1) pending_1.
Definition approved_1 : WithdrawalStore :=
  after (mark_approved_ 1 "admin" 1 "tx-1") pending_1.
Definition rejected_1 : WithdrawalStore :=
  after (mark_rejected_ 1 "admin" 1 (Some "policy")) pending_1.
Definition approved_then_failed_1 : WithdrawalStore :=
  after (mark_failed_ 1 "late failure") approved_1.
Definition rejected_then_failed_1 : WithdrawalStore :=
  after (mark_failed_ 1 "late failure") rejected_1.

(** The request as it reads in each of these stores. *)
Definition request_1 : WithdrawalRequest := {|
  id := Some 1;
  player_name := "Steve";
  wallet_address := "addr1";
  amount := "1.5";
  currency := "BTC";
  status := PENDING;
  created_at := "2024-01-01T00:00:00";
  updated_at := "2024-01-01T00:00:01";
  player_uuid := None;
  metadata := {| first_char := "{"; more_chars := "}" |};
  discord_message_id := None;
  approved_by := None;
  approved_by_id := None;
  transaction_id := None;
  failure_reason := None |}.

Definition later : string := "2024-01-01T00:00:02".
Definition latest : string := "2024-01-01T00:00:03".

Definition request_1_processing : WithdrawalRequest :=
  amend request_1 PROCESSING later None None None None None.
Definition request_1_approved : WithdrawalRequest :=
  amend request_1 APPROVED later None (Some "admin") (Some 1) (Some "tx-1") None.
Definition request_1_rejected : WithdrawalRequest :=
  amend request_1 REJECTED later None (Some "admin") (Some 1) None (Some "policy").
Definition request_1_approved_then_failed : WithdrawalRequest :=
  amend request_1 FAILED latest None (Some "admin") (Some 1) (Some "tx-1")
    (Some "late failure").
Definition request_1_rejected_then_failed : WithdrawalRequest :=
  amend request_1 FAILED latest None (Some "admin") (Some 1) None
    (Some "late failure").

Definition world_of (s : WithdrawalStore) : World :=
  {| store := s; payments := []; deliveries := []; logged := [] |}.

(** An endpoint that is down, and what the client makes of its answer. *)
Definition endpoint_down : HTTPWalletClient :=
  {| post := λ _ _, Responded {| r_status := 503; r_text := " maintenance ";
                                 r_json := Raise (Exception JSONDecodeError
                                                    "Expecting value" None) |};
     repr := λ _, "" |}.

Definition endpoint_down_error : exn :=
  Exception WalletError "Wallet request failed with status 503: maintenance" None.

(** Two listeners: the first raises, the second attaches a message. *)
Definition raising_listener : NewRequestListener :=
  λ _, raise (Exception (OtherException "HTTPException") "cannot post" None).
Definition attaching_listener : NewRequestListener :=
  λ request, Store.set_discord_message (default 0 (id request)) 77;; mret tt.

Definition manager : WithdrawalManager HTTPWalletClient :=
  Manager.add_listener attaching_listener
    (Manager.add_listener raising_listener
       {| wallet := endpoint_down; _listeners := [] |}).

End Scenario.

(** ** A concrete deployment: environment, settings, bot and managers *)

Module Deployment.
Import TextRuntime Scenario.

(** [int] on the two numerals the environment holds. *)
Definition int_of (text : string) : option Z :=
  if String.eqb text "42" then Some 42
  else if String.eqb text "7" then Some 7
  else None.

Definition repr_str (text : string) : string := "'" +:+ text +:+ "'".

Definition getenv (name : string) : option string :=
  if String.eqb name "DISCORD_TOKEN" then Some "token"
  else if String.eqb name "WITHDRAWAL_CHANNEL_ID" then Some "42"
  else if String.eqb name "WALLET_PROVIDER" then Some " Auto "
  else None.

Definition loaded : Settings := {|
  discord_token := "token";
  withdrawal_channel_id := 42;
  admin_role_ids := [];
  guild_id := None;
  api_host := "0.0.0.0";
  api_port := 8080;
  database_path := "withdrawals.db";
  log_level := "INFO";
  wallet_provider := "auto";
  wallet_endpoint := None;
  wallet_api_key := None;
  piteas_api_url := None;
  piteas_api_key := None;
  piteas_project_id := None;
  piteas_wallet_id := None;
  piteas_asset_symbol := None;
  piteas_network := None;
  piteas_priority := None |}.

(** The channel the bot posts to; every message gets the identifier 77. *)
Definition channel_42 : Channel :=
  {| text_compatible := true; send := λ _, Return 77 |}.

Definition bot : WithdrawalBot :=
  {| settings := loaded;
     get_channel := λ _, None;
     fetch_channel := λ _, Fetched channel_42 |}.

Definition stand_in : DummyWalletClient := {| uuid4 := λ _, "0000" |}.

(** The manager [main] builds from [loaded], with the bot's listener. *)
Definition bot_manager : WithdrawalManager DummyWalletClient :=
  Manager.add_listener (_handle_new_request bot)
    {| wallet := stand_in; _listeners := [] |}.

(** An endpoint that pays, and one that cannot be reached. *)
Definition paid_response : ClientResponse :=
  {| r_status := 200; r_text := "{}";
     r_json := Return (JDict [("transaction_id", JStr ""); ("txid", JStr "abc")]) |}.

Definition endpoint_up : HTTPWalletClient :=
  {| post := λ _ _, Responded paid_response; repr := λ _, "" |}.

Definition unreachable : exn := Exception ClientError "Cannot connect to host" None.

Definition endpoint_unreachable : HTTPWalletClient :=
  {| post := λ _ _, PostRaised unreachable; repr := λ _, "" |}.

Definition paying_manager : WithdrawalManager HTTPWalletClient :=
  {| wallet := endpoint_up; _listeners := [] |}.

Definition offline_manager : WithdrawalManager HTTPWalletClient :=
  {| wallet := endpoint_unreachable; _listeners := [] |}.

Definition payload_2 : WithdrawalCreate :=
  {| wc_player_name := "Alex"; wc_wallet_address := "addr2"; wc_amount := "2";
     wc_currency := "LTC"; wc_player_uuid := None; wc_metadata := None |}.

(** The second request, as [create_request] makes it on [pending_1]. *)
Definition request_2 : WithdrawalRequest :=
  new_request pending_1 "Alex" "addr2" "2" "LTC" None None.

(** An environment that selects Piteas, and what loads from it. *)
Definition getenv_piteas (name : string) : option string :=
  if String.eqb name "DISCORD_TOKEN" then Some "token"
  else if String.eqb name "WITHDRAWAL_CHANNEL_ID" then Some "42"
  else if String.eqb name "WALLET_PROVIDER" then Some "PITEAS"
  else if String.eqb name "PITEAS_API_KEY" then Some "key"
  else if String.eqb name "PITEAS_PROJECT_ID" then Some "p1"
  else if String.eqb name "PITEAS_WALLET_ID" then Some "w1"
  else if String.eqb name "PITEAS_ASSET_SYMBOL" then Some "BTC"
  else if String.eqb name "PITEAS_NETWORK" then Some "bitcoin"
  else None.

Definition loaded_piteas : Settings := {|
  discord_token := "token";
  withdrawal_channel_id := 42;
  admin_role_ids := [];
  guild_id := None;
  api_host := "0.0.0.0";
  api_port := 8080;
  database_path := "withdrawals.db";
  log_level := "INFO";
  wallet_provider := "piteas";
  wallet_endpoint := None;
  wallet_api_key := None;
  piteas_api_url := None;
  piteas_api_key := Some "key";
  piteas_project_id := Some "p1";
  piteas_wallet_id := Some "w1";
  piteas_asset_symbol := Some "BTC";
  piteas_network := Some "bitcoin";
  piteas_priority := None |}.

(** URLs as their text: every text parses, the default base URL has the
    scheme https, and a segment that starts with a slash is refused. *)
Definition url_of (text : string) : result string := Return text.

Definition url_scheme (url : string) : string :=
  if String.prefix "https://" url then "https" else "".

Definition url_truediv (url segment : string) : result string :=
  if String.prefix "/" segment then
    Raise (Exception ValueError "Appending path starting from slash is forbidden"
             None)
  else Return (url +:+ "/" +:+ segment).

(** A Piteas answer that names the transaction by hash and by id. *)
Definition piteas_response : ClientResponse :=
  {| r_status := 201; r_text := "{}";
     r_json := Return (JDict [("id", JInt 7); ("transactionHash", JStr "0xabc")]) |}.

End Deployment.

(** * Facts about the store *)

Ltac run :=
  unfold mbind, M_bind, mret, M_ret, gets, modify, raise, lift, attempt; simpl.

(** Closes a goal that only rewrites fields along a [decoded] fact. *)
Ltac by_decoded Hdec := destruct Hdec; simpl; congruence.

Arguments _get_row : simpl never.
Arguments _update_row : simpl never.
Arguments _insert_row : simpl never.
Arguments _select_rows : simpl never.
Arguments _row_to_request : simpl never.

Section StoreFacts.
Context `{RT : PyRuntime}.

Implicit Types (s : WithdrawalStore) (row : Row) (r : WithdrawalRequest).

Lemma get_row_fits request_id s :
  fits_int64 request_id = true →
  _get_row request_id s = (Return (row_of request_id s), s).
Proof. intros H. unfold _get_row, bind_int. rewrite H. reflexivity. Qed.

Lemma get_row_overflow request_id s :
  fits_int64 request_id = false →
  ∃ e, _get_row request_id s = (Raise e, s) ∧ exn_cls e = OverflowError.
Proof. intros H. unfold _get_row, bind_int. rewrite H. by eexists. Qed.

Lemma bind_fields_fit (fields : list Field) s :
  fields_fit fields = true → bind_fields fields s = (Return tt, s).
Proof.
  induction fields as [|f fields IH]; [done|].
  simpl. intros [Hf Hrest]%andb_true_iff.
  unfold mbind, M_bind.
  replace (bind_field f s) with (Return tt, s); [by apply IH|].
  destruct f; simpl; try done; unfold bind_int; by rewrite Hf.
Qed.

Lemma rowcount_0 request_id (rows : list Row) :
  Nat.eqb (rowcount request_id rows) 0 = true ↔
  List.find (has_id request_id) rows = None.
Proof.
  unfold rowcount. induction rows as [|row rows IH]; [done|].
  simpl. unfold has_id in *. destruct (c_id row =? request_id); simpl; [|done].
  split; discriminate.
Qed.

Lemma assign_id f row : c_id (assign f row) = c_id row.
Proof. by destruct f. Qed.

Lemma update_row_id fields text row : c_id (update_row fields text row) = c_id row.
Proof.
  unfold update_row. simpl.
  revert row. induction fields as [|f fields IH]; intros row; [done|].
  simpl. by rewrite IH, assign_id.
Qed.

Lemma find_sql_update fields text request_id other (rows : list Row) :
  List.find (has_id other) (sql_update fields text request_id rows) =
  (λ row, if c_id row =? request_id then update_row fields text row else row)
    <$> List.find (has_id other) rows.
Proof.
  unfold sql_update. induction rows as [|row rows IH]; [done|].
  simpl. unfold has_id in *.
  replace (c_id (if c_id row =? request_id then update_row fields text row else row))
    with (c_id row) by (destruct (c_id row =? request_id); by rewrite ?update_row_id).
  by destruct (c_id row =? other).
Qed.

Lemma row_of_updated_same request_id fields s :
  row_of request_id (updated request_id fields s) =
  update_row fields (isoformat (now s)) <$> row_of request_id s.
Proof.
  unfold row_of, updated. simpl. rewrite find_sql_update.
  destruct (List.find (has_id request_id) (withdrawals (_conn s))) as [row|] eqn:Hf;
    [|done].
  apply find_some in Hf as [_ Hid]. unfold has_id in Hid. simpl. by rewrite Hid.
Qed.

Lemma row_of_updated_other request_id other fields s :
  other ≠ request_id →
  row_of other (updated request_id fields s) = row_of other s.
Proof.
  intros Hne. unfold row_of, updated. simpl. rewrite find_sql_update.
  destruct (List.find (has_id other) (withdrawals (_conn s))) as [row|] eqn:Hf;
    [|done].
  apply find_some in Hf as [_ Hid]. unfold has_id in Hid. simpl.
  apply Z.eqb_eq in Hid. subst other.
  by destruct (Z.eqb_spec (c_id row) request_id).
Qed.

Lemma update_row_unfold request_id f fields s :
  _update_row request_id (f :: fields) s =
  match bind_fields (f :: fields) (ticked s) with
  | (Raise e, s1) => (Raise e, s1)
  | (Return _, s1) =>
    match bind_int request_id s1 with
    | (Raise e, s2) => (Raise e, s2)
    | (Return _, s2) =>
      if Nat.eqb (rowcount request_id (withdrawals (_conn s2))) 0 then
        (Raise (Exception WithdrawalNotFoundError
                  ("Unknown request: " +:+ pretty request_id) None), s2)
      else
        _get_row request_id
          (with_conn {| withdrawals :=
                          sql_update (f :: fields) (isoformat (now s)) request_id
                            (withdrawals (_conn s2));
                        sqlite_sequence := sqlite_sequence (_conn s2) |} s2)
    end
  end.
Proof.
  unfold _update_row, utcnow. run.
  change (bind_field f ≫= λ _ : (), bind_fields fields)
    with (bind_fields (S:=WithdrawalStore) (f :: fields)).
  fold (ticked s). fold (now s).
  destruct (bind_fields (f :: fields) (ticked s)) as [[[]|e] s1]; [|done].
  destruct (bind_int request_id s1) as [[[]|e] s2]; [|done].
  by destruct (Nat.eqb _ 0).
Qed.

Lemma bind_int_state {S} n (s0 : S) : snd (bind_int n s0) = s0.
Proof. unfold bind_int. by destruct (fits_int64 n). Qed.

Lemma bind_fields_unfit (fields : list Field) s :
  fields_fit fields = false → ∃ e, bind_fields fields s = (Raise e, s).
Proof.
  induction fields as [|f fields IH]; [done|].
  simpl. intros Hbad. unfold mbind, M_bind.
  assert (snd (bind_field f s) = s) as Hs
    by (destruct f; try done; apply bind_int_state).
  destruct (bind_field f s) as [[[]|e] s1] eqn:Hb; simpl in Hs; subst s1;
    [|by eexists].
  apply andb_false_iff in Hbad as [Hf|Hfs]; [|by apply IH].
  destruct f; simpl in *; try done; unfold bind_int in Hb; by rewrite Hf in Hb.
Qed.

(** [_update_row] on a row that exists. *)
Lemma update_row_found request_id fields s row :
  fields ≠ [] → fields_fit fields = true → fits_int64 request_id = true →
  row_of request_id s = Some row →
  _update_row request_id fields s =
    (Return (Some (update_row fields (isoformat (now s)) row)),
     updated request_id fields s).
Proof.
  intros Hne Hfit Hid Hrow.
  destruct fields as [|f fields]; [done|].
  rewrite update_row_unfold, bind_fields_fit by done.
  unfold bind_int. rewrite Hid. run.
  destruct (Nat.eqb _ 0) eqn:Hcount.
  { apply rowcount_0 in Hcount. unfold row_of in Hrow. congruence. }
  change (_get_row request_id (updated request_id (f :: fields) s) =
          (Return (Some (update_row (f :: fields) (isoformat (now s)) row)),
           updated request_id (f :: fields) s)).
  rewrite get_row_fits by done.
  by rewrite row_of_updated_same, Hrow.
Qed.

(** Where [_update_row] leaves the store. *)
Lemma update_row_state request_id fields s :
  snd (_update_row request_id fields s) = s ∨
  snd (_update_row request_id fields s) = ticked s ∨
  (is_Some (row_of request_id s) ∧ fields_fit fields = true ∧
   snd (_update_row request_id fields s) = updated request_id fields s).
Proof.
  destruct fields as [|f fields]; [by left|].
  destruct (fields_fit (f :: fields)) eqn:Hfit; cycle 1.
  { right; left. rewrite update_row_unfold.
    by destruct (bind_fields_unfit (f :: fields) (ticked s) Hfit) as (e & ->). }
  destruct (fits_int64 request_id) eqn:Hid; cycle 1.
  { right; left. rewrite update_row_unfold, bind_fields_fit by done.
    unfold bind_int. by rewrite Hid. }
  destruct (row_of request_id s) as [row|] eqn:Hrow.
  - right; right. by rewrite (update_row_found _ _ _ row).
  - right; left. rewrite update_row_unfold, bind_fields_fit by done.
    unfold bind_int. rewrite Hid. run.
    apply rowcount_0 in Hrow. by rewrite Hrow.
Qed.

(** *** Reading a row back *)

Lemma status_of_value st : WithdrawalStatus_of (value st) = Return st.
Proof. by destruct st. Qed.

Lemma status_of_inv text st : WithdrawalStatus_of text = Return st → text = value st.
Proof.
  unfold WithdrawalStatus_of.
  repeat match goal with
         | |- context [String.eqb text ?v] =>
           destruct (String.eqb_spec text v) as [->|_]; [by intros [= <-]|]
         end.
  discriminate.
Qed.

Lemma row_to_request_decoded row r :
  _row_to_request (Some row) = Return r ↔ decoded row r.
Proof.
  unfold _row_to_request. fold (metadata_of row). split.
  - destruct (metadata_of row) as [m|] eqn:Hm; [|done].
    destruct (Decimal_of_str (c_amount row)) as [a|] eqn:Ha; [|done].
    destruct (WithdrawalStatus_of (c_status row)) as [st|] eqn:Hst; [|done].
    destruct (fromisoformat (c_created_at row)) as [c|] eqn:Hc; [|done].
    destruct (fromisoformat (c_updated_at row)) as [u|] eqn:Hu; [|done].
    intros [= <-]. apply status_of_inv in Hst. by split.
  - intros [? ? ? ? Ha ? Hst Hc Hu Hm ? ? ? ? ?].
    rewrite Hm, Ha, Hst, status_of_value, Hc, Hu.
    destruct r; simpl in *. by simplify_eq.
Qed.

Lemma decoded_amend row row' r st d :
  decoded row r → same_frame row row' →
  c_status row' = value st → c_updated_at row' = isoformat d →
  decoded row' (amend r st d (c_discord_message_id row') (c_approved_by row')
                  (c_approved_by_id row') (c_transaction_id row')
                  (c_failure_reason row')).
Proof.
  intros [] (Hid & Hn & Hu & Hw & Ha & Hc & Hcr & Hm) Hst Hup.
  split; simpl; rewrite ?Hid, ?Hn, ?Hu, ?Hw, ?Ha, ?Hc, ?Hcr; try done.
  - by rewrite Hup, fromisoformat_isoformat.
  - unfold metadata_of. by rewrite Hm.
Qed.

(** *** The store methods, case by case *)

Lemma get_request_found request_id s row r :
  fits_int64 request_id = true → row_of request_id s = Some row → decoded row r →
  Store.get_request request_id s = (Return r, s).
Proof.
  intros Hfit Hrow Hdec%row_to_request_decoded.
  unfold Store.get_request. run. rewrite get_row_fits, Hrow by done.
  by rewrite Hdec.
Qed.

Lemma get_request_inv request_id s r :
  fst (Store.get_request request_id s) = Return r →
  fits_int64 request_id = true ∧
  ∃ row, row_of request_id s = Some row ∧ decoded row r.
Proof.
  unfold Store.get_request. run.
  destruct (fits_int64 request_id) eqn:Hfit.
  - rewrite get_row_fits by done.
    destruct (row_of request_id s) as [row|] eqn:Hrow; [|done].
    intros Hdec%row_to_request_decoded. eauto.
  - destruct (get_row_overflow request_id s Hfit) as (e & -> & _). done.
Qed.

Lemma get_request_state request_id s : snd (Store.get_request request_id s) = s.
Proof.
  unfold Store.get_request. run.
  destruct (fits_int64 request_id) eqn:Hfit.
  - rewrite get_row_fits by done. by destruct (row_of request_id s).
  - by destruct (get_row_overflow request_id s Hfit) as (e & -> & _).
Qed.

Lemma transition_refused request_id accepts refusal fields s row r :
  fits_int64 request_id = true → row_of request_id s = Some row → decoded row r →
  accepts (status r) = false →
  transition request_id accepts refusal fields s =
    (Raise (Exception WithdrawalStateError (refusal (status r)) None), s).
Proof.
  intros Hfit Hrow Hdec%row_to_request_decoded Hno.
  unfold transition. run. rewrite get_row_fits, Hrow by done.
  by rewrite Hdec, Hno.
Qed.

Lemma transition_accepted request_id accepts refusal fields s row r st :
  fits_int64 request_id = true → row_of request_id s = Some row → decoded row r →
  accepts (status r) = true →
  fields ≠ [] → fields_fit fields = true →
  let row' := update_row fields (isoformat (now s)) row in
  same_frame row row' → c_status row' = value st →
  transition request_id accepts refusal fields s =
    (Return (amend r st (now s) (c_discord_message_id row') (c_approved_by row')
               (c_approved_by_id row') (c_transaction_id row')
               (c_failure_reason row')),
     updated request_id fields s).
Proof.
  intros Hfit Hrow Hdec Hyes Hne Hff row' Hframe Hst.
  pose proof Hdec as Hdec'%row_to_request_decoded.
  unfold transition. run. rewrite get_row_fits, Hrow by done.
  rewrite Hdec', Hyes. simpl.
  rewrite (update_row_found _ _ _ row) by done.
  fold row'.
  assert (decoded row' (amend r st (now s) (c_discord_message_id row')
            (c_approved_by row') (c_approved_by_id row') (c_transaction_id row')
            (c_failure_reason row'))) as Hnew%row_to_request_decoded
    by by apply (decoded_amend row).
  by rewrite Hnew.
Qed.

Lemma transition_state request_id accepts refusal fields s :
  snd (transition request_id accepts refusal fields s) = s ∨
  snd (transition request_id accepts refusal fields s) = ticked s ∨
  (∃ row r, row_of request_id s = Some row ∧ decoded row r ∧
            accepts (status r) = true ∧ fields_fit fields = true ∧
            snd (transition request_id accepts refusal fields s) =
              updated request_id fields s).
Proof.
  unfold transition. run.
  destruct (fits_int64 request_id) eqn:Hfit; cycle 1.
  { left. by destruct (get_row_overflow request_id s Hfit) as (e & -> & _). }
  rewrite get_row_fits by done.
  destruct (row_of request_id s) as [row|] eqn:Hrow; [|by left].
  destruct (_row_to_request (Some row)) as [r|e] eqn:Hdec; [|by left].
  apply row_to_request_decoded in Hdec.
  destruct (accepts (status r)) eqn:Hyes; simpl; [|by left].
  destruct (update_row_state request_id fields s) as [Hs|[Hs|(_ & Hff & Hs)]];
    destruct (_update_row request_id fields s) as [[row'|e] s'];
    simpl in Hs; subst s'; simpl; eauto 10.
Qed.

Lemma transition_inv request_id accepts refusal fields s p s1 :
  transition request_id accepts refusal fields s = (Return p, s1) →
  fits_int64 request_id = true ∧
  ∃ row r, row_of request_id s = Some row ∧ decoded row r ∧
           accepts (status r) = true.
Proof.
  unfold transition. run.
  destruct (fits_int64 request_id) eqn:Hfit; cycle 1.
  { by destruct (get_row_overflow request_id s Hfit) as (e & -> & _). }
  rewrite get_row_fits by done.
  destruct (row_of request_id s) as [row|] eqn:Hrow; [|done].
  destruct (_row_to_request (Some row)) as [r|e] eqn:Hdec; [|done].
  apply row_to_request_decoded in Hdec.
  destruct (accepts (status r)) eqn:Hyes; simpl; [|done].
  intros _. eauto 10.
Qed.

(** What an update has written is what [get_request] then reads. *)
Lemma amend_persisted request_id fields s row r st :
  fits_int64 request_id = true → row_of request_id s = Some row → decoded row r →
  let row' := update_row fields (isoformat (now s)) row in
  same_frame row row' → c_status row' = value st →
  Store.get_request request_id (updated request_id fields s) =
    (Return (amend r st (now s) (c_discord_message_id row') (c_approved_by row')
               (c_approved_by_id row') (c_transaction_id row')
               (c_failure_reason row')),
     updated request_id fields s).
Proof.
  intros Hfit Hrow Hdec row' Hframe Hst.
  apply (get_request_found _ _ row'); [done|..].
  - by rewrite row_of_updated_same, Hrow.
  - by apply (decoded_amend row).
Qed.

Lemma mark_processing_transition request_id :
  Store.mark_processing request_id =
  transition request_id (λ st, bool_decide (st = PENDING))
    (λ st, "Cannot move request " +:+ pretty request_id +:+
           " to processing from " +:+ value st)
    [status_ (value PROCESSING)].
Proof. reflexivity. Qed.

Lemma mark_approved_transition request_id admin_name admin_id transaction_id :
  Store.mark_approved request_id admin_name admin_id transaction_id =
  transition request_id (λ st, bool_decide (st ∈ [PENDING; PROCESSING]))
    (λ st, "Cannot approve request " +:+ pretty request_id +:+
           " from " +:+ value st)
    [status_ (value APPROVED); approved_by_ admin_name;
     approved_by_id_ admin_id; transaction_id_ transaction_id;
     failure_reason_ None].
Proof. reflexivity. Qed.

Lemma mark_rejected_transition request_id admin_name admin_id reason :
  Store.mark_rejected request_id admin_name admin_id reason =
  transition request_id (λ st, bool_decide (st ∈ [PENDING; PROCESSING]))
    (λ st, "Cannot reject request " +:+ pretty request_id +:+
           " from " +:+ value st)
    [status_ (value REJECTED); approved_by_ admin_name;
     approved_by_id_ admin_id; failure_reason_ reason].
Proof. reflexivity. Qed.

Lemma open_status st :
  st ∈ [PENDING; PROCESSING] ↔ st = PENDING ∨ st = PROCESSING.
Proof. rewrite !elem_of_cons, elem_of_nil. tauto. Qed.

Lemma open_not_terminal st :
  st = PENDING ∨ st = PROCESSING ↔ terminal st = false.
Proof. destruct st; simpl; intuition congruence. Qed.

Lemma mark_processing_found request_id s row r :
  fits_int64 request_id = true → row_of request_id s = Some row → decoded row r →
  status r = PENDING →
  Store.mark_processing request_id s =
    (Return (amend r PROCESSING (now s) (discord_message_id r) (approved_by r)
               (approved_by_id r) (transaction_id r) (failure_reason r)),
     updated request_id [status_ (value PROCESSING)] s).
Proof.
  intros Hfit Hrow Hdec Hst. rewrite mark_processing_transition.
  rewrite (transition_accepted _ _ _ _ _ row r PROCESSING); try done.
  - by_decoded Hdec.
  - by rewrite Hst.
Qed.

Lemma mark_processing_refused request_id s row r :
  fits_int64 request_id = true → row_of request_id s = Some row → decoded row r →
  status r ≠ PENDING →
  Store.mark_processing request_id s =
    (Raise (Exception WithdrawalStateError
              ("Cannot move request " +:+ pretty request_id +:+
               " to processing from " +:+ value (status r)) None), s).
Proof.
  intros Hfit Hrow Hdec Hst. rewrite mark_processing_transition.
  rewrite (transition_refused _ _ _ _ _ row r); try done.
  by apply bool_decide_eq_false.
Qed.

Lemma mark_approved_found request_id admin_name admin_id tx s row r :
  fits_int64 request_id = true → row_of request_id s = Some row → decoded row r →
  status r = PENDING ∨ status r = PROCESSING → fits_int64 admin_id = true →
  Store.mark_approved request_id admin_name admin_id tx s =
    (Return (amend r APPROVED (now s) (discord_message_id r) (Some admin_name)
               (Some admin_id) (Some tx) None),
     updated request_id
       [status_ (value APPROVED); approved_by_ admin_name;
        approved_by_id_ admin_id; transaction_id_ tx; failure_reason_ None] s).
Proof.
  intros Hfit Hrow Hdec Hst Hadmin. rewrite mark_approved_transition.
  rewrite (transition_accepted _ _ _ _ _ row r APPROVED); try done.
  - by_decoded Hdec.
  - by apply bool_decide_eq_true, open_status.
  - simpl. by rewrite Hadmin.
Qed.

Lemma mark_approved_refused request_id admin_name admin_id tx s row r :
  fits_int64 request_id = true → row_of request_id s = Some row → decoded row r →
  terminal (status r) = true →
  Store.mark_approved request_id admin_name admin_id tx s =
    (Raise (Exception WithdrawalStateError
              ("Cannot approve request " +:+ pretty request_id +:+
               " from " +:+ value (status r)) None), s).
Proof.
  intros Hfit Hrow Hdec Hst. rewrite mark_approved_transition.
  rewrite (transition_refused _ _ _ _ _ row r); try done.
  apply bool_decide_eq_false. rewrite open_status, open_not_terminal. congruence.
Qed.

Lemma mark_rejected_found request_id admin_name admin_id reason s row r :
  fits_int64 request_id = true → row_of request_id s = Some row → decoded row r →
  status r = PENDING ∨ status r = PROCESSING → fits_int64 admin_id = true →
  Store.mark_rejected request_id admin_name admin_id reason s =
    (Return (amend r REJECTED (now s) (discord_message_id r) (Some admin_name)
               (Some admin_id) (transaction_id r) reason),
     updated request_id
       [status_ (value REJECTED); approved_by_ admin_name;
        approved_by_id_ admin_id; failure_reason_ reason] s).
Proof.
  intros Hfit Hrow Hdec Hst Hadmin. rewrite mark_rejected_transition.
  rewrite (transition_accepted _ _ _ _ _ row r REJECTED); try done.
  - by_decoded Hdec.
  - by apply bool_decide_eq_true, open_status.
  - simpl. by rewrite Hadmin.
Qed.

Lemma mark_rejected_refused request_id admin_name admin_id reason s row r :
  fits_int64 request_id = true → row_of request_id s = Some row → decoded row r →
  terminal (status r) = true →
  Store.mark_rejected request_id admin_name admin_id reason s =
    (Raise (Exception WithdrawalStateError
              ("Cannot reject request " +:+ pretty request_id +:+
               " from " +:+ value (status r)) None), s).
Proof.
  intros Hfit Hrow Hdec Hst. rewrite mark_rejected_transition.
  rewrite (transition_refused _ _ _ _ _ row r); try done.
  apply bool_decide_eq_false. rewrite open_status, open_not_terminal. congruence.
Qed.

Lemma mark_failed_found request_id reason s row r :
  fits_int64 request_id = true → row_of request_id s = Some row → decoded row r →
  Store.mark_failed request_id reason s =
    (Return (amend r FAILED (now s) (discord_message_id r) (approved_by r)
               (approved_by_id r) (transaction_id r) (Some reason)),
     updated request_id [status_ (value FAILED); failure_reason_ (Some reason)] s).
Proof.
  intros Hfit Hrow Hdec. unfold Store.mark_failed. run.
  rewrite get_row_fits, Hrow by done.
  rewrite (update_row_found _ _ _ row) by done.
  pose proof (decoded_amend row
    (update_row [status_ (value FAILED); failure_reason_ (Some reason)]
       (isoformat (now s)) row) r FAILED (now s) Hdec) as Hnew.
  apply row_to_request_decoded in Hnew; [|by repeat split..].
  cbn [value] in Hnew. rewrite Hnew. simpl. by_decoded Hdec.
Qed.

Lemma mark_failed_state request_id reason s :
  snd (Store.mark_failed request_id reason s) = s ∨
  snd (Store.mark_failed request_id reason s) = ticked s ∨
  (is_Some (row_of request_id s) ∧
   snd (Store.mark_failed request_id reason s) =
     updated request_id [status_ (value FAILED); failure_reason_ (Some reason)] s).
Proof.
  unfold Store.mark_failed. run.
  destruct (fits_int64 request_id) eqn:Hfit; cycle 1.
  { left. by destruct (get_row_overflow request_id s Hfit) as (e & -> & _). }
  rewrite get_row_fits by done.
  destruct (row_of request_id s) as [row|] eqn:Hrow; [|by left].
  rewrite (update_row_found _ _ _ row) by done.
  right; right. split; [done|].
  by destruct (_row_to_request _).
Qed.

Lemma set_discord_message_found request_id message_id s row r :
  fits_int64 request_id = true → row_of request_id s = Some row → decoded row r →
  fits_int64 message_id = true →
  Store.set_discord_message request_id message_id s =
    (Return (amend r (status r) (now s) (Some message_id) (approved_by r)
               (approved_by_id r) (transaction_id r) (failure_reason r)),
     updated request_id [discord_message_id_ message_id] s).
Proof.
  intros Hfit Hrow Hdec Hmsg. unfold Store.set_discord_message. run.
  rewrite (update_row_found _ _ _ row); [|done|by simpl; rewrite Hmsg|done..].
  pose proof (decoded_amend row
    (update_row [discord_message_id_ message_id] (isoformat (now s)) row)
    r (status r) (now s) Hdec) as Hnew.
  apply row_to_request_decoded in Hnew; [|by repeat split|by destruct Hdec|done].
  rewrite Hnew. simpl. by_decoded Hdec.
Qed.

Lemma set_discord_message_state request_id message_id s :
  snd (Store.set_discord_message request_id message_id s) = s ∨
  snd (Store.set_discord_message request_id message_id s) = ticked s ∨
  (is_Some (row_of request_id s) ∧
   snd (Store.set_discord_message request_id message_id s) =
     updated request_id [discord_message_id_ message_id] s).
Proof.
  unfold Store.set_discord_message. run.
  destruct (update_row_state request_id [discord_message_id_ message_id] s)
    as [Hs|[Hs|(? & _ & Hs)]];
    destruct (_update_row _ _ s) as [[row'|e] s']; simpl in Hs; subst s'; auto.
Qed.

(** *** Creation *)

Lemma max_rowid_nonneg (rows : list Row) : 0 ≤ max_rowid rows.
Proof. induction rows; simpl; lia. Qed.

Lemma max_rowid_ge (rows : list Row) row : row ∈ rows → c_id row ≤ max_rowid rows.
Proof.
  induction rows as [|row' rows IH]; [by intros ?%elem_of_nil|].
  intros [->|Hin]%elem_of_cons; simpl; [lia|]. specialize (IH Hin). lia.
Qed.

Lemma find_app_fresh (rows : list Row) row :
  (∀ row', row' ∈ rows → c_id row' ≠ c_id row) →
  List.find (has_id (c_id row)) (rows ++ [row]) = Some row.
Proof.
  induction rows as [|row' rows IH]; intros Hfresh; simpl.
  - unfold has_id. by rewrite Z.eqb_refl.
  - unfold has_id at 1. destruct (Z.eqb_spec (c_id row') (c_id row)) as [Heq|_].
    + exfalso. eapply Hfresh; [|done]. by left.
    + apply IH. intros row'' Hin. apply Hfresh. by right.
Qed.

Lemma find_app_old (rows : list Row) row request_id :
  is_Some (List.find (has_id request_id) rows) →
  List.find (has_id request_id) (rows ++ [row]) =
  List.find (has_id request_id) rows.
Proof.
  induction rows as [|row' rows IH]; simpl; [by intros [? ?]|].
  destruct (has_id request_id row'); [done|apply IH].
Qed.

Lemma new_row_decoded s player_name wallet_address amount currency player_uuid
    metadata :
  decoded (new_row s player_name wallet_address amount currency player_uuid metadata)
    (new_request s player_name wallet_address amount currency player_uuid metadata).
Proof.
  split; simpl; try done.
  - apply Decimal_of_str_str.
  - apply fromisoformat_isoformat.
  - apply fromisoformat_isoformat.
  - unfold metadata_of. simpl.
    destruct (String.eqb_spec (json_dumps (or_empty metadata)) "") as [Heq|_].
    + by apply json_dumps_nonempty in Heq.
    + apply json_loads_dumps.
Qed.

Lemma or_empty_default (md : option Metadata) :
  or_empty md = default empty_dict md.
Proof.
  destruct md as [m|]; [|done]. simpl.
  destruct (dict_truthy m) eqn:Hm; [done|]. symmetry. by apply dict_falsy_empty.
Qed.

Lemma insert_row_full payload s :
  max_int64 ≤ largest_rowid s →
  _insert_row payload s =
    (Raise (Exception OperationalError "database or disk is full" None), s).
Proof.
  intros Hfull. unfold _insert_row. run. fold (largest_rowid s).
  by destruct (Z.leb_spec max_int64 (largest_rowid s)) as [_|]; [|lia].
Qed.

Lemma insert_row_run payload s :
  largest_rowid s < max_int64 →
  let row := row_of_payload (largest_rowid s + 1) payload in
  _insert_row payload s =
    (Return (Some row),
     with_conn {| withdrawals := withdrawals (_conn s) ++ [row];
                  sqlite_sequence := c_id row |} s).
Proof.
  intros Hroom row. unfold _insert_row. run. fold (largest_rowid s).
  destruct (Z.leb_spec max_int64 (largest_rowid s)) as [|_]; [lia|].
  fold (row_of_payload (largest_rowid s + 1) payload). fold row.
  assert (0 ≤ largest_rowid s) as Hpos.
  { pose proof (max_rowid_nonneg (withdrawals (_conn s))).
    unfold largest_rowid. lia. }
  rewrite get_row_fits; cycle 1.
  { unfold fits_int64, min_int64. apply andb_true_iff.
    split; [apply Z.leb_le|apply Z.leb_le]; unfold max_int64 in *; lia. }
  unfold row_of. simpl.
  rewrite (find_app_fresh _ row); [done|].
  intros row' Hin%max_rowid_ge. simpl. unfold largest_rowid. lia.
Qed.

Lemma create_request_run s player_name wallet_address amount currency player_uuid
    metadata :
  largest_rowid s < max_int64 →
  Store.create_request player_name wallet_address amount currency player_uuid
    metadata s =
  (Return (new_request s player_name wallet_address amount currency player_uuid
             metadata),
   inserted (new_row s player_name wallet_address amount currency player_uuid
               metadata) s).
Proof.
  intros Hroom. unfold Store.create_request, utcnow. run.
  rewrite insert_row_run by done.
  pose proof (new_row_decoded s player_name wallet_address amount currency
                player_uuid metadata) as Hdec%row_to_request_decoded.
  set (row := new_row _ _ _ _ _ _ _) in *.
  change ((_row_to_request (Some row), inserted row s) =
          (Return (new_request s player_name wallet_address amount currency
                     player_uuid metadata), inserted row s)).
  by rewrite Hdec.
Qed.

Lemma create_request_full s player_name wallet_address amount currency player_uuid
    metadata :
  max_int64 ≤ largest_rowid s →
  ∃ e, Store.create_request player_name wallet_address amount currency player_uuid
         metadata s = (Raise e, ticked (ticked s)) ∧ exn_cls e = OperationalError.
Proof.
  intros Hfull. unfold Store.create_request, utcnow. run.
  rewrite insert_row_full by done. by eexists.
Qed.

End StoreFacts.

(** * Facts about the manager *)

Section ManagerFacts.
Context `{RT : PyRuntime} {W : Type} `{!WalletClient W}.

Implicit Types (w : World) (self : WithdrawalManager W).

Lemma with_store_same w : with_store (store w) w = w.
Proof. by destruct w. Qed.

Lemma on_store_run {A} (m : M WithdrawalStore A) w res s' :
  m (store w) = (res, s') → on_store m w = (res, with_store s' w).
Proof. unfold on_store. by intros ->. Qed.

(** [approve_request] when the first step refuses. *)
Lemma approve_refused self request_id admin_name admin_id w e :
  Store.mark_processing request_id (store w) = (Raise e, store w) →
  Manager.approve_request self request_id admin_name admin_id w = (Raise e, w).
Proof.
  intros Hmark. unfold Manager.approve_request.
  unfold mbind at 1, M_bind at 1.
  by rewrite (on_store_run _ _ _ _ Hmark), with_store_same.
Qed.

Lemma approve_not_pending self request_id admin_name admin_id w r :
  fst (Store.get_request request_id (store w)) = Return r →
  status r ≠ PENDING →
  Manager.approve_request self request_id admin_name admin_id w =
    (Raise (Exception WithdrawalStateError
              ("Cannot move request " +:+ pretty request_id +:+
               " to processing from " +:+ value (status r)) None), w).
Proof.
  intros (Hfit & row & Hrow & Hdec)%get_request_inv Hst.
  apply approve_refused. by apply (mark_processing_refused _ _ row).
Qed.

(** [approve_request] once [mark_processing] has returned. *)
Lemma approve_after_processing self request_id admin_name admin_id w processing s1 :
  Store.mark_processing request_id (store w) = (Return processing, s1) →
  Manager.approve_request self request_id admin_name admin_id w =
  let w1 := {| store := s1; payments := payments w ++ [processing];
               deliveries := deliveries w; logged := logged w |} in
  match send_payment (wallet self) (length (payments w)) processing with
  | Raise exc =>
    let '(res, s2) := Store.mark_failed request_id (str exc) s1 in
    let w2 := {| store := s2; payments := payments w1; deliveries := deliveries w1;
                 logged := logged w1 ++
                   ["Wallet transfer failed for request " +:+ pretty request_id] |} in
    match res with
    | Return _ =>
      (Raise (Exception WalletError "Wallet transfer failed" (Some exc)), w2)
    | Raise e => (Raise e, w2)
    end
  | Return transaction_id =>
    let '(res, s2) :=
      Store.mark_approved request_id admin_name admin_id transaction_id s1 in
    (res, with_store s2 w1)
  end.
Proof.
  intros Hmark. unfold Manager.approve_request.
  unfold mbind at 1, M_bind at 1. rewrite (on_store_run _ _ _ _ Hmark).
  unfold wallet_send_payment, logger_exception, on_store. run.
  destruct (send_payment _ _ _) as [tx|exc]; simpl; [done|].
  by destruct (Store.mark_failed _ _ _) as [[failed|e] s2].
Qed.

(** The loop of [_notify_new_request] never raises and calls each listener
    of the snapshot once, in order, whatever each of them does. *)
Lemma notify_each_run i (listeners : list NewRequestListener) request w :
  ∃ w', Manager.notify_each i listeners request w = (Return tt, w')
        ∧ deliveries w' =
            deliveries w ++ ((λ k, (k, request)) <$> seq i (length listeners))
        ∧ payments w' = payments w.
Proof.
  revert i w. induction listeners as [|listener listeners IH]; intros i w.
  - exists w. by rewrite app_nil_r.
  - simpl. unfold call_listener, logger_exception, on_store. run.
    destruct (listener request (store w)) as [[[]|e] s'].
    + edestruct IH as (w' & -> & Hdel & Hpay).
      eexists. split; [done|]. rewrite Hdel, Hpay. simpl.
      by rewrite <- app_assoc.
    + edestruct IH as (w' & -> & Hdel & Hpay).
      eexists. split; [done|]. rewrite Hdel, Hpay. simpl.
      by rewrite <- app_assoc.
Qed.

End ManagerFacts.

(** * The claims *)

Section Claims.
Context `{RT : PyRuntime} {W : Type} `{!WalletClient W}.

Implicit Types (w : World) (self : WithdrawalManager W) (s : WithdrawalStore).

(** C2. Approving a request whose status is terminal (approved, rejected or
    failed) fails with [WithdrawalStateError] naming that status, and the
    call leaves the world as it found it: in particular the wallet's
    [send_payment] is not invoked. *)
Theorem approve_terminal_fails_without_payment self request_id admin_name admin_id w r :
  fst (Store.get_request request_id (store w)) = Return r →
  terminal (status r) = true →
  Manager.approve_request self request_id admin_name admin_id w =
    (Raise (Exception WithdrawalStateError
              ("Cannot move request " +:+ pretty request_id +:+
               " to processing from " +:+ value (status r)) None), w)
  ∧ payments (snd (Manager.approve_request self request_id admin_name admin_id w))
    = payments w.
Proof.
  intros Hget Hterm.
  assert (status r ≠ PENDING) as Hst by (intros Heq; by rewrite Heq in Hterm).
  by rewrite (approve_not_pending _ _ _ _ _ r).
Qed.

(** C9. Approving a request whose status is processing fails with
    [WithdrawalStateError] and does not invoke the wallet, because the first
    step demands pending; yet the store's [mark_approved] accepts such a
    request. *)
Theorem approve_processing_fails_without_payment self request_id admin_name admin_id
    w r :
  fst (Store.get_request request_id (store w)) = Return r →
  status r = PROCESSING →
  (Manager.approve_request self request_id admin_name admin_id w =
     (Raise (Exception WithdrawalStateError
               ("Cannot move request " +:+ pretty request_id +:+
                " to processing from processing") None), w)
   ∧ payments (snd (Manager.approve_request self request_id admin_name admin_id w))
     = payments w)
  ∧ (∀ transaction_id, fits_int64 admin_id = true →
       ∃ approved s',
         Store.mark_approved request_id admin_name admin_id transaction_id (store w)
           = (Return approved, s')
         ∧ status approved = APPROVED).
Proof.
  intros Hget Hst. split.
  - rewrite (approve_not_pending _ _ _ _ _ r); [|done|by rewrite Hst].
    by rewrite Hst.
  - intros tx Hadmin.
    apply get_request_inv in Hget as (Hfit & row & Hrow & Hdec).
    rewrite (mark_approved_found _ _ _ _ _ row r); eauto.
Qed.

(** C6. A call of the store's [create_request] (while a rowid is left)
    returns a request with status pending, without transaction identifier,
    failure reason, approving actor or message reference; its identity is
    the next rowid, its timestamps are the two clock readings of the call,
    and name, uuid, address, amount, currency and metadata are those
    supplied (the empty dictionary when no metadata is supplied).  The
    request is the one the store then holds under that identity. *)
Theorem create_request_returns_pending s name address amt ccy uuid md :
  largest_rowid s < max_int64 →
  ∃ r s',
    Store.create_request name address amt ccy uuid md s = (Return r, s')
    ∧ status r = PENDING
    ∧ transaction_id r = None ∧ failure_reason r = None
    ∧ approved_by r = None ∧ approved_by_id r = None
    ∧ discord_message_id r = None
    ∧ id r = Some (largest_rowid s + 1)
    ∧ created_at r = utcnow_at s (utcnow_calls s)
    ∧ updated_at r = utcnow_at s (S (utcnow_calls s))
    ∧ player_name r = name ∧ player_uuid r = uuid
    ∧ wallet_address r = address
    ∧ amount r = amt ∧ currency r = ccy
    ∧ metadata r = default empty_dict md
    ∧ fst (Store.get_request (largest_rowid s + 1) s') = Return r.
Proof.
  intros Hroom. eexists _, _. split; [by apply create_request_run|].
  repeat (split; [done|]). split; [apply or_empty_default|].
  set (row := new_row s name address amt ccy uuid md).
  rewrite (get_request_found _ _ row (new_request s name address amt ccy uuid md)).
  - done.
  - pose proof (max_rowid_nonneg (withdrawals (_conn s))).
    unfold fits_int64, min_int64, max_int64, largest_rowid in *.
    apply andb_true_iff; split; apply Z.leb_le; lia.
  - unfold row_of, inserted. simpl. apply (find_app_fresh _ row).
    intros row' Hin%max_rowid_ge. simpl. unfold largest_rowid. lia.
  - apply new_row_decoded.
Qed.

(** C10. On an existing request, [set_discord_message] (with a message
    identifier SQLite can hold) returns and stores the request with only
    the message reference and the last-update timestamp rewritten:
    identity, player name and uuid, wallet address, amount, currency,
    status, creation timestamp, metadata, approving actor, transaction
    identifier and failure reason are unchanged. *)
Theorem set_discord_message_frame s request_id message_id r :
  fst (Store.get_request request_id s) = Return r →
  fits_int64 message_id = true →
  ∃ r' s',
    Store.set_discord_message request_id message_id s = (Return r', s')
    ∧ fst (Store.get_request request_id s') = Return r'
    ∧ discord_message_id r' = Some message_id
    ∧ updated_at r' = utcnow_at s (utcnow_calls s)
    ∧ id r' = id r ∧ player_name r' = player_name r
    ∧ player_uuid r' = player_uuid r ∧ wallet_address r' = wallet_address r
    ∧ amount r' = amount r ∧ currency r' = currency r
    ∧ status r' = status r ∧ created_at r' = created_at r
    ∧ metadata r' = metadata r
    ∧ approved_by r' = approved_by r ∧ approved_by_id r' = approved_by_id r
    ∧ transaction_id r' = transaction_id r
    ∧ failure_reason r' = failure_reason r.
Proof.
  intros (Hfit & row & Hrow & Hdec)%get_request_inv Hmsg.
  eexists _, _. split; [by apply (set_discord_message_found _ _ _ row)|].
  split; [|done].
  rewrite (amend_persisted _ _ _ row r (status r)); try done.
  - simpl. by_decoded Hdec.
  - by destruct Hdec.
Qed.

(** C4. When [mark_processing] succeeds and the wallet's [send_payment]
    then raises, [approve_request] calls [mark_failed] with the exception's
    message, which succeeds: the stored request has status failed and that
    message as failure reason; the caller gets a [WalletError] whose cause
    is the original exception.  The wallet was called once, with the
    request [mark_processing] returned. *)
Theorem approve_payment_failure self request_id admin_name admin_id w processing s1
    exc :
  Store.mark_processing request_id (store w) = (Return processing, s1) →
  send_payment (wallet self) (length (payments w)) processing = Raise exc →
  ∃ failed s2 w2,
    Store.mark_failed request_id (str exc) s1 = (Return failed, s2)
    ∧ status failed = FAILED
    ∧ failure_reason failed = Some (str exc)
    ∧ Manager.approve_request self request_id admin_name admin_id w =
        (Raise (Exception WalletError "Wallet transfer failed" (Some exc)), w2)
    ∧ store w2 = s2
    ∧ payments w2 = payments w ++ [processing]
    ∧ fst (Store.get_request request_id (store w2)) = Return failed.
Proof.
  intros Hmark Hpay.
  rewrite (approve_after_processing _ _ _ _ _ _ _ Hmark), Hpay.
  pose proof Hmark as Hinv. rewrite mark_processing_transition in Hinv.
  apply transition_inv in Hinv as (Hfit & row & r & Hrow & Hdec & Hst).
  apply bool_decide_eq_true in Hst.
  rewrite (mark_processing_found _ _ row r) in Hmark by done.
  injection Hmark as Hprocessing Hs1.
  set (fields := [status_ (value PROCESSING)]) in *.
  set (row1 := update_row fields (isoformat (now (store w))) row).
  assert (row_of request_id s1 = Some row1) as Hrow1
    by by rewrite <- Hs1, row_of_updated_same, Hrow.
  assert (decoded row1 processing) as Hdec1.
  { pose proof (decoded_amend row row1 r PROCESSING (now (store w)) Hdec) as Hnew.
    rewrite <- Hprocessing. simpl in Hnew. destruct Hdec.
    repeat match goal with H : _ r = _ row |- _ => rewrite H end.
    by apply Hnew. }
  clearbody row1. clear Hprocessing Hs1.
  rewrite (mark_failed_found _ _ _ row1 processing) by done.
  eexists _, _, _. split; [done|]. split; [done|]. split; [done|].
  split; [done|]. split; [done|]. split; [done|]. simpl.
  rewrite (amend_persisted _ _ _ row1 processing FAILED); try done.
  simpl. by_decoded Hdec1.
Qed.


End Claims.

(** * Sequences of store operations *)

(** Reduces [decoded row' _] to the frame conditions of [decoded_amend]. *)
Ltac amended row :=
  match goal with |- ?dec ?row' _ => apply (decoded_amend row row') end.

Section Reachability.
Context `{RT : PyRuntime}.

Implicit Types (s : WithdrawalStore) (row : Row) (r : WithdrawalRequest).

(** What one call does to the table: nothing, one insertion, or the update
    it asks for, which is then a permitted one. *)
Lemma after_cases op s :
  _conn (after op s) = _conn s
  ∨ (∃ name address amt ccy uuid md,
       largest_rowid s < max_int64 ∧
       after op s = inserted (new_row s name address amt ccy uuid md) s)
  ∨ (∃ request_id fields row,
       update_of op = Some (request_id, fields) ∧
       row_of request_id s = Some row ∧ permitted (c_status row) fields ∧
       after op s = updated request_id fields s).
Proof.
  unfold after. destruct op as [name address amt ccy uuid md|request_id message_id
    |request_id|request_id admin_name admin_id tx
    |request_id admin_name admin_id reason|request_id reason]; simpl.
  - destruct (Z.lt_ge_cases (largest_rowid s) max_int64) as [Hroom|Hfull].
    + right; left. rewrite create_request_run by done. eauto 10.
    + left. by destruct (create_request_full s name address amt ccy uuid md Hfull)
        as (e & -> & _).
  - destruct (set_discord_message_state request_id message_id s)
      as [-> | [-> | ([row Hrow] & ->)]]; [by left..|].
    right; right. eexists _, _, row. repeat split; [done|]. constructor.
  - rewrite mark_processing_transition.
    match goal with |- context [transition ?i ?a ?m ?f s] =>
      destruct (transition_state i a m f s)
        as [-> | [-> | (row & r & Hrow & Hdec & Hst & _ & ->)]]; [by left..|]
    end.
    right; right. eexists _, _, row. repeat split; [done|].
    apply bool_decide_eq_true in Hst.
    rewrite (d_status _ _ Hdec), Hst. constructor.
  - rewrite mark_approved_transition.
    match goal with |- context [transition ?i ?a ?m ?f s] =>
      destruct (transition_state i a m f s)
        as [-> | [-> | (row & r & Hrow & Hdec & Hst & _ & ->)]]; [by left..|]
    end.
    right; right. eexists _, _, row. repeat split; [done|].
    apply bool_decide_eq_true, open_status, open_not_terminal in Hst.
    rewrite (d_status _ _ Hdec). by constructor.
  - rewrite mark_rejected_transition.
    match goal with |- context [transition ?i ?a ?m ?f s] =>
      destruct (transition_state i a m f s)
        as [-> | [-> | (row & r & Hrow & Hdec & Hst & _ & ->)]]; [by left..|]
    end.
    right; right. eexists _, _, row. repeat split; [done|].
    apply bool_decide_eq_true, open_status, open_not_terminal in Hst.
    rewrite (d_status _ _ Hdec). by constructor.
  - destruct (mark_failed_state request_id reason s)
      as [-> | [-> | ([row Hrow] & ->)]]; [by left..|].
    right; right. eexists _, _, row. repeat split; [done|]. constructor.
Qed.

(** *** The invariant of the table *)

Lemma value_inj st st' : value st = value st' → st = st'.
Proof. by destruct st, st'. Qed.

Lemma new_row_ok s name address amt ccy uuid md :
  largest_rowid s < max_int64 →
  row_ok (new_row s name address amt ccy uuid md).
Proof.
  intros Hroom. split; [|split; [|split]].
  - eexists. split; [apply new_row_decoded|done].
  - discriminate.
  - by intros [? ?].
  - pose proof (max_rowid_nonneg (withdrawals (_conn s))). simpl.
    unfold fits_int64, min_int64, max_int64, largest_rowid in *.
    apply andb_true_iff; split; apply Z.leb_le; lia.
Qed.

(** A permitted update leaves a row that reads back, created when it was. *)
Lemma permitted_decoded row fields d r :
  decoded row r → permitted (c_status row) fields →
  ∃ r', decoded (update_row fields (isoformat d) row) r'
        ∧ created_at r' = created_at r.
Proof.
  intros Hdec Hperm.
  inversion Hperm as [text message_id|Hpending|st admin_name admin_id tx Hst Heq
                     |st admin_name admin_id reason Hst Heq|text reason]; subst.
  - exists (amend r (status r) d (Some message_id) (c_approved_by row)
              (c_approved_by_id row) (c_transaction_id row) (c_failure_reason row)).
    split; [|done]. amended row; [done|by repeat split| |done].
    by destruct Hdec.
  - exists (amend r PROCESSING d (c_discord_message_id row) (c_approved_by row)
              (c_approved_by_id row) (c_transaction_id row) (c_failure_reason row)).
    split; [|done]. by amended row.
  - exists (amend r APPROVED d (c_discord_message_id row) (Some admin_name)
              (Some admin_id) (Some tx) None).
    split; [|done]. by amended row.
  - exists (amend r REJECTED d (c_discord_message_id row) (Some admin_name)
              (Some admin_id) (c_transaction_id row) reason).
    split; [|done]. by amended row.
  - exists (amend r FAILED d (c_discord_message_id row) (c_approved_by row)
              (c_approved_by_id row) (c_transaction_id row) (Some reason)).
    split; [|done]. by amended row.
Qed.

Lemma update_row_created_at fields text row :
  c_created_at (update_row fields text row) = c_created_at row.
Proof.
  unfold update_row. simpl.
  revert row. induction fields as [|f fields IH]; intros row; [done|].
  simpl. rewrite IH. by destruct f.
Qed.

Lemma permitted_ok row fields d :
  row_ok row → permitted (c_status row) fields →
  row_ok (update_row fields (isoformat d) row).
Proof.
  intros ((r & Hdec & Hcreated) & Happroved & Htx & Hid) Hperm.
  split; [|split; [|split; [|by rewrite update_row_id]]].
  { destruct (permitted_decoded row fields d r Hdec Hperm) as (r' & Hdec' & Hsame).
    exists r'. split; [done|]. by rewrite update_row_created_at, Hsame. }
  all: assert (∀ st, terminal st = false → c_status row = value st →
                     c_transaction_id row = None) as Hopen
    by (intros st Hst Heq; destruct (c_transaction_id row) as [tx|] eqn:E; [|done];
        destruct Htx as [H|H]; [by eexists|..]; rewrite Heq in H;
        apply value_inj in H; by subst st).
  all: inversion Hperm as [text message_id|Hpending|st admin_name admin_id tx Hst Heq
                     |st admin_name admin_id reason Hst Heq|text reason]; subst;
    simpl;
    first [ done | discriminate | by eexists | by left | by right
          | by rewrite (Hopen PENDING) | by rewrite (Hopen st) ].
Qed.

Lemma sql_update_ids fields text request_id (rows : list Row) :
  c_id <$> sql_update fields text request_id rows = c_id <$> rows.
Proof.
  unfold sql_update. rewrite <- list_fmap_compose. apply list_fmap_ext.
  intros _ row _. simpl. destruct (c_id row =? request_id); [|done].
  apply update_row_id.
Qed.

Lemma same_id_same_row (rows : list Row) row row' :
  NoDup (c_id <$> rows) → row ∈ rows → row' ∈ rows → c_id row = c_id row' →
  row = row'.
Proof.
  induction rows as [|row0 rows IH]; [by intros _ ?%elem_of_nil|].
  rewrite fmap_cons, NoDup_cons.
  intros [Hfresh Hnodup] [->|Hin]%elem_of_cons [->|Hin']%elem_of_cons Hid; auto.
  - exfalso. apply Hfresh. rewrite Hid. by apply list_elem_of_fmap_2.
  - exfalso. apply Hfresh. rewrite <- Hid. by apply list_elem_of_fmap_2.
Qed.

Lemma row_of_elem request_id s row :
  row_of request_id s = Some row →
  row ∈ withdrawals (_conn s) ∧ c_id row = request_id.
Proof.
  intros [Hin Hid]%find_some. split; [by apply list_elem_of_In|].
  by apply Z.eqb_eq.
Qed.

Lemma store_ok_after op s : store_ok s → store_ok (after op s).
Proof.
  intros [Hnodup Hrows].
  destruct (after_cases op s) as [Hsame
    |[(name & address & amt & ccy & uuid & md & Hroom & ->)
     |(request_id & fields & row & _ & Hrow & Hperm & ->)]].
  - unfold store_ok. by rewrite Hsame.
  - split; simpl.
    + rewrite fmap_app. apply NoDup_app. split; [done|]. split.
      * intros k (row & -> & Hin%max_rowid_ge)%list_elem_of_fmap.
        simpl. rewrite elem_of_cons, elem_of_nil.
        unfold largest_rowid in *. lia.
      * apply NoDup_singleton.
    + apply Forall_app. split; [done|]. by apply Forall_singleton, new_row_ok.
  - split; simpl.
    + by rewrite sql_update_ids.
    + apply row_of_elem in Hrow as [Hin Hid].
      unfold sql_update. apply Forall_fmap, Forall_forall. intros row' Hin'.
      rewrite Forall_forall in Hrows. simpl.
      destruct (Z.eqb_spec (c_id row') request_id) as [Heq|_]; [|by apply Hrows].
      assert (row' = row) as -> by (apply (same_id_same_row _ _ _ Hnodup); congruence).
      apply permitted_ok; auto.
Qed.

Lemma reachable_ok s : reachable s → store_ok s.
Proof.
  induction 1 as [clock|op s _ IH].
  - split; simpl; constructor.
  - by apply store_ok_after.
Qed.

End Reachability.

Section LifecycleClaims.
Context `{RT : PyRuntime}.

Implicit Types (s : WithdrawalStore) (row : Row) (r : WithdrawalRequest).

Lemma row_of_conn request_id s s' :
  _conn s' = _conn s → row_of request_id s' = row_of request_id s.
Proof. unfold row_of. by intros ->. Qed.

(** C1, as the code has it. In every store that a sequence of
    [create_request], [set_discord_message], [mark_processing],
    [mark_approved], [mark_rejected] and [mark_failed] calls leads to, a
    request whose status is approved has a transaction identifier, and a
    request that has a transaction identifier is approved or failed. *)
Theorem transaction_id_when_approved s request_id r :
  reachable s →
  fst (Store.get_request request_id s) = Return r →
  (status r = APPROVED → is_Some (transaction_id r))
  ∧ (is_Some (transaction_id r) → status r = APPROVED ∨ status r = FAILED).
Proof.
  intros [_ Hrows]%reachable_ok (_ & row & Hrow & Hdec)%get_request_inv.
  apply row_of_elem in Hrow as [Hin _].
  rewrite Forall_forall in Hrows.
  destruct (Hrows row Hin) as (_ & Happroved & Htx & _).
  rewrite (d_transaction_id _ _ Hdec). rewrite (d_status _ _ Hdec) in *.
  split.
  - intros Heq. apply Happroved. by rewrite Heq.
  - intros [H|H]%Htx; apply value_inj in H; auto.
Qed.

(** C3, as the code has it. No call other than [mark_failed] on that
    request changes the status of a request whose status is terminal:
    [mark_processing], [mark_approved] and [mark_rejected] refuse it, and
    the other calls leave its status alone.  [mark_failed] has no
    precondition: it makes the status failed whatever it was. *)
Theorem terminal_status_kept s op request_id r :
  fst (Store.get_request request_id s) = Return r →
  terminal (status r) = true →
  ((∀ reason, op ≠ mark_failed_ request_id reason) →
   ∃ r', fst (Store.get_request request_id (after op s)) = Return r'
         ∧ status r' = status r)
  ∧ (∀ reason,
       ∃ r', fst (Store.get_request request_id
                    (after (mark_failed_ request_id reason) s)) = Return r'
             ∧ status r' = FAILED).
Proof.
  intros (Hfit & row & Hrow & Hdec)%get_request_inv Hterm. split.
  - intros Hop.
    destruct (after_cases op s) as [Hsame
      |[(name & address & amt & ccy & uuid & md & Hroom & ->)
       |(other & fields & row' & Hupd & Hrow' & Hperm & ->)]].
    + exists r. split; [|done].
      rewrite (get_request_found _ _ row r); try done.
      by rewrite (row_of_conn _ _ _ Hsame).
    + exists r. split; [|done].
      rewrite (get_request_found _ _ row r); try done.
      unfold row_of, inserted in *. simpl. rewrite find_app_old; [done|].
      by rewrite Hrow.
    + destruct (decide (other = request_id)) as [->|Hne]; cycle 1.
      { exists r. split; [|done].
        rewrite (get_request_found _ _ row r); try done.
        by rewrite row_of_updated_other. }
      assert (row' = row) as -> by congruence.
      pose proof (d_status _ _ Hdec) as Hst.
      inversion Hperm as [text message_id Htext|Hpending
        |st admin_name admin_id tx Hopen Heq
        |st admin_name admin_id reason Hopen Heq|text reason Htext]; subst fields.
      * eexists. split.
        { rewrite (amend_persisted _ _ _ row r (status r)); done. }
        done.
      * rewrite Hst in Hpending. apply (value_inj PENDING) in Hpending.
        rewrite <- Hpending in Hterm. done.
      * rewrite Hst in Heq. apply value_inj in Heq. congruence.
      * rewrite Hst in Heq. apply value_inj in Heq. congruence.
      * exfalso. destruct op; simpl in Hupd; try done; inversion Hupd; subst.
        by eapply Hop.
  - intros reason. unfold after. simpl.
    rewrite (mark_failed_found _ _ _ row r) by done. simpl.
    eexists. split.
    { rewrite (amend_persisted _ _ _ row r FAILED); done. }
    done.
Qed.

(** The store has no delete: a request that reads back keeps doing so
    through any call. *)
Lemma request_survives s op request_id r :
  fst (Store.get_request request_id s) = Return r →
  ∃ r', fst (Store.get_request request_id (after op s)) = Return r'.
Proof.
  intros (Hfit & row & Hrow & Hdec)%get_request_inv.
  destruct (after_cases op s) as [Hsame
    |[(name & address & amt & ccy & uuid & md & Hroom & ->)
     |(other & fields & row' & Hupd & Hrow' & Hperm & ->)]].
  - exists r. rewrite (get_request_found _ _ row r); try done.
    by rewrite (row_of_conn _ _ _ Hsame).
  - exists r. rewrite (get_request_found _ _ row r); try done.
    unfold row_of, inserted in *. simpl. rewrite find_app_old; [done|].
    by rewrite Hrow.
  - destruct (decide (other = request_id)) as [->|Hne].
    + assert (row' = row) as -> by congruence.
      destruct (permitted_decoded row fields (now s) r Hdec Hperm)
        as (r' & Hdec' & _).
      exists r'.
      rewrite (get_request_found _ _ (update_row fields (isoformat (now s)) row) r');
        try done.
      by rewrite row_of_updated_same, Hrow.
    + exists r. rewrite (get_request_found _ _ row r); try done.
      by rewrite row_of_updated_other.
Qed.

(** X24. So whatever other calls reach the store while a payment is
    awaited, [mark_failed] afterwards still records the failure: on a
    request the store held before them it succeeds, and the request is
    stored as failed with the reason given. *)
Lemma mark_failed_after_others s request_id r (during : list StoreOp) reason :
  fst (Store.get_request request_id s) = Return r →
  ∃ failed s',
    Store.mark_failed request_id reason (foldl (λ s op, after op s) s during)
      = (Return failed, s')
    ∧ status failed = FAILED ∧ failure_reason failed = Some reason
    ∧ fst (Store.get_request request_id s') = Return failed.
Proof.
  revert s r. induction during as [|op during IH]; intros s r Hget; simpl.
  - apply get_request_inv in Hget as (Hfit & row & Hrow & Hdec).
    rewrite (mark_failed_found _ _ _ row r) by done.
    eexists _, _. split; [done|]. split; [done|]. split; [done|].
    rewrite (amend_persisted _ _ _ row r FAILED); try done.
    simpl. by_decoded Hdec.
  - destruct (request_survives s op request_id r Hget) as [r' Hget'].
    by apply (IH _ r').
Qed.

End LifecycleClaims.

(** * Listing *)

Lemma string_leb_trans (a b c : string) :
  String.leb a b = true → String.leb b c = true → String.leb a c = true.
Proof.
  unfold String.leb. revert b c.
  induction a as [|x a IH]; intros [|y b] [|z c]; simpl; try done.
  unfold Ascii.compare.
  destruct (N.compare_spec (N_of_ascii x) (N_of_ascii y)) as [Hxy|Hxy|Hxy];
    destruct (N.compare_spec (N_of_ascii y) (N_of_ascii z)) as [Hyz|Hyz|Hyz];
    destruct (N.compare_spec (N_of_ascii x) (N_of_ascii z)) as [Hxz|Hxz|Hxz];
    try done; try lia.
  apply IH.
Qed.

Section Listing.
Context `{RT : PyRuntime}.

Implicit Types (s : WithdrawalStore) (row : Row) (r : WithdrawalRequest).

#[local] Instance created_desc_total : Total created_desc.
Proof.
  intros a b. unfold created_desc.
  destruct (String.leb_total (c_created_at b) (c_created_at a)) as [H|H];
    rewrite H; auto.
Qed.

#[local] Instance created_desc_trans : Transitive created_desc.
Proof.
  intros a b c. unfold created_desc. rewrite !Is_true_true.
  eauto using string_leb_trans.
Qed.

Lemma rows_to_requests_ok (rows : list Row) :
  Forall row_ok rows →
  ∃ rs, Store.rows_to_requests rows = Return rs ∧ Forall2 holds rows rs.
Proof.
  induction 1 as [|row rows ((r & Hdec & Hcreated) & _) _ (rs & IH & Hall)].
  - by exists [].
  - exists (r :: rs). simpl.
    apply row_to_request_decoded in Hdec as Hread. rewrite Hread, IH.
    split; [done|]. by constructor.
Qed.

Lemma holds_sorted (rows : list Row) (rs : list WithdrawalRequest) :
  Forall2 holds rows rs → StronglySorted created_desc rows →
  StronglySorted newest_first rs.
Proof.
  induction 1 as [|row r rows rs [_ Hrow] Hall IH]; [constructor|].
  intros [Hsorted Hhead]%StronglySorted_inv.
  constructor; [by apply IH|].
  clear IH Hsorted. induction Hall as [|row' r' rows rs [_ Hrow'] _ IH'];
    [constructor|].
  apply Forall_cons in Hhead as [Hfirst Hrest].
  constructor; [|by apply IH'].
  unfold created_desc in Hfirst. apply Is_true_true in Hfirst.
  unfold newest_first. by rewrite <- isoformat_leb, <- Hrow, <- Hrow'.
Qed.

Lemma sql_limit_length {A} limit (l : list A) :
  0 ≤ limit → Z.of_nat (length (sql_limit limit l)) ≤ limit.
Proof.
  intros Hpos. unfold sql_limit.
  destruct (Z.ltb_spec limit 0); [lia|]. rewrite length_take. lia.
Qed.

Lemma sql_limit_prefix {A} limit (l : list A) :
  ∃ rest, l = sql_limit limit l ++ rest.
Proof.
  unfold sql_limit. destruct (limit <? 0).
  - exists []. by rewrite app_nil_r.
  - exists (drop (Z.to_nat limit) l). by rewrite take_drop.
Qed.

Lemma select_rows_run filter limit s :
  fits_int64 limit = true →
  _select_rows filter limit s = (Return (selected filter limit s), s).
Proof. intros Hfit. unfold _select_rows, bind_int. by rewrite Hfit. Qed.

Lemma selected_elem filter limit s row :
  row ∈ selected filter limit s →
  row ∈ withdrawals (_conn s)
  ∧ ∀ st, filter = Some st → c_status row = value st.
Proof.
  unfold selected. intros Hin.
  destruct (sql_limit_prefix limit (merge_sort created_desc
    match filter with
    | None => withdrawals (_conn s)
    | Some st => List.filter (λ row, String.eqb (c_status row) (value st))
                   (withdrawals (_conn s))
    end)) as [rest Hsplit].
  assert (row ∈ merge_sort created_desc
    match filter with
    | None => withdrawals (_conn s)
    | Some st => List.filter (λ row, String.eqb (c_status row) (value st))
                   (withdrawals (_conn s))
    end) as Hsorted by (rewrite Hsplit; apply elem_of_app; by left).
  rewrite merge_sort_Permutation in Hsorted.
  destruct filter as [st|].
  - apply list_elem_of_In, filter_In in Hsorted as [Htable Hst].
    split; [by apply list_elem_of_In|]. intros ? [= <-]. by apply String.eqb_eq.
  - split; [done|]. discriminate.
Qed.

Lemma selected_sorted filter limit s :
  StronglySorted created_desc (selected filter limit s).
Proof.
  unfold selected.
  match goal with |- context [sql_limit limit ?l] =>
    destruct (sql_limit_prefix limit l) as [rest Hsplit];
    pose proof (StronglySorted_merge_sort created_desc
      match filter with
      | None => withdrawals (_conn s)
      | Some st => List.filter (λ row, String.eqb (c_status row) (value st))
                     (withdrawals (_conn s))
      end) as Hsorted
  end.
  rewrite Hsplit in Hsorted. by apply StronglySorted_app_1_l in Hsorted.
Qed.


End Listing.

(** * The HTTP wallet client *)

Section HTTPClient.
Context `{RT : PyRuntime}.

Lemma dict_get_absent items key : key ∉ items.*1 → dict_get items key = JNull.
Proof.
  induction items as [|[k v] items IH]; [done|]. simpl.
  rewrite not_elem_of_cons. intros [Hne Hrest].
  destruct (String.eqb_spec k key); [congruence|auto].
Qed.

Lemma transaction_id_of_dict repr_of items :
  transaction_id_of repr_of (JDict items) =
  match List.find truthy ((dict_get items) <$> id_fields) with
  | Some v => Return (str_of repr_of v)
  | None => Raise (Exception WalletError
                     "Wallet response missing transaction identifier" None)
  end.
Proof.
  unfold transaction_id_of. simpl.
  destruct (truthy (dict_get items "transaction_id")) eqn:H1; simpl;
    [by rewrite H1|].
  destruct (truthy (dict_get items "txid")) eqn:H2; simpl; [by rewrite H2|].
  by destruct (truthy (dict_get items "id")) eqn:H3.
Qed.

(** C8, as the code has it. A response whose status is 400 or more makes
    the client raise [WalletError] with the status and the stripped body in
    its message.  Otherwise, when the body decodes to a JSON object, the
    client returns [str] of the first value that is truthy among the fields
    [transaction_id], [txid], [id], in this order, and raises [WalletError]
    when there is none, in particular when none of the fields is present. *)
Theorem HTTP_receive_response repr_of response :
  (400 ≤ r_status response →
   HTTP_receive repr_of (Responded response) =
     Raise (Exception WalletError
              ("Wallet request failed with status " +:+ pretty (r_status response)
               +:+ ": " +:+ strip (r_text response)) None))
  ∧ (r_status response < 400 →
     ∀ items, r_json response = Return (JDict items) →
       HTTP_receive repr_of (Responded response) =
         match List.find truthy ((dict_get items) <$> id_fields) with
         | Some v => Return (str_of repr_of v)
         | None => Raise (Exception WalletError
                            "Wallet response missing transaction identifier" None)
         end
       ∧ ((∀ key, key ∈ id_fields → ¬ has_field (JDict items) key) →
          HTTP_receive repr_of (Responded response) =
            Raise (Exception WalletError
                     "Wallet response missing transaction identifier" None))).
Proof.
  unfold HTTP_receive, HTTP_read. split.
  - intros Hbad. by destruct (Z.leb_spec 400 (r_status response)); [|lia].
  - intros Hgood items Hjson.
    destruct (Z.leb_spec 400 (r_status response)); [lia|].
    rewrite Hjson, transaction_id_of_dict. split; [done|].
    intros Habsent.
    assert (∀ key, key ∈ id_fields → dict_get items key = JNull) as Hnull.
    { intros key Hkey. apply dict_get_absent. intros Hin.
      apply (Habsent key Hkey). by exists items. }
    unfold id_fields in *. simpl.
    rewrite !Hnull; [done|repeat constructor..].
Qed.

End HTTPClient.

Section Counterexamples.
Import TextRuntime Scenario.

Lemma reachable_pending_1 : reachable pending_1.
Proof. apply reachable_after, reachable_new. Qed.

Lemma reachable_approved_1 : reachable approved_1.
Proof. apply reachable_after, reachable_pending_1. Qed.

(** C1 fails as stated: after create, [mark_approved] and [mark_failed] the
    request is failed and still has its transaction identifier. *)
Lemma failed_request_keeps_transaction_id :
  reachable approved_then_failed_1
  ∧ fst (Store.get_request 1 approved_then_failed_1)
    = Return request_1_approved_then_failed
  ∧ transaction_id request_1_approved_then_failed = Some "tx-1"
  ∧ status request_1_approved_then_failed = FAILED.
Proof.
  split; [apply reachable_after, reachable_approved_1|].
  split; [reflexivity|]. split; reflexivity.
Qed.

(** C3 fails as stated: [mark_failed] moves a rejected request to failed. *)
Lemma mark_failed_leaves_terminal_state :
  fst (Store.get_request 1 rejected_1) = Return request_1_rejected
  ∧ terminal (status request_1_rejected) = true
  ∧ fst (Store.get_request 1 (after (mark_failed_ 1 "late failure") rejected_1))
    = Return request_1_rejected_then_failed
  ∧ status request_1_rejected_then_failed = FAILED
  ∧ status request_1_rejected = REJECTED.
Proof.
  split; [reflexivity|]. split; [reflexivity|].
  split; [reflexivity|]. split; reflexivity.
Qed.


(** C8 fails as stated at a body that is not a JSON object: no field is
    present, yet what the client raises is not a [WalletError]. *)
Lemma HTTP_receive_list_body :
  let response := {| r_status := 200; r_text := "[]"; r_json := Return (JList []) |} in
  r_status response < 400
  ∧ (∀ key, key ∈ id_fields → ¬ has_field (JList []) key)
  ∧ ∀ repr_of,
      HTTP_receive repr_of (Responded response) =
        Raise (Exception AttributeError
                 "'list' object has no attribute 'get'" None)
      ∧ ¬ ∃ message cause,
            HTTP_receive repr_of (Responded response) =
              Raise (Exception WalletError message cause).
Proof.
  simpl. split; [done|]. split.
  - by intros key _ (items & ? & _).
  - intros repr_of. split; [done|]. by intros (message & cause & ?).
Qed.

End Counterexamples.

(** * The theorems on the concrete run *)

Section Witnesses.
Import TextRuntime Scenario.

Lemma approve_terminal_witness :
  (fst (Store.get_request 1 (store (world_of rejected_1))) = Return request_1_rejected
   ∧ terminal (status request_1_rejected) = true)
  ∧ Manager.approve_request manager 1 "admin" 1 (world_of rejected_1) =
      (Raise (Exception WithdrawalStateError
                "Cannot move request 1 to processing from rejected" None),
       world_of rejected_1)
  ∧ payments (snd (Manager.approve_request manager 1 "admin" 1
                     (world_of rejected_1))) = [].
Proof.
  split; [split; reflexivity|].
  apply (approve_terminal_fails_without_payment manager 1 "admin" 1
           (world_of rejected_1) request_1_rejected); reflexivity.
Defined.

Lemma approve_processing_witness :
  (fst (Store.get_request 1 (store (world_of processing_1)))
     = Return request_1_processing
   ∧ status request_1_processing = PROCESSING
   ∧ fits_int64 1 = true)
  ∧ (Manager.approve_request manager 1 "admin" 1 (world_of processing_1) =
       (Raise (Exception WithdrawalStateError
                 "Cannot move request 1 to processing from processing" None),
        world_of processing_1)
     ∧ payments (snd (Manager.approve_request manager 1 "admin" 1
                        (world_of processing_1))) = [])
  ∧ ∃ approved s',
      Store.mark_approved 1 "admin" 1 "tx-1" (store (world_of processing_1))
        = (Return approved, s')
      ∧ status approved = APPROVED.
Proof.
  split; [repeat split; reflexivity|].
  destruct (approve_processing_fails_without_payment manager 1 "admin" 1
              (world_of processing_1) request_1_processing eq_refl eq_refl)
    as [Hrefused Haccepted].
  split; [exact Hrefused|]. exact (Haccepted "tx-1" eq_refl).
Defined.

Lemma approve_payment_failure_witness :
  (Store.mark_processing 1 (store (world_of pending_1))
     = (Return request_1_processing, processing_1)
   ∧ send_payment (wallet manager) (length (payments (world_of pending_1)))
       request_1_processing = Raise endpoint_down_error)
  ∧ ∃ failed s2 w2,
      Store.mark_failed 1 (str endpoint_down_error) processing_1
        = (Return failed, s2)
      ∧ status failed = FAILED
      ∧ failure_reason failed = Some (str endpoint_down_error)
      ∧ Manager.approve_request manager 1 "admin" 1 (world_of pending_1) =
          (Raise (Exception WalletError "Wallet transfer failed"
                    (Some endpoint_down_error)), w2)
      ∧ store w2 = s2
      ∧ payments w2 = payments (world_of pending_1) ++ [request_1_processing]
      ∧ fst (Store.get_request 1 (store w2)) = Return failed.
Proof.
  split; [split; reflexivity|].
  apply (approve_payment_failure manager 1 "admin" 1 (world_of pending_1)
           request_1_processing processing_1 endpoint_down_error); reflexivity.
Defined.


Lemma create_request_witness :
  largest_rowid pending_1 < max_int64
  ∧ ∃ r s',
      Store.create_request "Alex" "addr2" "2" "LTC" None None pending_1
        = (Return r, s')
      ∧ status r = PENDING
      ∧ transaction_id r = None ∧ failure_reason r = None
      ∧ approved_by r = None ∧ approved_by_id r = None
      ∧ discord_message_id r = None
      ∧ id r = Some (largest_rowid pending_1 + 1)
      ∧ created_at r = utcnow_at pending_1 (utcnow_calls pending_1)
      ∧ updated_at r = utcnow_at pending_1 (S (utcnow_calls pending_1))
      ∧ player_name r = "Alex" ∧ player_uuid r = None
      ∧ wallet_address r = "addr2"
      ∧ amount r = "2" ∧ currency r = "LTC"
      ∧ metadata r = default empty_dict None
      ∧ fst (Store.get_request (largest_rowid pending_1 + 1) s') = Return r.
Proof.
  split; [reflexivity|].
  apply (create_request_returns_pending pending_1 "Alex" "addr2" "2" "LTC" None None).
  reflexivity.
Defined.

Lemma set_discord_message_witness :
  (fst (Store.get_request 1 pending_1) = Return request_1
   ∧ fits_int64 77 = true)
  ∧ ∃ r' s',
      Store.set_discord_message 1 77 pending_1 = (Return r', s')
      ∧ fst (Store.get_request 1 s') = Return r'
      ∧ discord_message_id r' = Some 77
      ∧ updated_at r' = utcnow_at pending_1 (utcnow_calls pending_1)
      ∧ id r' = id request_1 ∧ player_name r' = player_name request_1
      ∧ player_uuid r' = player_uuid request_1
      ∧ wallet_address r' = wallet_address request_1
      ∧ amount r' = amount request_1 ∧ currency r' = currency request_1
      ∧ status r' = status request_1 ∧ created_at r' = created_at request_1
      ∧ metadata r' = metadata request_1
      ∧ approved_by r' = approved_by request_1
      ∧ approved_by_id r' = approved_by_id request_1
      ∧ transaction_id r' = transaction_id request_1
      ∧ failure_reason r' = failure_reason request_1.
Proof.
  split; [split; reflexivity|].
  apply (set_discord_message_frame pending_1 1 77 request_1); reflexivity.
Defined.

Lemma transaction_id_witness :
  (reachable approved_1
   ∧ fst (Store.get_request 1 approved_1) = Return request_1_approved)
  ∧ (status request_1_approved = APPROVED →
     is_Some (transaction_id request_1_approved))
  ∧ (is_Some (transaction_id request_1_approved) →
     status request_1_approved = APPROVED ∨ status request_1_approved = FAILED).
Proof.
  split; [split; [apply reachable_approved_1|reflexivity]|].
  apply (transaction_id_when_approved approved_1 1 request_1_approved);
    [apply reachable_approved_1|reflexivity].
Defined.

Lemma terminal_status_witness :
  (fst (Store.get_request 1 rejected_1) = Return request_1_rejected
   ∧ terminal (status request_1_rejected) = true)
  ∧ (∃ r', fst (Store.get_request 1
                  (after (mark_approved_ 1 "admin" 1 "tx-2") rejected_1))
             = Return r'
           ∧ status r' = status request_1_rejected)
  ∧ (∀ reason,
       ∃ r', fst (Store.get_request 1 (after (mark_failed_ 1 reason) rejected_1))
               = Return r'
             ∧ status r' = FAILED).
Proof.
  split; [split; reflexivity|].
  destruct (terminal_status_kept rejected_1 (mark_approved_ 1 "admin" 1 "tx-2") 1
              request_1_rejected eq_refl eq_refl) as [Hkept Hfailed].
  split; [|exact Hfailed]. apply Hkept. discriminate.
Defined.


Lemma HTTP_receive_witness :
  HTTP_receive (λ _, "")
    (Responded {| r_status := 503; r_text := " maintenance ";
                  r_json := Raise (Exception JSONDecodeError "Expecting value" None) |})
    = Raise endpoint_down_error
  ∧ HTTP_receive (λ _, "")
      (Responded {| r_status := 200; r_text := "{}";
                    r_json := Return (JDict [("transaction_id", JStr "");
                                             ("txid", JStr "abc");
                                             ("id", JInt 7)]) |})
    = Return "abc"
  ∧ HTTP_receive (λ _, "")
      (Responded {| r_status := 200; r_text := "{}";
                    r_json := Return (JDict [("status", JStr "ok")]) |})
    = Raise (Exception WalletError
               "Wallet response missing transaction identifier" None).
Proof.
  split; [|split].
  - destruct (HTTP_receive_response (λ _, "")
                {| r_status := 503; r_text := " maintenance ";
                   r_json := Raise (Exception JSONDecodeError "Expecting value"
                                      None) |})
      as [Hbad _].
    exact (Hbad ltac:(simpl; lia)).
  - destruct (HTTP_receive_response (λ _, "")
                {| r_status := 200; r_text := "{}";
                   r_json := Return (JDict [("transaction_id", JStr "");
                                            ("txid", JStr "abc");
                                            ("id", JInt 7)]) |})
      as [_ Hgood].
    apply (Hgood ltac:(simpl; lia) _ eq_refl).
  - destruct (HTTP_receive_response (λ _, "")
                {| r_status := 200; r_text := "{}";
                   r_json := Return (JDict [("status", JStr "ok")]) |})
      as [_ Hgood].
    apply (Hgood ltac:(simpl; lia) _ eq_refl).
    intros key Hkey (items & [= <-] & Hin). simpl in Hin.
    rewrite elem_of_cons, elem_of_nil in Hin. destruct Hin as [->|[]].
    unfold id_fields in Hkey. rewrite !elem_of_cons, elem_of_nil in Hkey.
    by destruct Hkey as [|[|[|]]].
Defined.

End Witnesses.

(** * Further properties of the store and the manager *)


Section MoveFacts.
Context `{RT : PyRuntime}.

Implicit Types (s : WithdrawalStore) (row : Row) (r : WithdrawalRequest).

Lemma decoded_unique row r r' : decoded row r → decoded row r' → r = r'.
Proof. intros H1%row_to_request_decoded H2%row_to_request_decoded. congruence. Qed.

Lemma permitted_moves row fields d r :
  decoded row r → permitted (c_status row) fields →
  ∃ r', decoded (update_row fields (isoformat d) row) r' ∧ moves r d r'.
Proof.
  intros Hdec Hperm. pose proof (d_status _ _ Hdec) as Hst.
  inversion Hperm as [text message_id|Hpending|st admin_name admin_id tx Hopen Heq
                     |st admin_name admin_id reason Hopen Heq|text reason]; subst.
  - eexists. split; [|apply (moves_message r d message_id)].
    rewrite (d_approved_by _ _ Hdec), (d_approved_by_id _ _ Hdec),
      (d_transaction_id _ _ Hdec), (d_failure_reason _ _ Hdec).
    by amended row.
  - assert (status r = PENDING) as Hpending'
      by (apply value_inj; by rewrite <- Hst).
    eexists. split; [|by apply moves_processing].
    rewrite (d_discord_message_id _ _ Hdec), (d_approved_by _ _ Hdec),
      (d_approved_by_id _ _ Hdec), (d_transaction_id _ _ Hdec),
      (d_failure_reason _ _ Hdec).
    by amended row.
  - assert (st = status r) as -> by (apply value_inj; congruence).
    eexists. split; [|by apply (moves_approved r d admin_name admin_id tx)].
    rewrite (d_discord_message_id _ _ Hdec). by amended row.
  - assert (st = status r) as -> by (apply value_inj; congruence).
    eexists. split; [|by apply (moves_rejected r d admin_name admin_id reason)].
    rewrite (d_discord_message_id _ _ Hdec), (d_transaction_id _ _ Hdec).
    by amended row.
  - eexists. split; [|apply (moves_failed r d reason)].
    rewrite (d_discord_message_id _ _ Hdec), (d_approved_by _ _ Hdec),
      (d_approved_by_id _ _ Hdec), (d_transaction_id _ _ Hdec).
    by amended row.
Qed.

(** What a call makes of a request the store holds: it leaves it as it is,
    or makes one of the five moves at the clock reading of the call. *)
Lemma after_request s op request_id r :
  fst (Store.get_request request_id s) = Return r →
  ∃ r', fst (Store.get_request request_id (after op s)) = Return r'
        ∧ (r' = r ∨ moves r (now s) r').
Proof.
  intros (Hfit & row & Hrow & Hdec)%get_request_inv.
  destruct (after_cases op s) as [Hsame
    |[(name & address & amt & ccy & uuid & md & Hroom & ->)
     |(other & fields & row' & Hupd & Hrow' & Hperm & ->)]].
  - exists r. split; [|by left]. rewrite (get_request_found _ _ row r); try done.
    by rewrite (row_of_conn _ _ _ Hsame).
  - exists r. split; [|by left]. rewrite (get_request_found _ _ row r); try done.
    unfold row_of, inserted in *. simpl. rewrite find_app_old; [done|].
    by rewrite Hrow.
  - destruct (decide (other = request_id)) as [->|Hne].
    + assert (row' = row) as -> by congruence.
      destruct (permitted_moves row fields (now s) r Hdec Hperm)
        as (r' & Hdec' & Hmoves).
      exists r'. split; [|by right].
      rewrite (get_request_found _ _ (update_row fields (isoformat (now s)) row) r');
        try done.
      by rewrite row_of_updated_same, Hrow.
    + exists r. split; [|by left]. rewrite (get_request_found _ _ row r); try done.
      by rewrite row_of_updated_other.
Qed.

Lemma moves_same_request r d r' : moves r d r' → same_request r r'.
Proof. by destruct 1. Qed.

Lemma moves_status_step r d r' : moves r d r' → status_step (status r) (status r').
Proof.
  unfold status_step. destruct 1; simpl.
  - by left.
  - right; left. done.
  - right; right; left. auto.
  - right; right; left. auto.
  - by right; right; right.
Qed.

Lemma moves_not_pending r d r' :
  moves r d r' → status r ≠ PENDING → status r' ≠ PENDING.
Proof. destruct 1; simpl; congruence. Qed.

End MoveFacts.

Section Identities.
Context `{RT : PyRuntime}.

Implicit Types (s : WithdrawalStore) (row : Row) (r : WithdrawalRequest).

Lemma max_rowid_ids (rows : list Row) :
  max_rowid rows = foldr Z.max 0 (c_id <$> rows).
Proof. induction rows as [|row rows IH]; [done|]. simpl. by rewrite IH. Qed.

Lemma max_of_seq start n :
  foldr Z.max 0 (Z.of_nat <$> seq (S start) n)
  = if decide (n = 0%nat) then 0 else Z.of_nat (start + n).
Proof.
  revert start. induction n as [|n IH]; intros start; [done|].
  simpl seq. rewrite fmap_cons. simpl foldr. rewrite IH.
  repeat case_decide; try lia.
Qed.

Lemma consecutive_largest s :
  consecutive s → largest_rowid s = Z.of_nat (length (withdrawals (_conn s))).
Proof.
  intros [Hids Hseq]. unfold largest_rowid.
  rewrite max_rowid_ids, Hids, Hseq, max_of_seq. case_decide; lia.
Qed.

Lemma consecutive_after op s : consecutive s → consecutive (after op s).
Proof.
  intros Hcons. pose proof Hcons as [Hids Hseq].
  destruct (after_cases op s) as [Hsame
    |[(name & address & amt & ccy & uuid & md & Hroom & ->)
     |(request_id & fields & row & _ & _ & _ & ->)]].
  - unfold consecutive. by rewrite Hsame.
  - unfold consecutive. simpl. rewrite (consecutive_largest s Hcons).
    rewrite length_app, fmap_app, Hids. simpl.
    rewrite Nat.add_1_r, seq_S, fmap_app. simpl.
    rewrite ?(consecutive_largest s Hcons).
    split; [do 2 f_equal; lia|lia].
  - unfold consecutive. simpl. unfold sql_update at 2 3.
    by rewrite sql_update_ids, !length_fmap.
Qed.

Lemma reachable_consecutive s : reachable s → consecutive s.
Proof.
  induction 1 as [clock|op s _ IH]; [done|by apply consecutive_after].
Qed.

End Identities.

Section StoreProperties.
Context `{RT : PyRuntime}.

Implicit Types (s : WithdrawalStore) (row : Row) (r : WithdrawalRequest).

Lemma row_of_none request_id s :
  row_of request_id s = None ↔
  ∀ row, row ∈ withdrawals (_conn s) → c_id row ≠ request_id.
Proof.
  unfold row_of. split.
  - intros Hnone row Hin%list_elem_of_In Heq.
    pose proof (find_none _ _ Hnone row Hin) as Hno.
    unfold has_id in Hno. rewrite Heq, Z.eqb_refl in Hno. done.
  - intros Hall.
    destruct (List.find (has_id request_id) (withdrawals (_conn s)))
      as [row|] eqn:Hfind; [|done].
    apply find_some in Hfind as [Hin%list_elem_of_In Hid%Z.eqb_eq].
    by destruct (Hall row Hin).
Qed.

(** X1. [get_request] never changes the store; when no row has the identity
    asked for (an identity SQLite can hold), it raises
    [WithdrawalNotFoundError] with the message "Unknown request: <id>". *)
Theorem get_request_reads_only s request_id :
  snd (Store.get_request request_id s) = s
  ∧ (fits_int64 request_id = true →
     (∀ row, row ∈ withdrawals (_conn s) → c_id row ≠ request_id) →
     fst (Store.get_request request_id s) =
       Raise (Exception WithdrawalNotFoundError
                ("Unknown request: " +:+ pretty request_id) None))
  ∧ (fits_int64 request_id = false →
     ∃ e, fst (Store.get_request request_id s) = Raise e
          ∧ exn_cls e = OverflowError).
Proof.
  split; [apply get_request_state|]. split.
  - intros Hfit Hnone. apply row_of_none in Hnone. unfold Store.get_request. run.
    by rewrite get_row_fits, Hnone.
  - intros Hfit. unfold Store.get_request. run.
    destruct (get_row_overflow request_id s Hfit) as (e & -> & Hcls). eauto.
Qed.

Lemma held_in_range s k :
  reachable s →
  (∃ r, fst (Store.get_request k s) = Return r ∧ id r = Some k)
  ↔ 1 ≤ k ≤ Z.of_nat (length (withdrawals (_conn s))).
Proof.
  intros Hreach. pose proof (reachable_consecutive s Hreach) as [Hids Hseq].
  pose proof (reachable_ok s Hreach) as [_ Hrows].
  assert (k ∈ c_id <$> withdrawals (_conn s)
          ↔ 1 ≤ k ≤ Z.of_nat (length (withdrawals (_conn s)))) as Hmem.
  { rewrite Hids, list_elem_of_fmap. setoid_rewrite elem_of_seq.
    split; [intros (i & -> & ?); lia|].
    intros Hk. exists (Z.to_nat k). lia. }
  rewrite <- Hmem. split.
  - intros (r & (_ & row & Hrow & Hdec)%get_request_inv & _).
    apply row_of_elem in Hrow as [Hin <-]. by apply list_elem_of_fmap_2.
  - intros (row & -> & Hin)%list_elem_of_fmap.
    destruct (row_of (c_id row) s) as [row'|] eqn:Hrow'; cycle 1.
    { by destruct (proj1 (row_of_none _ _) Hrow' row Hin). }
    apply row_of_elem in Hrow' as Helem. destruct Helem as [Hin' Hid'].
    rewrite Forall_forall in Hrows.
    destruct (Hrows row' Hin') as ((r & Hdec & _) & _ & _ & Hfit).
    exists r. rewrite <- Hid' at 1.
    rewrite (get_request_found _ _ row' r); [|done|by rewrite Hid'|done].
    split; [done|]. rewrite (d_id _ _ Hdec). by rewrite Hid'.
Qed.

(** X2. In every store a sequence of calls leads to, the identities are
    1, 2, ..., n in the order of creation and the AUTOINCREMENT counter is n;
    so [get_request k] returns a request exactly when 1 ≤ k ≤ n, and the
    request it returns carries the identity [k]. *)
Theorem identities_are_consecutive s :
  reachable s →
  c_id <$> withdrawals (_conn s)
    = Z.of_nat <$> seq 1 (length (withdrawals (_conn s)))
  ∧ sqlite_sequence (_conn s) = Z.of_nat (length (withdrawals (_conn s)))
  ∧ ∀ k, (∃ r, fst (Store.get_request k s) = Return r ∧ id r = Some k)
         ↔ 1 ≤ k ≤ Z.of_nat (length (withdrawals (_conn s))).
Proof.
  intros Hreach. pose proof (reachable_consecutive s Hreach) as [Hids Hseq].
  split; [done|]. split; [done|]. intros k. by apply held_in_range.
Qed.

Lemma same_request_refl r : same_request r r.
Proof. by repeat split. Qed.

Lemma same_request_trans r1 r2 r3 :
  same_request r1 r2 → same_request r2 r3 → same_request r1 r3.
Proof.
  unfold same_request. intros (?&?&?&?&?&?&?&?) (?&?&?&?&?&?&?&?).
  repeat split; congruence.
Qed.

(** X3. Whatever sequence of store calls follows, a request the store holds
    keeps its identity, player name and uuid, wallet address, amount,
    currency, creation time and metadata: no call rewrites what was asked
    for. *)
Theorem requested_fields_never_change s (ops : list StoreOp) request_id r :
  fst (Store.get_request request_id s) = Return r →
  ∃ r', fst (Store.get_request request_id (after_all ops s)) = Return r'
        ∧ id r' = id r ∧ player_name r' = player_name r
        ∧ player_uuid r' = player_uuid r
        ∧ wallet_address r' = wallet_address r ∧ amount r' = amount r
        ∧ currency r' = currency r ∧ created_at r' = created_at r
        ∧ metadata r' = metadata r.
Proof.
  revert s r. induction ops as [|op ops IH]; intros s r Hget.
  - exists r. split; [done|]. apply same_request_refl.
  - destruct (after_request s op request_id r Hget) as (r1 & Hget1 & Hstep).
    destruct (IH _ r1 Hget1) as (r' & Hget' & Hsame').
    exists r'. split; [done|].
    apply (same_request_trans r r1 r'); [|done].
    destruct Hstep as [->|Hmoves];
      [apply same_request_refl|by eapply moves_same_request].
Qed.

(** X4. One store call changes the status of a request only along the
    lifecycle: pending to processing, pending or processing to approved or
    rejected, anything to failed.  No call moves a request back to
    pending, and none but [mark_failed]'s move leaves a terminal status. *)
Theorem status_changes_along_lifecycle s op request_id r :
  fst (Store.get_request request_id s) = Return r →
  ∃ r', fst (Store.get_request request_id (after op s)) = Return r'
        ∧ (status r' = status r
           ∨ (status r = PENDING ∧ status r' = PROCESSING)
           ∨ (terminal (status r) = false
              ∧ (status r' = APPROVED ∨ status r' = REJECTED))
           ∨ status r' = FAILED)
        ∧ (status r ≠ PENDING → status r' ≠ PENDING).
Proof.
  intros Hget.
  destruct (after_request s op request_id r Hget) as (r' & Hget' & Hstep).
  exists r'. split; [done|]. destruct Hstep as [->|Hmoves].
  - split; [by left|done].
  - split; [by apply (moves_status_step r (now s))
           |by apply (moves_not_pending r (now s))].
Qed.


End StoreProperties.

Section Atomicity.
Context `{RT : PyRuntime}.

Implicit Types (s : WithdrawalStore) (row : Row) (r : WithdrawalRequest).

Lemma held_row s request_id row :
  store_ok s → row_of request_id s = Some row →
  fits_int64 request_id = true ∧ ∃ r, decoded row r.
Proof.
  intros [_ Hrows] Hrow. apply row_of_elem in Hrow as [Hin <-].
  rewrite Forall_forall in Hrows.
  destruct (Hrows row Hin) as ((r & Hdec & _) & _ & _ & Hfit). eauto.
Qed.

(** X6. In every store a sequence of calls leads to, a store call that
    raises leaves every row of the table as it was: a call either takes
    effect and returns the request, or changes nothing. *)
Theorem raising_call_changes_no_row s op e :
  reachable s →
  fst (call op s) = Raise e →
  _conn (after op s) = _conn s.
Proof.
  intros Hok%reachable_ok. unfold after.
  destruct op as [name address amt ccy uuid md|request_id message_id
    |request_id|request_id admin_name admin_id tx
    |request_id admin_name admin_id reason|request_id reason]; simpl.
  - destruct (Z.lt_ge_cases (largest_rowid s) max_int64) as [Hroom|Hfull].
    + by rewrite create_request_run.
    + by destruct (create_request_full s name address amt ccy uuid md Hfull)
        as (e' & -> & _).
  - assert (snd (Store.set_discord_message request_id message_id s)
            = snd (_update_row request_id [discord_message_id_ message_id] s))
      as Hsnd.
    { unfold Store.set_discord_message. run.
      by destruct (_update_row _ _ s) as [[row|e'] s']. }
    rewrite Hsnd.
    destruct (update_row_state request_id [discord_message_id_ message_id] s)
      as [-> | [-> | ([row Hrow] & Hfit & _)]]; [done..|].
    destruct (held_row s request_id row Hok Hrow) as (Hid & r & Hdec).
    simpl in Hfit. rewrite andb_true_r in Hfit.
    by rewrite (set_discord_message_found _ _ _ row r).
  - rewrite mark_processing_transition.
    match goal with |- context [transition ?i ?a ?m ?f s] =>
      destruct (transition_state i a m f s)
        as [-> | [-> | (row & r & Hrow & Hdec & Hst & _ & _)]]; [done..|]
    end.
    destruct (held_row s request_id row Hok Hrow) as (Hid & _).
    apply bool_decide_eq_true in Hst.
    rewrite <- mark_processing_transition.
    by rewrite (mark_processing_found _ _ row r).
  - rewrite mark_approved_transition.
    match goal with |- context [transition ?i ?a ?m ?f s] =>
      destruct (transition_state i a m f s)
        as [-> | [-> | (row & r & Hrow & Hdec & Hst & Hfit & _)]]; [done..|]
    end.
    destruct (held_row s request_id row Hok Hrow) as (Hid & _).
    apply bool_decide_eq_true, open_status in Hst.
    simpl in Hfit. rewrite andb_true_r in Hfit.
    rewrite <- mark_approved_transition.
    by rewrite (mark_approved_found _ _ _ _ _ row r).
  - rewrite mark_rejected_transition.
    match goal with |- context [transition ?i ?a ?m ?f s] =>
      destruct (transition_state i a m f s)
        as [-> | [-> | (row & r & Hrow & Hdec & Hst & Hfit & _)]]; [done..|]
    end.
    destruct (held_row s request_id row Hok Hrow) as (Hid & _).
    apply bool_decide_eq_true, open_status in Hst.
    simpl in Hfit. rewrite andb_true_r in Hfit.
    rewrite <- mark_rejected_transition.
    by rewrite (mark_rejected_found _ _ _ _ _ row r).
  - destruct (mark_failed_state request_id reason s)
      as [-> | [-> | ([row Hrow] & _)]]; [done..|].
    destruct (held_row s request_id row Hok Hrow) as (Hid & r & Hdec).
    by rewrite (mark_failed_found _ _ _ row r).
Qed.

End Atomicity.

Section ManagerProperties.
Context `{RT : PyRuntime} {W : Type} `{!WalletClient W}.

Implicit Types (w : World) (self : WithdrawalManager W) (s : WithdrawalStore)
  (r : WithdrawalRequest).

Lemma mark_processing_pending s request_id r :
  fst (Store.get_request request_id s) = Return r → status r = PENDING →
  Store.mark_processing request_id s =
    (Return (processing_of r s),
     updated request_id [status_ (value PROCESSING)] s)
  ∧ fst (Store.get_request request_id
           (updated request_id [status_ (value PROCESSING)] s))
    = Return (processing_of r s).
Proof.
  intros (Hfit & row & Hrow & Hdec)%get_request_inv Hst.
  split; [by apply (mark_processing_found _ _ row)|].
  rewrite (amend_persisted _ _ _ row r PROCESSING); try done.
  unfold processing_of. simpl. by_decoded Hdec.
Qed.

Lemma not_pending_forever s (ops : list StoreOp) request_id r :
  fst (Store.get_request request_id s) = Return r → status r ≠ PENDING →
  ∃ r', fst (Store.get_request request_id (after_all ops s)) = Return r'
        ∧ status r' ≠ PENDING.
Proof.
  revert s r. induction ops as [|op ops IH]; intros s r Hget Hst; [eauto|].
  destruct (after_request s op request_id r Hget) as (r1 & Hget1 & Hstep).
  apply (IH _ r1 Hget1).
  destruct Hstep as [->|Hmoves]; [done|by eapply moves_not_pending].
Qed.

Lemma approve_paid self request_id admin_name admin_id w r tx :
  fst (Store.get_request request_id (store w)) = Return r →
  status r = PENDING →
  fits_int64 admin_id = true →
  send_payment (wallet self) (length (payments w)) (processing_of r (store w))
    = Return tx →
  ∃ w',
    Manager.approve_request self request_id admin_name admin_id w
      = (Return (approved_of r (store w) admin_name admin_id tx), w')
    ∧ payments w' = payments w ++ [processing_of r (store w)]
    ∧ fst (Store.get_request request_id (store w'))
      = Return (approved_of r (store w) admin_name admin_id tx).
Proof.
  intros Hget Hst Hadmin Hpay.
  destruct (mark_processing_pending _ _ _ Hget Hst) as [Hmark Hget1].
  rewrite (approve_after_processing _ _ _ _ _ _ _ Hmark), Hpay.
  apply get_request_inv in Hget1 as (Hfit & row1 & Hrow1 & Hdec1).
  rewrite (mark_approved_found _ _ _ _ _ row1 (processing_of r (store w)));
    [|done..|by right|done].
  eexists. split; [done|]. split; [done|]. simpl.
  rewrite (amend_persisted _ _ _ row1 (processing_of r (store w)) APPROVED);
    try done.
  unfold approved_of, processing_of in *. destruct Hdec1; simpl in *. congruence.
Qed.


Lemma approve_failed self request_id admin_name admin_id w r exc :
  fst (Store.get_request request_id (store w)) = Return r →
  status r = PENDING →
  send_payment (wallet self) (length (payments w)) (processing_of r (store w))
    = Raise exc →
  ∃ w',
    Manager.approve_request self request_id admin_name admin_id w
      = (Raise (Exception WalletError "Wallet transfer failed" (Some exc)), w')
    ∧ payments w' = payments w ++ [processing_of r (store w)]
    ∧ fst (Store.get_request request_id (store w'))
      = Return (failed_of r (store w) (str exc)).
Proof.
  intros Hget Hst Hpay.
  destruct (mark_processing_pending _ _ _ Hget Hst) as [Hmark Hget1].
  rewrite (approve_after_processing _ _ _ _ _ _ _ Hmark), Hpay.
  apply get_request_inv in Hget1 as (Hfit & row1 & Hrow1 & Hdec1).
  rewrite (mark_failed_found _ _ _ row1 (processing_of r (store w))) by done.
  eexists. split; [done|]. split; [done|]. simpl.
  rewrite (amend_persisted _ _ _ row1 (processing_of r (store w)) FAILED);
    try done.
  unfold failed_of, processing_of in *. destruct Hdec1; simpl in *. congruence.
Qed.

Lemma mark_approved_unbindable request_id admin_name admin_id tx s row r :
  fits_int64 request_id = true → row_of request_id s = Some row → decoded row r →
  terminal (status r) = false → fits_int64 admin_id = false →
  Store.mark_approved request_id admin_name admin_id tx s =
    (Raise (Exception OverflowError
              "Python int too large to convert to SQLite INTEGER" None),
     ticked s).
Proof.
  intros Hfit Hrow Hdec%row_to_request_decoded Hopen Hadmin.
  rewrite mark_approved_transition. unfold transition. run.
  rewrite get_row_fits, Hrow by done. rewrite Hdec.
  replace (bool_decide (status r ∈ [PENDING; PROCESSING])) with true
    by (by destruct (status r)).
  simpl. rewrite update_row_unfold. simpl. run. unfold bind_int.
  by rewrite Hadmin.
Qed.


Lemma approve_leaves_not_pending self request_id admin_name admin_id w r :
  fst (Store.get_request request_id (store w)) = Return r →
  ∃ r1, fst (Store.get_request request_id
               (store (snd (Manager.approve_request self request_id admin_name
                              admin_id w)))) = Return r1
        ∧ status r1 ≠ PENDING.
Proof.
  intros Hget. destruct (decide (status r = PENDING)) as [Hst|Hst]; cycle 1.
  { rewrite (approve_not_pending _ _ _ _ _ r) by done. eauto. }
  destruct (mark_processing_pending _ _ _ Hget Hst) as [Hmark Hget1].
  rewrite (approve_after_processing _ _ _ _ _ _ _ Hmark).
  set (s1 := updated request_id [status_ (value PROCESSING)] (store w)) in *.
  assert (∀ op, ∃ r1, fst (Store.get_request request_id (snd (call op s1)))
                      = Return r1 ∧ status r1 ≠ PENDING) as Hafter.
  { intros op.
    destruct (after_request s1 op request_id _ Hget1) as (r1 & Hget' & Hstep).
    exists r1. split; [done|].
    destruct Hstep as [->|Hmoves]; [done|].
    by apply (moves_not_pending _ _ _ Hmoves). }
  destruct (send_payment _ _ _) as [tx|exc]; simpl.
  - specialize (Hafter (mark_approved_ request_id admin_name admin_id tx)).
    simpl in Hafter. by destruct (Store.mark_approved _ _ _ _ s1) as [[?|?] ?].
  - specialize (Hafter (mark_failed_ request_id (str exc))).
    simpl in Hafter. by destruct (Store.mark_failed _ _ s1) as [[?|?] ?].
Qed.

(** X9. No request is paid twice through the manager.  Once
    [approve_request] has been called on a request the store holds,
    whatever it returned or raised and whatever store calls follow, every
    later [approve_request] on that request raises [WithdrawalStateError]
    and changes nothing: the wallet is not called and no row is written. *)
Theorem approve_request_pays_at_most_once self request_id admin_name admin_id w r
    (during : list StoreOp) admin_name' admin_id' w' :
  fst (Store.get_request request_id (store w)) = Return r →
  store w' = after_all during
    (store (snd (Manager.approve_request self request_id admin_name admin_id w))) →
  ∃ e, Manager.approve_request self request_id admin_name' admin_id' w'
       = (Raise e, w')
       ∧ exn_cls e = WithdrawalStateError.
Proof.
  intros Hget Hlater.
  destruct (approve_leaves_not_pending self request_id admin_name admin_id w r Hget)
    as (r1 & Hget1 & Hst1).
  destruct (not_pending_forever _ during _ _ Hget1 Hst1) as (r2 & Hget2 & Hst2).
  rewrite <- Hlater in Hget2.
  rewrite (approve_not_pending _ _ _ _ _ r2) by done. eauto.
Qed.

(** X10. Rejecting, through the manager, a request that is pending or
    processing returns and stores it with status rejected, the actor and
    the reason given, and calls no wallet; the transaction identifier is
    left as it was.  Rejecting it again is refused with
    [WithdrawalStateError] and changes nothing. *)
Theorem reject_request_records_and_closes self request_id admin_name admin_id
    reason w r :
  fst (Store.get_request request_id (store w)) = Return r →
  terminal (status r) = false →
  fits_int64 admin_id = true →
  ∃ rejected w',
    Manager.reject_request self request_id admin_name admin_id reason w
      = (Return rejected, w')
    ∧ status rejected = REJECTED
    ∧ approved_by rejected = Some admin_name
    ∧ approved_by_id rejected = Some admin_id
    ∧ failure_reason rejected = reason
    ∧ transaction_id rejected = transaction_id r
    ∧ same_request r rejected
    ∧ payments w' = payments w
    ∧ fst (Store.get_request request_id (store w')) = Return rejected
    ∧ ∀ admin_name' admin_id' reason',
        Manager.reject_request self request_id admin_name' admin_id' reason' w'
        = (Raise (Exception WithdrawalStateError
                    ("Cannot reject request " +:+ pretty request_id +:+
                     " from rejected") None), w').
Proof.
  intros Hget Hopen Hadmin.
  pose proof Hget as (Hfit & row & Hrow & Hdec)%get_request_inv.
  assert (status r = PENDING ∨ status r = PROCESSING) as Hst
    by (destruct (status r); auto; done).
  pose proof (mark_rejected_found request_id admin_name admin_id reason (store w)
                row r Hfit Hrow Hdec Hst Hadmin) as Hmark.
  unfold Manager.reject_request. rewrite (on_store_run _ _ _ _ Hmark).
  set (fields := [status_ (value REJECTED); approved_by_ admin_name;
                  approved_by_id_ admin_id; failure_reason_ reason]) in *.
  set (rejected := amend r REJECTED (now (store w)) (discord_message_id r)
                     (Some admin_name) (Some admin_id) (transaction_id r) reason)
    in *.
  assert (decoded (update_row fields (isoformat (now (store w))) row) rejected)
    as Hdec'.
  { subst rejected. rewrite (d_discord_message_id _ _ Hdec),
      (d_transaction_id _ _ Hdec). by amended row. }
  assert (row_of request_id (updated request_id fields (store w))
          = Some (update_row fields (isoformat (now (store w))) row)) as Hrow'
    by (by rewrite row_of_updated_same, Hrow).
  exists rejected, (with_store (updated request_id fields (store w)) w).
  split; [done|]. repeat (split; [done|]). split.
  { simpl. by rewrite (get_request_found _ _ _ rejected Hfit Hrow' Hdec'). }
  intros admin_name' admin_id' reason'.
  pose proof (mark_rejected_refused request_id admin_name' admin_id' reason' _ _
                rejected Hfit Hrow' Hdec' eq_refl) as Hagain.
  apply (on_store_run _ (with_store (updated request_id fields (store w)) w))
    in Hagain.
  exact Hagain.
Qed.

End ManagerProperties.

Section StandInWallet.
Context `{RT : PyRuntime}.


End StandInWallet.

(** * Further properties of the listing *)

Section ListingProperties.
Context `{RT : PyRuntime}.

Implicit Types (s : WithdrawalStore) (row : Row) (r : WithdrawalRequest).

#[local] Existing Instance created_desc_total.
#[local] Existing Instance created_desc_trans.

Lemma list_requests_run s filter limit :
  store_ok s → fits_int64 limit = true →
  ∃ rs, Store.list_requests filter limit s = (Return rs, s)
        ∧ Forall2 holds (selected filter limit s) rs.
Proof.
  intros [_ Hrows] Hfit.
  assert (Forall row_ok (selected filter limit s)) as Hsel.
  { apply Forall_forall. intros row [Hin _]%selected_elem.
    rewrite Forall_forall in Hrows. auto. }
  destruct (rows_to_requests_ok _ Hsel) as (rs & Hread & Hall).
  exists rs. unfold Store.list_requests. run.
  by rewrite select_rows_run, Hread.
Qed.

Lemma selected_matching filter limit s :
  selected filter limit s
  = sql_limit limit (merge_sort created_desc (matching filter s)).
Proof. reflexivity. Qed.

Lemma sql_limit_all {A} limit (l : list A) :
  limit < 0 ∨ Z.of_nat (length l) ≤ limit → sql_limit limit l = l.
Proof.
  unfold sql_limit. intros Hall. destruct (Z.ltb_spec limit 0); [done|].
  apply take_ge. lia.
Qed.

Lemma sql_limit_count {A} limit (l : list A) :
  Z.of_nat (length (sql_limit limit l))
  = if limit <? 0 then Z.of_nat (length l)
    else Z.min limit (Z.of_nat (length l)).
Proof.
  unfold sql_limit. destruct (Z.ltb_spec limit 0); [done|].
  rewrite length_take. lia.
Qed.


End ListingProperties.

(** * Further properties of the wallet clients *)

Section WalletProperties.
Context `{RT : PyRuntime}.

Lemma find_truthy_elem (vs : list json) v :
  List.find truthy vs = Some v → truthy v = true ∧ v ∈ vs.
Proof. intros [Hin Ht]%find_some. split; [done|by apply list_elem_of_In]. Qed.

(** X13. The HTTP client returns a transaction identifier only for a
    response with status below 400 whose body is a JSON object in which one
    of [transaction_id], [txid], [id] has a truthy value, and what it
    returns is [str] of such a value: a transport error, an error status, a
    body that is not an object or an object without identifier never
    yields one. *)
Theorem HTTP_receive_returns_identifier_only repr_of exchange tx :
  HTTP_receive repr_of exchange = Return tx →
  ∃ response items key,
    exchange = Responded response
    ∧ r_status response < 400
    ∧ r_json response = Return (JDict items)
    ∧ key ∈ id_fields
    ∧ truthy (dict_get items key) = true
    ∧ tx = str_of repr_of (dict_get items key).
Proof.
  unfold HTTP_receive, HTTP_read.
  destruct exchange as [exc|response]; [by destruct (exn_cls exc)|].
  destruct (Z.leb_spec 400 (r_status response)) as [Hbad|Hgood]; [done|].
  destruct (r_json response) as [data|exc] eqn:Hjson;
    [|by destruct (exn_cls exc)].
  destruct data as [| | | | | |items]; try done.
  rewrite transaction_id_of_dict.
  destruct (List.find truthy (dict_get items <$> id_fields)) as [v|] eqn:Hfind;
    [|done].
  intros [= <-]. apply find_truthy_elem in Hfind as [Ht Hin].
  apply list_elem_of_fmap in Hin as (key & -> & Hkey).
  by exists response, items, key.
Qed.

Lemma Piteas_transaction_id_of_dict repr_of items :
  Piteas_transaction_id_of repr_of (JDict items) =
  match List.find truthy ((dict_get items) <$> piteas_id_fields) with
  | Some v => Return (str_of repr_of v)
  | None => Raise (Exception WalletError
                     "Piteas response missing transaction identifier" None)
  end.
Proof.
  unfold Piteas_transaction_id_of. simpl.
  destruct (truthy (dict_get items "transactionHash")) eqn:H0; simpl;
    [by rewrite H0|].
  destruct (truthy (dict_get items "transaction_id")) eqn:H1; simpl;
    [by rewrite H1|].
  destruct (truthy (dict_get items "txid")) eqn:H2; simpl; [by rewrite H2|].
  by destruct (truthy (dict_get items "id")) eqn:H3.
Qed.

(** X14. The Piteas client reads a response as the HTTP client does, with
    [transactionHash] ahead of the three fields: on a JSON object (status
    below 400) it returns [str] of the first truthy value among
    [transactionHash], [transaction_id], [txid], [id] and raises
    [WalletError] when there is none; a truthy [transactionHash] wins over
    the other fields, and without one it returns whatever identifier the
    HTTP client returns for the same response. *)
Theorem Piteas_receive_response repr_of response items :
  r_status response < 400 →
  r_json response = Return (JDict items) →
  Piteas_receive repr_of (Responded response) =
    match List.find truthy ((dict_get items) <$> piteas_id_fields) with
    | Some v => Return (str_of repr_of v)
    | None => Raise (Exception WalletError
                       "Piteas response missing transaction identifier" None)
    end
  ∧ (truthy (dict_get items "transactionHash") = true →
     Piteas_receive repr_of (Responded response)
     = Return (str_of repr_of (dict_get items "transactionHash")))
  ∧ (truthy (dict_get items "transactionHash") = false →
     ∀ tx, HTTP_receive repr_of (Responded response) = Return tx ↔
           Piteas_receive repr_of (Responded response) = Return tx).
Proof.
  intros Hgood Hjson. unfold Piteas_receive, HTTP_receive, Piteas_read, HTTP_read.
  destruct (Z.leb_spec 400 (r_status response)); [lia|].
  rewrite Hjson, Piteas_transaction_id_of_dict, transaction_id_of_dict.
  unfold piteas_id_fields, id_fields. simpl.
  split; [done|]. split; [by intros ->|]. intros ->. intros tx.
  by repeat case_match.
Qed.

End WalletProperties.

Section HTTPManager.
Context `{RT : PyRuntime}.

Implicit Types (w : World) (r : WithdrawalRequest).

(** X15. What a wallet outage leaves on the request.  When a pending
    request is approved through the HTTP client and the endpoint cannot be
    reached, answers with an error status, or answers with a JSON object
    without identifier, [approve_request] raises [WalletError] ("Wallet
    transfer failed") whose cause is the client's [WalletError], and the
    request is stored as failed with the client's message as failure
    reason and no transaction identifier added. *)
Theorem approve_over_HTTP_records_failure (self : WithdrawalManager HTTPWalletClient)
    request_id admin_name admin_id w r reason :
  fst (Store.get_request request_id (store w)) = Return r →
  status r = PENDING →
  (let exchange := post (wallet self) (length (payments w))
                     (HTTP_payload (processing_of r (store w))) in
   (∃ exc, exchange = PostRaised exc ∧ exn_cls exc = ClientError
           ∧ reason = "Failed to contact wallet endpoint")
   ∨ (∃ response, exchange = Responded response ∧ 400 ≤ r_status response
        ∧ reason = "Wallet request failed with status "
                   +:+ pretty (r_status response) +:+ ": "
                   +:+ strip (r_text response))
   ∨ (∃ response items, exchange = Responded response
        ∧ r_status response < 400
        ∧ r_json response = Return (JDict items)
        ∧ (∀ key, key ∈ id_fields → truthy (dict_get items key) = false)
        ∧ reason = "Wallet response missing transaction identifier")) →
  ∃ cause failed w',
    Manager.approve_request self request_id admin_name admin_id w
      = (Raise (Exception WalletError "Wallet transfer failed" (Some cause)), w')
    ∧ exn_cls cause = WalletError ∧ str cause = reason
    ∧ fst (Store.get_request request_id (store w')) = Return failed
    ∧ status failed = FAILED
    ∧ failure_reason failed = Some reason
    ∧ transaction_id failed = transaction_id r.
Proof.
  intros Hget Hst Hexchange.
  assert (∃ cause,
    send_payment (wallet self) (length (payments w)) (processing_of r (store w))
      = Raise cause ∧ exn_cls cause = WalletError ∧ str cause = reason)
    as (cause & Hpay & Hcls & Hreason).
  { unfold send_payment, HTTP_send_payment. fold (HTTP_payload (processing_of r (store w))).
    simpl in Hexchange.
    destruct Hexchange as [(exc & -> & Hexc & ->)
      |[(response & -> & Hbad & ->)|(response & items & -> & Hgood & Hjson & Hnone & ->)]];
      unfold HTTP_receive, HTTP_read.
    - rewrite Hexc. by eexists.
    - destruct (Z.leb_spec 400 (r_status response)); [|lia]. by eexists.
    - destruct (Z.leb_spec 400 (r_status response)); [lia|].
      rewrite Hjson, transaction_id_of_dict. unfold id_fields in *. simpl.
      rewrite !Hnone by (repeat constructor). by eexists. }
  destruct (approve_failed self request_id admin_name admin_id w r cause
              Hget Hst Hpay) as (w' & Happrove & _ & Hstored).
  exists cause, (failed_of r (store w) (str cause)), w'.
  rewrite <- Hreason. by repeat (split; [done|]).
Qed.

End HTTPManager.

(** * Properties of the REST endpoints and of the bot's listener *)

Section ApiProperties.
Context `{RT : PyRuntime} {W : Type} `{!WalletClient W}.

Implicit Types (w : World) (s : WithdrawalStore) (r : WithdrawalRequest)
  (mgr : WithdrawalManager W).

Lemma same_response_from_request r r' :
  same_response r r' → from_request r' = from_request r.
Proof.
  intros ((Hid & Hname & Huuid & Haddr & Hamt & Hccy & _ & Hmd) & Hst & Htx & Hwhy).
  unfold from_request, to_api_dict. simpl.
  by rewrite Hid, Hname, Huuid, Haddr, Hamt, Hccy, Hmd, Hst, Htx, Hwhy.
Qed.

Lemma held_from_request row r :
  holds row r →
  from_request r = Some {|
    resp_id := c_id row;
    resp_status := value (status r);
    resp_player_name := player_name r;
    resp_wallet_address := wallet_address r;
    resp_amount := Decimal_str (amount r);
    resp_currency := currency r;
    resp_player_uuid := player_uuid r;
    resp_metadata := metadata r;
    resp_transaction_id := transaction_id r;
    resp_failure_reason := failure_reason r |}.
Proof. intros [Hdec _]. unfold from_request. simpl. by rewrite (d_id _ _ Hdec). Qed.

Lemma from_requests_held (rows : list Row) (rs : list WithdrawalRequest) :
  Forall2 holds rows rs →
  ∃ responses, from_requests rs = Some responses
    ∧ Forall2 (λ r response, resp_status response = value (status r)) rs responses.
Proof.
  induction 1 as [|row r rows rs Hheld _ (responses & IH & Hall)].
  - by exists [].
  - simpl. rewrite (held_from_request row r Hheld), IH.
    eexists. split; [done|]. by constructor.
Qed.

(** X16. Through the REST endpoint the list is always bounded.  On every
    store a sequence of calls leads to, [GET /withdrawals] leaves the store
    as it is and ends in one of three ways: a limit outside 1..200 is
    refused before the handler runs; a status filter that is not, once
    lower-cased, one of the five status names gives [HTTPException] 400
    "Invalid status filter"; otherwise the handler returns at most [limit]
    (50 by default, never more than 200) responses, all with the status
    asked for, whatever the case it was written in. *)
Theorem list_withdrawals_is_bounded mgr status_filter limit w :
  reachable (store w) →
  ∃ outcome,
    list_withdrawals mgr status_filter limit w = (outcome, w)
    ∧ match outcome with
      | Served responses =>
        1 ≤ default 50 limit ≤ 200
        ∧ Z.of_nat (length responses) ≤ default 50 limit
        ∧ ∀ text, status_filter = Some text →
            Forall (λ response, resp_status response = lower text) responses
      | HTTPException status_code detail _ =>
        status_code = 400 ∧ detail = "Invalid status filter"
        ∧ ∃ text, status_filter = Some text
                  ∧ ∀ st, lower text ≠ value st
      | RequestValidationError => ¬ 1 ≤ default 50 limit ≤ 200
      | ValidationError | Unhandled _ => False
      end.
Proof.
  intros Hreach. pose proof (reachable_ok _ Hreach) as Hok.
  unfold list_withdrawals.
  destruct (Z.leb_spec 1 (default 50 limit)) as [Hlow|Hlow]; simpl;
    [|exists RequestValidationError; split; [done|lia]].
  destruct (Z.leb_spec (default 50 limit) 200) as [Hhigh|Hhigh]; simpl;
    [|exists RequestValidationError; split; [done|lia]].
  assert (fits_int64 (default 50 limit) = true) as Hfit.
  { unfold fits_int64, min_int64, max_int64.
    apply andb_true_iff. split; apply Z.leb_le; lia. }
  assert (∀ filter, ∃ responses,
    (let '(res, w') := on_store (Store.list_requests filter (default 50 limit)) w in
     match res with
     | Return requests =>
       (match from_requests requests with
        | Some responses => Served responses
        | None => ValidationError
        end, w')
     | Raise exc => (Unhandled exc, w')
     end) = (Served responses, w)
    ∧ Z.of_nat (length responses) ≤ default 50 limit
    ∧ ∀ st, filter = Some st →
        Forall (λ response, resp_status response = value st) responses)
    as Hlist.
  { intros filter.
    destruct (list_requests_run (store w) filter _ Hok Hfit) as (rs & Hrun & Hall).
    rewrite (on_store_run _ _ _ _ Hrun), with_store_same.
    destruct (from_requests_held _ _ Hall) as (responses & -> & Hstatus).
    exists responses. split; [done|]. split.
    - rewrite <- (Forall2_length _ _ _ Hstatus), <- (Forall2_length _ _ _ Hall).
      unfold selected. apply sql_limit_length. lia.
    - intros st ->. apply Forall_forall. intros response Hin.
      apply list_elem_of_lookup in Hin as [i Hi].
      destruct (Forall2_lookup_r _ _ _ _ _ Hstatus Hi) as (r & Hr & ->).
      destruct (Forall2_lookup_r _ _ _ _ _ Hall Hr) as (row & Hrow & Hdec & _).
      apply list_elem_of_lookup_2, selected_elem in Hrow as [_ Hst].
      rewrite <- (Hst st eq_refl). by destruct Hdec. }
  destruct status_filter as [text|]; cycle 1.
  { destruct (Hlist None) as (responses & Hrun & Hlen & _).
    exists (Served responses). split; [exact Hrun|]. by repeat split; try lia. }
  destruct (WithdrawalStatus_of (lower text)) as [st|exc] eqn:Hparse.
  - destruct (Hlist (Some st)) as (responses & Hrun & Hlen & Hst).
    exists (Served responses). split; [exact Hrun|].
    split; [lia|]. split; [done|]. intros ? [= <-].
    apply status_of_inv in Hparse. rewrite Hparse. by apply Hst.
  - assert (exn_cls exc = ValueError ∧ ∀ st, lower text ≠ value st) as [-> Hnot].
    { unfold WithdrawalStatus_of in Hparse.
      repeat case_match; try done. injection Hparse as <-. split; [done|].
      intros st Heq. rewrite Heq in *.
      by destruct st. }
    eexists (HTTPException 400 _ exc). split; [done|]. eauto.
Qed.

Lemma after_message s request_id message_id k r :
  fst (Store.get_request k s) = Return r →
  ∃ r', fst (Store.get_request k
               (after (set_discord_message_ request_id message_id) s)) = Return r'
        ∧ same_response r r'
        ∧ (discord_message_id r' = discord_message_id r
           ∨ (request_id = k ∧ discord_message_id r' = Some message_id)).
Proof.
  intros (Hfit & row & Hrow & Hdec)%get_request_inv.
  assert (same_response r r) as Hrefl by (by repeat split).
  destruct (after_cases (set_discord_message_ request_id message_id) s) as [Hsame
    |[(name & address & amt & ccy & uuid & md & Hroom & ->)
     |(other & fields & row' & [= <- <-] & Hrow' & Hperm & ->)]].
  - exists r. split; [|by auto]. rewrite (get_request_found _ _ row r); try done.
    by rewrite (row_of_conn _ _ _ Hsame).
  - exists r. split; [|by auto]. rewrite (get_request_found _ _ row r); try done.
    unfold row_of, inserted in *. simpl. rewrite find_app_old; [done|].
    by rewrite Hrow.
  - destruct (decide (request_id = k)) as [->|Hne].
    + assert (row' = row) as -> by congruence.
      destruct (permitted_moves row _ (now s) r Hdec Hperm)
        as (r' & Hdec' & Hsame%moves_same_request).
      exists r'. split.
      { rewrite (get_request_found _ _
          (update_row [discord_message_id_ message_id] (isoformat (now s)) row)
          r' Hfit); [done| |done].
        by rewrite row_of_updated_same, Hrow. }
      pose proof (d_status _ _ Hdec') as Hst. simpl in Hst.
      rewrite (d_status _ _ Hdec) in Hst. apply value_inj in Hst.
      split; [|right; split; [done|by destruct Hdec']].
      split; [done|]. destruct Hdec, Hdec'; simpl in *. repeat split; congruence.
    + exists r. split; [|by auto]. rewrite (get_request_found _ _ row r); try done.
      by rewrite row_of_updated_other.
Qed.

Lemma same_response_trans r1 r2 r3 :
  same_response r1 r2 → same_response r2 r3 → same_response r1 r3.
Proof.
  intros (Hsame & ? & ? & ?) (Hsame' & ? & ? & ?).
  split; [by eapply same_request_trans|]. repeat split; congruence.
Qed.

Lemma message_ops_keep s (ops : list StoreOp) k r :
  Forall message_op ops →
  fst (Store.get_request k s) = Return r →
  ∃ r', fst (Store.get_request k (after_all ops s)) = Return r'
        ∧ same_response r r'.
Proof.
  intros Hops. revert s r.
  induction Hops as [|op ops (request_id & message_id & ->) _ IH]; intros s r Hget.
  - exists r. split; [done|]. by repeat split.
  - destruct (after_message s request_id message_id k r Hget)
      as (r1 & Hget1 & Hsame1 & _).
    destruct (IH _ _ Hget1) as (r' & Hget' & Hsame').
    exists r'. split; [done|]. by eapply same_response_trans.
Qed.

Lemma after_all_app (ops ops' : list StoreOp) s :
  after_all (ops ++ ops') s = after_all ops' (after_all ops s).
Proof. apply foldl_app. Qed.

Lemma notify_each_store i (listeners : list NewRequestListener) request w :
  Forall attaches_only listeners → is_Some (id request) →
  ∃ ops w', Manager.notify_each i listeners request w = (Return tt, w')
            ∧ Forall message_op ops
            ∧ store w' = after_all ops (store w).
Proof.
  intros Hall Hid. revert i w.
  induction Hall as [|listener listeners Hone _ IH]; intros i w.
  - by exists [], w.
  - simpl. unfold call_listener, logger_exception, on_store. run.
    destruct (Hone request (store w) Hid) as (ops1 & Hops1 & Hstate).
    destruct (listener request (store w)) as [[[]|e] s'];
      simpl in Hstate; subst s'.
    + edestruct IH as (ops & w' & -> & Hops & Hstore).
      exists (ops1 ++ ops), w'. split; [done|].
      split; [by apply Forall_app|]. by rewrite after_all_app, Hstore.
    + edestruct IH as (ops & w' & -> & Hops & Hstore).
      exists (ops1 ++ ops), w'. split; [done|].
      split; [by apply Forall_app|]. by rewrite after_all_app, Hstore.
Qed.

(** The bot's listener only ever attaches a message. *)
Lemma handle_new_request_attaches_only (bot : WithdrawalBot) :
  attaches_only (_handle_new_request bot).
Proof.
  intros request s [k Hid].
  assert (∀ channel, ∃ ops, Forall message_op ops
    ∧ snd ((if negb (text_compatible channel) then mret tt
            else message_id ← lift (send channel request);
                 attach (id request) message_id) s) = after_all ops s) as Hsend.
  { intros channel. destruct (text_compatible channel); simpl; [|by exists []].
    run. destruct (send channel request) as [message_id|exc]; [|by exists []].
    rewrite Hid. simpl. run.
    exists [set_discord_message_ k message_id]. split.
    - constructor; [by eexists _, _|constructor].
    - unfold after_all, after. simpl.
      by destruct (Store.set_discord_message k message_id s) as [[?|?] ?]. }
  unfold _handle_new_request.
  destruct (get_channel bot _) as [channel|]; [apply Hsend|].
  destruct (fetch_channel bot _) as [channel| |exc];
    [apply Hsend|by exists []..].
Qed.

(** X17. What [POST /withdrawals] returns is what [GET /withdrawals/{id}]
    then returns.  While a rowid is left, and with listeners that only
    attach messages (as the bot's listener does), the endpoint answers with
    the new request: the next identity, status pending, the payload's
    fields, no transaction identifier or failure reason; and reading that
    identity back right after gives the same response, whatever the
    listeners attached in between. *)
Theorem created_withdrawal_reads_back mgr payload w :
  largest_rowid (store w) < max_int64 →
  Forall attaches_only (_listeners mgr) →
  ∃ response w',
    create_withdrawal mgr payload w = (Served response, w')
    ∧ response = {|
        resp_id := largest_rowid (store w) + 1;
        resp_status := "pending";
        resp_player_name := wc_player_name payload;
        resp_wallet_address := wc_wallet_address payload;
        resp_amount := Decimal_str (wc_amount payload);
        resp_currency := wc_currency payload;
        resp_player_uuid := wc_player_uuid payload;
        resp_metadata := default empty_dict (wc_metadata payload);
        resp_transaction_id := None;
        resp_failure_reason := None |}
    ∧ get_withdrawal mgr (resp_id response) w' = (Served response, w').
Proof.
  intros Hroom Hlisteners.
  unfold create_withdrawal, Manager.create_request, Manager._notify_new_request.
  unfold mbind at 1, M_bind at 1.
  rewrite (on_store_run _ _ _ _ (create_request_run _ _ _ _ _ _ _ Hroom)).
  set (r := new_request (store w) (wc_player_name payload)
              (wc_wallet_address payload) (wc_amount payload)
              (wc_currency payload) (wc_player_uuid payload) (wc_metadata payload)).
  set (row := new_row (store w) (wc_player_name payload)
                (wc_wallet_address payload) (wc_amount payload)
                (wc_currency payload) (wc_player_uuid payload)
                (wc_metadata payload)).
  destruct (notify_each_store 0 (_listeners mgr) r
              (with_store (inserted row (store w)) w) Hlisteners)
    as (ops & w' & Hrun & Hops & Hstore); [by eexists|].
  unfold mbind, M_bind. rewrite Hrun. run.
  eexists _, w'. split; [done|]. split.
  { subst r. simpl. by rewrite or_empty_default. }
  assert (fst (Store.get_request (largest_rowid (store w) + 1)
                 (inserted row (store w))) = Return r) as Hget.
  { assert (0 ≤ largest_rowid (store w)) as Hpos.
    { pose proof (max_rowid_nonneg (withdrawals (_conn (store w)))).
      unfold largest_rowid. lia. }
    rewrite (get_request_found _ _ row r); [done| | |apply new_row_decoded].
    - unfold fits_int64, min_int64. apply andb_true_iff.
      split; apply Z.leb_le; unfold max_int64 in *; lia.
    - unfold row_of, inserted. simpl.
      apply (find_app_fresh (withdrawals (_conn (store w))) row).
      intros row0 Hin. pose proof (max_rowid_ge _ _ Hin).
      subst row. simpl. unfold largest_rowid in *. lia. }
  destruct (message_ops_keep _ ops _ _ Hops Hget) as (r' & Hget' & Hsame).
  simpl in Hstore. rewrite <- Hstore in Hget'.
  unfold get_withdrawal, Manager.get_request, on_store. simpl.
  pose proof (get_request_state (largest_rowid (store w) + 1) (store w')) as Hstate.
  destruct (Store.get_request _ (store w')) as [res s'].
  simpl in Hget', Hstate. subst res s'.
  unfold respond. rewrite (same_response_from_request _ _ Hsame).
  by destruct w'.
Qed.

(** X18. [GET /withdrawals/{id}] reads only.  On every store a sequence
    of calls leads to, with n requests created, the endpoint leaves
    everything as it is; it answers with the request of that identity when
    1 ≤ id ≤ n, and otherwise (for an identity SQLite can hold) raises
    [HTTPException] 404 whose detail is "Unknown request: <id>". *)
Theorem get_withdrawal_found_or_404 mgr request_id w :
  reachable (store w) → fits_int64 request_id = true →
  (1 ≤ request_id ≤ Z.of_nat (length (withdrawals (_conn (store w)))) →
   ∃ r response,
     fst (Store.get_request request_id (store w)) = Return r
     ∧ from_request r = Some response
     ∧ resp_id response = request_id
     ∧ get_withdrawal mgr request_id w = (Served response, w))
  ∧ (¬ 1 ≤ request_id ≤ Z.of_nat (length (withdrawals (_conn (store w)))) →
     get_withdrawal mgr request_id w =
       (HTTPException 404 ("Unknown request: " +:+ pretty request_id)
          (Exception WithdrawalNotFoundError
             ("Unknown request: " +:+ pretty request_id) None), w)).
Proof.
  intros Hreach Hfit. unfold get_withdrawal, Manager.get_request. split.
  - intros (r & Hget & Hid)%(held_in_range _ _ Hreach).
    pose proof Hget as (_ & row & Hrow & Hdec)%get_request_inv.
    rewrite (on_store_run _ _ _ _ (get_request_found _ _ row r Hfit Hrow Hdec)).
    rewrite with_store_same. unfold respond, from_request. simpl. rewrite Hid.
    eexists r, _. split; [done|]. rewrite Hid. by repeat split.
  - intros Hout.
    destruct (row_of request_id (store w)) as [row|] eqn:Hrow.
    + exfalso. apply Hout, (held_in_range _ _ Hreach).
      pose proof (reachable_ok _ Hreach) as Hok.
      destruct (held_row _ _ _ Hok Hrow) as (_ & r & Hdec).
      exists r. rewrite (get_request_found _ _ row r Hfit Hrow Hdec).
      split; [done|]. rewrite (d_id _ _ Hdec).
      by apply row_of_elem in Hrow as [_ ->].
    + assert (Store.get_request request_id (store w) =
              (Raise (Exception WithdrawalNotFoundError
                        ("Unknown request: " +:+ pretty request_id) None),
               store w)) as Hmiss.
      { unfold Store.get_request. run. by rewrite get_row_fits, Hrow. }
      by rewrite (on_store_run _ _ _ _ Hmiss), with_store_same.
Qed.

(** X19. The manager returns the request as it was before the listeners
    ran.  With the bot's listener registered, a channel found (in the
    cache or by fetching) that is text-compatible, and a message posted
    with an identifier SQLite can hold, [create_request] returns the new
    request without message reference, while the store already holds it
    with the identifier of the posted message; the two agree on every
    other field the API shows. *)
Theorem create_request_returns_before_listeners mgr (bot : WithdrawalBot)
    name address amt ccy uuid md w channel message_id :
  _listeners mgr = [_handle_new_request bot] →
  largest_rowid (store w) < max_int64 →
  get_channel bot (withdrawal_channel_id (settings bot)) = Some channel
  ∨ (get_channel bot (withdrawal_channel_id (settings bot)) = None
     ∧ fetch_channel bot (withdrawal_channel_id (settings bot)) = Fetched channel) →
  text_compatible channel = true →
  send channel (new_request (store w) name address amt ccy uuid md)
    = Return message_id →
  fits_int64 message_id = true →
  ∃ r r' w',
    Manager.create_request mgr name address amt ccy uuid md w = (Return r, w')
    ∧ id r = Some (largest_rowid (store w) + 1)
    ∧ discord_message_id r = None
    ∧ fst (Store.get_request (largest_rowid (store w) + 1) (store w')) = Return r'
    ∧ discord_message_id r' = Some message_id
    ∧ same_response r r'.
Proof.
  intros Hlisteners Hroom Hfound Htext Hsend Hmsg.
  unfold Manager.create_request, Manager._notify_new_request.
  unfold mbind at 1, M_bind at 1.
  rewrite (on_store_run _ _ _ _ (create_request_run _ _ _ _ _ _ _ Hroom)).
  set (r := new_request (store w) name address amt ccy uuid md) in *.
  set (row := new_row (store w) name address amt ccy uuid md).
  set (s1 := inserted row (store w)).
  assert (fits_int64 (largest_rowid (store w) + 1) = true) as Hfit.
  { assert (0 ≤ largest_rowid (store w)) as Hpos.
    { pose proof (max_rowid_nonneg (withdrawals (_conn (store w)))).
      unfold largest_rowid. lia. }
    unfold fits_int64, min_int64. apply andb_true_iff.
    split; apply Z.leb_le; unfold max_int64 in *; lia. }
  assert (row_of (largest_rowid (store w) + 1) s1 = Some row) as Hrow.
  { unfold row_of, s1, inserted. simpl.
    apply (find_app_fresh (withdrawals (_conn (store w))) row).
    intros row0 Hin. pose proof (max_rowid_ge _ _ Hin).
    subst row. simpl. unfold largest_rowid in *. lia. }
  assert (decoded row r) as Hdec by apply new_row_decoded.
  assert (_handle_new_request bot r s1
          = (Return tt,
             updated (largest_rowid (store w) + 1)
               [discord_message_id_ message_id] s1)) as Hlistener.
  { assert ((if negb (text_compatible channel) then mret tt
             else m ← lift (send channel r); attach (id r) m) s1
            = (Return tt,
               updated (largest_rowid (store w) + 1)
                 [discord_message_id_ message_id] s1)) as Hpost.
    { rewrite Htext, Hsend. simpl. run.
      by rewrite (set_discord_message_found _ _ _ row r). }
    unfold _handle_new_request.
    by destruct Hfound as [->|[-> ->]]. }
  rewrite Hlisteners. simpl. unfold call_listener, on_store. run.
  rewrite Hlistener. simpl.
  exists r, (amend r PENDING (now s1) (Some message_id) None None None None).
  eexists. split; [done|]. split; [done|]. split; [done|]. split; [|done].
  simpl.
  rewrite (get_request_found _ _
    (update_row [discord_message_id_ message_id] (isoformat (now s1)) row)
    (amend r PENDING (now s1) (Some message_id) None None None None) Hfit);
    [done|by rewrite row_of_updated_same, Hrow|].
  change PENDING with (status r). by amended row.
Qed.

End ApiProperties.

(** * Properties of the configuration and of the wallet selection *)

Section ConfigProperties.
Context `{RT : PyRuntime}.
Variable int_of : string → option Z.
Variable repr_str : string → string.

Lemma falsy_default (value : option string) :
  falsy value = false → value = Some (default "" value) ∧ default "" value ≠ "".
Proof.
  destruct value as [v|]; [|done]. simpl.
  destruct (String.eqb_spec v ""); [done|]. by split.
Qed.

Lemma parse_int_inv value default n :
  _parse_int int_of repr_str value default = Return (Some n) →
  (falsy value = true ∧ default = Some n)
  ∨ (∃ raw, value = Some raw ∧ raw ≠ "" ∧ int_of raw = Some n).
Proof.
  unfold _parse_int. destruct value as [v|]; simpl; [|intros [= ->]; by left].
  destruct (String.eqb_spec v "") as [->|Hne]; [intros [= ->]; by left|].
  destruct (int_of v) as [m|] eqn:Hint; [|done].
  intros [= ->]. right. by exists v.
Qed.

(** X20. The parser of [ADMIN_ROLE_IDS].  [_parse_int_list] returns the
    empty list for an unset or empty value; otherwise it returns [int] of
    each comma-separated part that is not blank once stripped, in order,
    and raises [ValueError] ("Expected integer but received ...") for the
    first such part that is no integer. *)
Theorem parse_int_list_reads_parts (values : option string) :
  let parts :=
    List.filter (λ raw, negb (String.eqb raw ""))
      (strip <$> split_comma (default "" values)) in
  match _parse_int_list int_of repr_str values with
  | Return ids =>
    if falsy values then ids = []
    else Forall2 (λ raw n, int_of raw = Some n) parts ids
  | Raise exc =>
    falsy values = false
    ∧ ∃ before raw after,
        parts = before ++ raw :: after
        ∧ Forall (λ raw, is_Some (int_of raw)) before
        ∧ int_of raw = None
        ∧ exn_cls exc = ValueError
        ∧ str exc = "Expected integer but received " +:+ repr_str raw
  end.
Proof.
  unfold _parse_int_list. destruct (falsy values) eqn:Hfalsy; [done|].
  simpl. generalize (split_comma (default "" values)). intros raws.
  assert (match parse_parts int_of repr_str raws with
          | Return ids =>
            Forall2 (λ raw n, int_of raw = Some n)
              (List.filter (λ raw, negb (String.eqb raw "")) (strip <$> raws)) ids
          | Raise exc =>
            ∃ before raw after,
              List.filter (λ raw, negb (String.eqb raw "")) (strip <$> raws)
                = before ++ raw :: after
              ∧ Forall (λ raw, is_Some (int_of raw)) before
              ∧ int_of raw = None
              ∧ exn_cls exc = ValueError
              ∧ str exc = "Expected integer but received " +:+ repr_str raw
          end) as Hparts.
  { induction raws as [|raw raws IH]; [constructor|]. simpl.
    destruct (String.eqb_spec (strip raw) "") as [Hblank|Hpart]; simpl; [done|].
    destruct (String.eqb_spec (strip raw) "") as [|_]; [done|].
    destruct (int_of (strip raw)) as [n|] eqn:Hint; simpl.
    - destruct (parse_parts int_of repr_str raws) as [ids|exc].
      + by constructor.
      + destruct IH as (before & bad & after & Heq & Hbefore & Hbad & Hexc).
        exists (strip raw :: before), bad, after.
        split; [simpl; f_equal; exact Heq|]. split; [|done].
        constructor; [by rewrite Hint|done].
    - eexists [], (strip raw), _. by repeat split. }
  destruct (parse_parts int_of repr_str raws); [done|]. by split.
Qed.

Lemma from_env_provider getenv settings :
  from_env int_of repr_str getenv = Return settings →
  (wallet_provider settings = "auto" ∨ wallet_provider settings = "piteas")
  ∧ (wallet_provider settings = "piteas" →
     falsy (piteas_api_key settings) = false
     ∧ falsy (piteas_project_id settings) = false
     ∧ falsy (piteas_wallet_id settings) = false
     ∧ falsy (piteas_asset_symbol settings) = false
     ∧ falsy (piteas_network settings) = false).
Proof.
  unfold from_env.
  destruct (falsy (getenv "DISCORD_TOKEN")); [done|].
  destruct (_parse_int _ _ (getenv "WITHDRAWAL_CHANNEL_ID") None) as [[channel|]|];
    [|done..].
  destruct (_parse_int_list _ _ _) as [ids|]; [|done].
  destruct (_parse_int _ _ (getenv "HOME_GUILD_ID") None) as [guild|]; [|done].
  destruct (_parse_int _ _ (getenv "API_PORT") _) as [port|]; [|done].
  generalize (lower (strip (default "auto" (getenv "WALLET_PROVIDER")))).
  intros provider.
  destruct (String.eqb_spec provider "auto") as [->|Hnot]; simpl.
  - intros [= <-]. simpl. by split; [left|].
  - destruct (String.eqb_spec provider "piteas") as [->|]; simpl; [|done].
    destruct (falsy (getenv "PITEAS_API_KEY")) eqn:H1;
      destruct (falsy (getenv "PITEAS_PROJECT_ID")) eqn:H2;
      destruct (falsy (getenv "PITEAS_WALLET_ID")) eqn:H3;
      destruct (falsy (getenv "PITEAS_ASSET_SYMBOL")) eqn:H4;
      destruct (falsy (getenv "PITEAS_NETWORK")) eqn:H5; simpl; try done.
    intros [= <-]. simpl. by split; [right|].
Qed.

(** X21. What loaded settings guarantee.  When [Settings.from_env]
    returns, the token is the non-empty value of [DISCORD_TOKEN], the
    channel identifier is [int] of the non-empty value of
    [WITHDRAWAL_CHANNEL_ID], the API port is not 0 (8080 replaces an unset
    port and a port of 0), the wallet provider is "auto" or "piteas", and
    with "piteas" the API key, project, wallet, asset symbol and network
    are all set and non-empty. *)
Theorem from_env_validates getenv settings :
  from_env int_of repr_str getenv = Return settings →
  getenv "DISCORD_TOKEN" = Some (discord_token settings)
  ∧ discord_token settings ≠ ""
  ∧ (∃ raw, getenv "WITHDRAWAL_CHANNEL_ID" = Some raw ∧ raw ≠ ""
            ∧ int_of raw = Some (withdrawal_channel_id settings))
  ∧ api_port settings ≠ 0
  ∧ (falsy (getenv "API_PORT") = true → api_port settings = 8080)
  ∧ (wallet_provider settings = "auto" ∨ wallet_provider settings = "piteas")
  ∧ (wallet_provider settings = "piteas" →
     falsy (piteas_api_key settings) = false
     ∧ falsy (piteas_project_id settings) = false
     ∧ falsy (piteas_wallet_id settings) = false
     ∧ falsy (piteas_asset_symbol settings) = false
     ∧ falsy (piteas_network settings) = false).
Proof.
  intros Hload. pose proof (from_env_provider _ _ Hload) as [Hprovider Hpiteas].
  revert Hload. unfold from_env.
  destruct (falsy (getenv "DISCORD_TOKEN")) eqn:Htoken; [done|].
  apply falsy_default in Htoken as [Htoken Hnonempty].
  destruct (_parse_int _ _ (getenv "WITHDRAWAL_CHANNEL_ID") None)
    as [[channel|]|] eqn:Hchannel; [|done..].
  apply parse_int_inv in Hchannel as [[_ [=]]|Hchannel].
  destruct (_parse_int_list _ _ _) as [ids|]; [|done].
  destruct (_parse_int _ _ (getenv "HOME_GUILD_ID") None) as [guild|]; [|done].
  destruct (_parse_int _ _ (getenv "API_PORT") _) as [port|] eqn:Hport; [|done].
  destruct (negb _); [done|]. destruct (_ && _); [done|].
  intros [= <-]. simpl. split; [done|]. split; [done|]. split; [done|].
  split; [|split; [|done]].
  - destruct port as [port|]; [|done]. by destruct (Z.eqb_spec port 0).
  - intros Hunset. unfold _parse_int in Hport.
    destruct (getenv "API_PORT") as [v|]; simpl in Hunset.
    + rewrite Hunset in Hport. by injection Hport as <-.
    + by injection Hport as <-.
Qed.

(** X22. Once the settings have loaded, building the wallet client as
    [main] does never fails one of the "must be provided" checks.  With
    provider "piteas" the Piteas client is built, and its constructor can
    raise only where it handles the URL: when [yarl] refuses the base URL,
    when the base URL has no scheme, or when [yarl] refuses a segment of
    the endpoint path (the project or wallet identifier among them).
    Otherwise the HTTP client is built exactly when [WALLET_ENDPOINT] is
    set and non-empty (its own check cannot fail), and the stand-in client
    when it is not. *)
Theorem main_wallet_after_from_env (URL : Type) (URL_of : string → result URL)
    (scheme : URL → string) (truediv : URL → string → result URL)
    getenv settings :
  from_env int_of repr_str getenv = Return settings →
  match main_wallet URL URL_of scheme truediv settings with
  | Return PiteasWallet => wallet_provider settings = "piteas"
  | Return HTTPWallet =>
    wallet_provider settings = "auto" ∧ falsy (wallet_endpoint settings) = false
  | Return DummyWallet =>
    wallet_provider settings = "auto" ∧ falsy (wallet_endpoint settings) = true
  | Raise exc =>
    wallet_provider settings = "piteas"
    ∧ (URL_of (piteas_base_url settings) = Raise exc
       ∨ ∃ base,
           URL_of (piteas_base_url settings) = Return base
           ∧ ((scheme base = ""
               ∧ exc = Exception ValueError
                         "Piteas base URL must include a scheme (e.g. https://)"
                         None)
              ∨ (scheme base ≠ ""
                 ∧ URL_join URL truediv base
                     ["api"; "projects"; default "" (piteas_project_id settings);
                      "wallets"; default "" (piteas_wallet_id settings);
                      "withdrawals"] = Raise exc)))
  end.
Proof.
  intros [[Hauto|Hpiteas] Hset]%from_env_provider; unfold main_wallet.
  - rewrite Hauto. simpl.
    unfold HTTPWalletClient_init.
    by destruct (falsy (wallet_endpoint settings)).
  - destruct (Hset Hpiteas) as (H1 & H2 & H3 & H4 & H5).
    rewrite Hpiteas. simpl. unfold PiteasWalletClient_init.
    rewrite H1, H2, H3, H4, H5.
    assert (falsy (Some (piteas_base_url settings)) = false) as ->.
    { unfold piteas_base_url.
      destruct (piteas_api_url settings) as [url|]; [|done]. simpl.
      destruct (String.eqb_spec url "") as [|Hurl]; [done|].
      by destruct (String.eqb_spec url ""). }
    cbn -[URL_join].
    destruct (URL_of (piteas_base_url settings)) as [base|exc] eqn:Hbase;
      [|by auto].
    destruct (String.eqb_spec (scheme base) "") as [Hnone|Hscheme].
    + split; [done|]. right. exists base. by auto.
    + destruct (URL_join URL truediv base _) as [endpoint|exc] eqn:Hjoin; [done|].
      split; [done|]. right. exists base. by auto.
Qed.


End ConfigProperties.

(** * The further properties on the concrete run *)

Section FurtherWitnesses.
Import TextRuntime Scenario Deployment.

Lemma identities_witness :
  reachable pending_1
  ∧ c_id <$> withdrawals (_conn pending_1)
    = Z.of_nat <$> seq 1 (length (withdrawals (_conn pending_1)))
  ∧ sqlite_sequence (_conn pending_1)
    = Z.of_nat (length (withdrawals (_conn pending_1)))
  ∧ ∀ k, (∃ r, fst (Store.get_request k pending_1) = Return r ∧ id r = Some k)
         ↔ 1 ≤ k ≤ Z.of_nat (length (withdrawals (_conn pending_1))).
Proof.
  split; [apply reachable_pending_1|].
  apply (identities_are_consecutive pending_1), reachable_pending_1.
Defined.

Lemma requested_fields_witness :
  fst (Store.get_request 1 pending_1) = Return request_1
  ∧ ∃ r', fst (Store.get_request 1
                 (after_all [mark_processing_ 1; mark_failed_ 1 "timeout"]
                    pending_1)) = Return r'
          ∧ id r' = id request_1 ∧ player_name r' = player_name request_1
          ∧ player_uuid r' = player_uuid request_1
          ∧ wallet_address r' = wallet_address request_1
          ∧ amount r' = amount request_1
          ∧ currency r' = currency request_1
          ∧ created_at r' = created_at request_1
          ∧ metadata r' = metadata request_1.
Proof.
  split; [reflexivity|].
  apply (requested_fields_never_change pending_1
           [mark_processing_ 1; mark_failed_ 1 "timeout"] 1 request_1).
  reflexivity.
Defined.

Lemma status_changes_witness :
  fst (Store.get_request 1 pending_1) = Return request_1
  ∧ ∃ r', fst (Store.get_request 1 (after (mark_processing_ 1) pending_1))
            = Return r'
          ∧ (status r' = status request_1
             ∨ (status request_1 = PENDING ∧ status r' = PROCESSING)
             ∨ (terminal (status request_1) = false
                ∧ (status r' = APPROVED ∨ status r' = REJECTED))
             ∨ status r' = FAILED)
          ∧ (status request_1 ≠ PENDING → status r' ≠ PENDING).
Proof.
  split; [reflexivity|].
  apply (status_changes_along_lifecycle pending_1 (mark_processing_ 1) 1 request_1).
  reflexivity.
Defined.


Lemma raising_call_witness :
  (reachable approved_1
   ∧ fst (call (mark_rejected_ 1 "admin" 1 None) approved_1)
     = Raise (Exception WithdrawalStateError
                "Cannot reject request 1 from approved" None))
  ∧ _conn (after (mark_rejected_ 1 "admin" 1 None) approved_1) = _conn approved_1.
Proof.
  split; [split; [apply reachable_approved_1|reflexivity]|].
  apply (raising_call_changes_no_row approved_1 (mark_rejected_ 1 "admin" 1 None)
           (Exception WithdrawalStateError
              "Cannot reject request 1 from approved" None));
    [apply reachable_approved_1|reflexivity].
Defined.



Lemma approve_once_witness :
  (fst (Store.get_request 1 (store (world_of pending_1))) = Return request_1
   ∧ store (world_of (after_all [set_discord_message_ 1 77]
                        (store (snd (Manager.approve_request paying_manager 1
                                       "admin" 1 (world_of pending_1))))))
     = after_all [set_discord_message_ 1 77]
         (store (snd (Manager.approve_request paying_manager 1 "admin" 1
                        (world_of pending_1)))))
  ∧ ∃ e,
      Manager.approve_request paying_manager 1 "root" 2
        (world_of (after_all [set_discord_message_ 1 77]
                     (store (snd (Manager.approve_request paying_manager 1
                                    "admin" 1 (world_of pending_1))))))
      = (Raise e,
         world_of (after_all [set_discord_message_ 1 77]
                     (store (snd (Manager.approve_request paying_manager 1
                                    "admin" 1 (world_of pending_1))))))
      ∧ exn_cls e = WithdrawalStateError.
Proof.
  split; [split; reflexivity|].
  apply (approve_request_pays_at_most_once paying_manager 1 "admin" 1
           (world_of pending_1) request_1 [set_discord_message_ 1 77] "root" 2);
    reflexivity.
Defined.

Lemma reject_request_witness :
  (fst (Store.get_request 1 (store (world_of pending_1))) = Return request_1
   ∧ terminal (status request_1) = false
   ∧ fits_int64 1 = true)
  ∧ ∃ rejected w',
      Manager.reject_request paying_manager 1 "admin" 1
        (Some "Rejected by administrator") (world_of pending_1)
        = (Return rejected, w')
      ∧ status rejected = REJECTED
      ∧ approved_by rejected = Some "admin"
      ∧ approved_by_id rejected = Some 1
      ∧ failure_reason rejected = Some "Rejected by administrator"
      ∧ transaction_id rejected = transaction_id request_1
      ∧ same_request request_1 rejected
      ∧ payments w' = payments (world_of pending_1)
      ∧ fst (Store.get_request 1 (store w')) = Return rejected
      ∧ ∀ admin_name' admin_id' reason',
          Manager.reject_request paying_manager 1 admin_name' admin_id' reason' w'
          = (Raise (Exception WithdrawalStateError
                      ("Cannot reject request " +:+ pretty 1 +:+
                       " from rejected") None), w').
Proof.
  split; [repeat split; reflexivity|].
  apply (reject_request_records_and_closes paying_manager 1 "admin" 1
           (Some "Rejected by administrator") (world_of pending_1) request_1);
    reflexivity.
Defined.



Lemma mark_failed_after_others_witness :
  fst (Store.get_request 1 pending_1) = Return request_1
  ∧ ∃ failed s',
      Store.mark_failed 1 "timeout"
        (foldl (λ s op, after op s) pending_1
           [mark_rejected_ 1 "admin" 1 None; set_discord_message_ 1 77])
        = (Return failed, s')
      ∧ status failed = FAILED ∧ failure_reason failed = Some "timeout"
      ∧ fst (Store.get_request 1 s') = Return failed.
Proof.
  split; [reflexivity|].
  apply (mark_failed_after_others pending_1 1 request_1
           [mark_rejected_ 1 "admin" 1 None; set_discord_message_ 1 77] "timeout").
  reflexivity.
Defined.

Lemma HTTP_identifier_witness :
  HTTP_receive (λ _, "") (Responded paid_response) = Return "abc"
  ∧ ∃ response items key,
      Responded paid_response = Responded response
      ∧ r_status response < 400
      ∧ r_json response = Return (JDict items)
      ∧ key ∈ id_fields
      ∧ truthy (dict_get items key) = true
      ∧ "abc" = str_of (λ _, "") (dict_get items key).
Proof.
  split; [reflexivity|].
  apply (HTTP_receive_returns_identifier_only (λ _, "") (Responded paid_response)
           "abc").
  reflexivity.
Defined.

Lemma Piteas_receive_witness :
  (r_status piteas_response < 400
   ∧ r_json piteas_response
     = Return (JDict [("id", JInt 7); ("transactionHash", JStr "0xabc")]))
  ∧ Piteas_receive (λ _, "") (Responded piteas_response) = Return "0xabc"
  ∧ HTTP_receive (λ _, "") (Responded piteas_response) = Return "7".
Proof.
  split; [split; [simpl; lia|reflexivity]|].
  destruct (Piteas_receive_response (λ _, "") piteas_response
              [("id", JInt 7); ("transactionHash", JStr "0xabc")]
              ltac:(simpl; lia) eq_refl) as (_ & Hhash & _).
  split; [exact (Hhash eq_refl)|reflexivity].
Defined.

Lemma approve_over_HTTP_witness :
  (fst (Store.get_request 1 (store (world_of pending_1))) = Return request_1
   ∧ status request_1 = PENDING
   ∧ post (wallet offline_manager) (length (payments (world_of pending_1)))
       (HTTP_payload (processing_of request_1 (store (world_of pending_1))))
     = PostRaised unreachable
   ∧ exn_cls unreachable = ClientError
   ∧ post (wallet manager) (length (payments (world_of pending_1)))
       (HTTP_payload (processing_of request_1 (store (world_of pending_1))))
     = Responded {| r_status := 503; r_text := " maintenance ";
                    r_json := Raise (Exception JSONDecodeError "Expecting value"
                                       None) |})
  ∧ (∃ cause failed w',
       Manager.approve_request offline_manager 1 "admin" 1 (world_of pending_1)
         = (Raise (Exception WalletError "Wallet transfer failed" (Some cause)), w')
       ∧ exn_cls cause = WalletError
       ∧ str cause = "Failed to contact wallet endpoint"
       ∧ fst (Store.get_request 1 (store w')) = Return failed
       ∧ status failed = FAILED
       ∧ failure_reason failed = Some "Failed to contact wallet endpoint"
       ∧ transaction_id failed = transaction_id request_1)
  ∧ ∃ cause failed w',
      Manager.approve_request manager 1 "admin" 1 (world_of pending_1)
        = (Raise (Exception WalletError "Wallet transfer failed" (Some cause)), w')
      ∧ exn_cls cause = WalletError
      ∧ str cause = "Wallet request failed with status 503: maintenance"
      ∧ fst (Store.get_request 1 (store w')) = Return failed
      ∧ status failed = FAILED
      ∧ failure_reason failed
        = Some "Wallet request failed with status 503: maintenance"
      ∧ transaction_id failed = transaction_id request_1.
Proof.
  split; [repeat split; reflexivity|]. split.
  - apply (approve_over_HTTP_records_failure offline_manager 1 "admin" 1
             (world_of pending_1) request_1 "Failed to contact wallet endpoint");
      [reflexivity|reflexivity|].
    left. exists unreachable. repeat split; reflexivity.
  - apply (approve_over_HTTP_records_failure manager 1 "admin" 1
             (world_of pending_1) request_1
             "Wallet request failed with status 503: maintenance");
      [reflexivity|reflexivity|].
    right; left.
    exists {| r_status := 503; r_text := " maintenance ";
              r_json := Raise (Exception JSONDecodeError "Expecting value" None) |}.
    split; [reflexivity|]. split; [simpl; lia|reflexivity].
Defined.

Lemma list_withdrawals_witness :
  reachable (store (world_of pending_1))
  ∧ ∃ outcome,
      list_withdrawals bot_manager (Some "PENDING") (Some 200) (world_of pending_1)
        = (outcome, world_of pending_1)
      ∧ match outcome with
        | Served responses =>
          1 ≤ default 50 (Some 200) ≤ 200
          ∧ Z.of_nat (length responses) ≤ default 50 (Some 200)
          ∧ ∀ text, Some "PENDING" = Some text →
              Forall (λ response, resp_status response = lower text) responses
        | HTTPException status_code detail _ =>
          status_code = 400 ∧ detail = "Invalid status filter"
          ∧ ∃ text, Some "PENDING" = Some text ∧ ∀ st, lower text ≠ value st
        | RequestValidationError => ¬ 1 ≤ default 50 (Some 200) ≤ 200
        | ValidationError | Unhandled _ => False
        end.
Proof.
  split; [apply reachable_pending_1|].
  apply (list_withdrawals_is_bounded bot_manager (Some "PENDING") (Some 200)
           (world_of pending_1)), reachable_pending_1.
Defined.

Lemma attaching_bot : Forall attaches_only (_listeners bot_manager).
Proof.
  constructor; [apply handle_new_request_attaches_only|constructor].
Qed.

Lemma created_withdrawal_witness :
  (largest_rowid (store (world_of pending_1)) < max_int64
   ∧ Forall attaches_only (_listeners bot_manager))
  ∧ ∃ response w',
      create_withdrawal bot_manager payload_2 (world_of pending_1)
        = (Served response, w')
      ∧ response = {|
          resp_id := largest_rowid (store (world_of pending_1)) + 1;
          resp_status := "pending";
          resp_player_name := wc_player_name payload_2;
          resp_wallet_address := wc_wallet_address payload_2;
          resp_amount := Decimal_str (wc_amount payload_2);
          resp_currency := wc_currency payload_2;
          resp_player_uuid := wc_player_uuid payload_2;
          resp_metadata := default empty_dict (wc_metadata payload_2);
          resp_transaction_id := None;
          resp_failure_reason := None |}
      ∧ get_withdrawal bot_manager (resp_id response) w' = (Served response, w').
Proof.
  split; [split; [reflexivity|apply attaching_bot]|].
  apply (created_withdrawal_reads_back bot_manager payload_2 (world_of pending_1));
    [reflexivity|apply attaching_bot].
Defined.

Lemma get_withdrawal_witness :
  (reachable (store (world_of pending_1)) ∧ fits_int64 5 = true)
  ∧ (∃ r response,
       fst (Store.get_request 1 (store (world_of pending_1))) = Return r
       ∧ from_request r = Some response
       ∧ resp_id response = 1
       ∧ get_withdrawal bot_manager 1 (world_of pending_1)
         = (Served response, world_of pending_1))
  ∧ get_withdrawal bot_manager 5 (world_of pending_1)
    = (HTTPException 404 "Unknown request: 5"
         (Exception WithdrawalNotFoundError "Unknown request: 5" None),
       world_of pending_1).
Proof.
  split; [split; [apply reachable_pending_1|reflexivity]|]. split.
  - apply (get_withdrawal_found_or_404 bot_manager 1 (world_of pending_1));
      [apply reachable_pending_1|reflexivity|simpl; lia].
  - apply (get_withdrawal_found_or_404 bot_manager 5 (world_of pending_1));
      [apply reachable_pending_1|reflexivity|simpl; lia].
Defined.

Lemma create_request_listener_witness :
  (_listeners bot_manager = [_handle_new_request bot]
   ∧ largest_rowid (store (world_of pending_1)) < max_int64
   ∧ get_channel bot (withdrawal_channel_id (settings bot)) = None
   ∧ fetch_channel bot (withdrawal_channel_id (settings bot)) = Fetched channel_42
   ∧ text_compatible channel_42 = true
   ∧ send channel_42 request_2 = Return 77
   ∧ fits_int64 77 = true)
  ∧ ∃ r r' w',
      Manager.create_request bot_manager "Alex" "addr2" "2" "LTC" None None
        (world_of pending_1) = (Return r, w')
      ∧ id r = Some (largest_rowid (store (world_of pending_1)) + 1)
      ∧ discord_message_id r = None
      ∧ fst (Store.get_request (largest_rowid (store (world_of pending_1)) + 1)
               (store w')) = Return r'
      ∧ discord_message_id r' = Some 77
      ∧ same_response r r'.
Proof.
  split; [repeat split; reflexivity|].
  apply (create_request_returns_before_listeners bot_manager bot
           "Alex" "addr2" "2" "LTC" None None (world_of pending_1) channel_42 77);
    [reflexivity|reflexivity|right; split; reflexivity|reflexivity..].
Defined.

Lemma from_env_witness :
  from_env int_of repr_str getenv = Return loaded
  ∧ getenv "DISCORD_TOKEN" = Some (discord_token loaded)
  ∧ discord_token loaded ≠ ""
  ∧ (∃ raw, getenv "WITHDRAWAL_CHANNEL_ID" = Some raw ∧ raw ≠ ""
            ∧ int_of raw = Some (withdrawal_channel_id loaded))
  ∧ api_port loaded ≠ 0
  ∧ (falsy (getenv "API_PORT") = true → api_port loaded = 8080)
  ∧ (wallet_provider loaded = "auto" ∨ wallet_provider loaded = "piteas")
  ∧ (wallet_provider loaded = "piteas" →
     falsy (piteas_api_key loaded) = false
     ∧ falsy (piteas_project_id loaded) = false
     ∧ falsy (piteas_wallet_id loaded) = false
     ∧ falsy (piteas_asset_symbol loaded) = false
     ∧ falsy (piteas_network loaded) = false).
Proof.
  split; [reflexivity|].
  apply (from_env_validates int_of repr_str getenv loaded). reflexivity.
Defined.

Lemma main_wallet_witness :
  from_env int_of repr_str getenv_piteas = Return loaded_piteas
  ∧ main_wallet string url_of url_scheme url_truediv loaded_piteas
    = Return PiteasWallet
  ∧ wallet_provider loaded_piteas = "piteas".
Proof.
  split; [reflexivity|]. split; [reflexivity|].
  apply (main_wallet_after_from_env int_of repr_str string url_of url_scheme
           url_truediv getenv_piteas loaded_piteas).
  reflexivity.
Defined.


End FurtherWitnesses.
